(** * LPPS: locomotive risk / performance prediction engine

    Shallow embedding of [app/models/locomotive.py] (the risk and
    reliability methods of [Locomotive]), of [app/loco_ml_service.py]
    (the class [LocomotiveMLService]) and of the prediction part of
    [bulk_predict] in [app/routes/loco_predictions.py].

    Numbers.  Python [int]s are [Z].  Python [float]s are modelled as
    exact rationals [Q]: a decimal literal such as [0.6] is the rational
    [6/10], and [+], [-], [*], [/] are exact; comparisons, [min], [max],
    [int] and [round] keep their Python meaning on the exact value.  The
    rounding of binary64 is outside that model, which serves for bounds,
    monotonicity and structure.  The module [Binary64] models the risk
    score again with every float operation rounded to the nearest
    binary64, for the statements that depend on the side of a threshold;
    the two scores differ by at most [2^-40] ([binary64_score_close]).

    Environment.  Everything the code reads from the wall clock
    ([datetime.now()], [date.today()]) is an explicit [Clock] argument.
    The pickled model artifacts are opaque: they are fields of the record
    [LocomotiveMLService], each a function that may raise. *)

From Stdlib Require Import ZArith QArith Qabs Qpower Qround Qminmax Lqa Lia.
From Stdlib Require SpecFloat.
From stdpp Require Import gmap strings list pretty.

#[local] Set Warnings "-clear-no-such-hyp".

Open Scope string_scope.
Open Scope list_scope.
Open Scope Q_scope.

(** ** Python numerics *)

Module Py.

Definition Qlt_bool (a b : Q) : bool := negb (Qle_bool b a).

(** [min(a, b)]: the first argument wins unless the second is strictly
    smaller. *)
Definition min (a b : Q) : Q := if Qlt_bool b a then b else a.

(** [max(a, b)]: the first argument wins unless the second is strictly
    larger. *)
Definition max (a b : Q) : Q := if Qlt_bool a b then b else a.

(** [int(x)] on a float: truncation towards zero. *)
Definition int (x : Q) : Z := Z.quot (Qnum x) (Z.pos (Qden x)).

(** Round to the nearest integer, ties to the even one. *)
Definition round_half_even (x : Q) : Z :=
  let f := Qfloor x in
  match Qcompare (x - inject_Z f) (1 # 2) with
  | Lt => f
  | Gt => (f + 1)%Z
  | Eq => if Z.even f then f else (f + 1)%Z
  end.

(** [round(x, ndigits)] on a float. *)
Definition round (x : Q) (ndigits : nat) : Q :=
  let scale := inject_Z (10 ^ Z.of_nat ndigits) in
  inject_Z (round_half_even (x * scale)) / scale.

(** [round(n, ndigits)] on an [int] with [ndigits >= 0] returns the
    [int] unchanged. *)
Definition round_int (n : Z) (ndigits : nat) : Z := n.

End Py.

(** ** Exceptions *)

Inductive exn : Type :=
| ZeroDivisionError
| ValueError (msg : string)
| OtherError (msg : string).

(** A computation that returns a value or raises. *)
Definition raises (A : Type) : Type := exn + A.

Definition raise {A} (e : exn) : raises A := inl e.

#[global] Instance raises_ret : MRet raises := fun A a => inr a.
#[global] Instance raises_bind : MBind raises := fun A B k m =>
  match m with
  | inl e => inl e
  | inr a => k a
  end.

(** True division [a / b]. *)
Definition truediv (a b : Q) : raises Q :=
  if Qeq_bool b 0 then raise ZeroDivisionError else mret (a / b).

(** [try: ... except Exception: return None] *)
Definition try_or_None {A} (m : raises A) : option A :=
  match m with
  | inl _ => None
  | inr a => Some a
  end.

(** ** The wall clock *)

Record Clock : Type := {
  now_year : Z;        (* datetime.now().year *)
  now_month : Z;       (* datetime.now().month *)
  today : Z;           (* date.today(), as a day ordinal *)
  now_iso : string     (* datetime.now().isoformat() *)
}.

(** ** app/models/locomotive.py *)

Record Locomotive : Type := {
  locomotive_id : string;
  model : string;
  manufacturing_year : Z;
  operating_hours : Z;
  last_maintenance : option Z;   (* a date as a day ordinal, or None *)
  current_status : string;
  fleet : option string          (* getattr(locomotive, 'fleet', 'NRZ') *)
}.

Record MaintenanceItem : Type := {
  item_type : string;
  item_priority : string;
  item_description : string
}.

Section LocomotiveMethods.

Variable clk : Clock.
Variable self : Locomotive.

(** [Locomotive.age] *)
Definition age : Z := now_year clk - manufacturing_year self.

(** [(date.today() - self.last_maintenance).days] *)
Definition days_since (d : Z) : Z := today clk - d.

(** [Locomotive.calculate_risk_score] *)
Definition calculate_risk_score : Q :=
  let age_risk := Py.min 50 (inject_Z (age * 2)) in
  let usage_risk := Py.min 30 ((inject_Z (operating_hours self) / 1000) * (6 # 10)) in
  let maintenance_risk :=
    match last_maintenance self with
    | Some d =>
        let days_since_maintenance := days_since d in
        Py.min 20 (inject_Z days_since_maintenance * (2 # 10))
    | None => 20
    end in
  let total_risk := age_risk + usage_risk + maintenance_risk in
  Py.min 100 total_risk.

(** The cascade shared by [get_risk_level] and [predict_performance]. *)
Definition risk_level_of (score : Q) : string :=
  if Qle_bool 70 score then "High"
  else if Qle_bool 40 score then "Medium"
  else "Low".

(** [Locomotive.get_risk_level] *)
Definition get_risk_level : string :=
  let score := calculate_risk_score in
  risk_level_of score.

(** [Locomotive.calculate_reliability] *)
Definition calculate_reliability : Q :=
  let reliability := 100 in
  let age_factor := Py.min 30 (inject_Z age * (15 # 10)) in
  let reliability := reliability - age_factor in
  let usage_factor := Py.min 20 ((inject_Z (operating_hours self) / 10000) * 2) in
  let reliability := reliability - usage_factor in
  let reliability :=
    match last_maintenance self with
    | Some d =>
        let days_since_maintenance := days_since d in
        if (90 <? days_since_maintenance)%Z then
          let maintenance_factor :=
            Py.min 15 (inject_Z (days_since_maintenance - 90) * (1 # 10)) in
          reliability - maintenance_factor
        else reliability
    | None => reliability - 15
    end in
  let reliability :=
    if String.eqb (current_status self) "repair" then reliability - 25
    else if String.eqb (current_status self) "maintenance" then reliability - 10
    else reliability in
  Py.max 0 (Py.min 100 reliability).

(** [Locomotive.get_maintenance_recommendations] *)
Definition get_maintenance_recommendations : list MaintenanceItem :=
  let recommendations := [] in
  let score := calculate_risk_score in
  let recommendations :=
    if (20 <? age)%Z then
      recommendations ++
        [ {| item_type := "Engine Overhaul";
             item_priority := if (25 <? age)%Z then "High" else "Medium";
             item_description := "Consider major engine overhaul due to age" |} ]
    else recommendations in
  let recommendations :=
    if (50000 <? operating_hours self)%Z then
      recommendations ++
        [ {| item_type := "Transmission Service";
             item_priority := "High";
             item_description := "Transmission requires major service" |} ]
    else recommendations in
  let recommendations :=
    if match last_maintenance self with
       | None => true
       | Some d => (90 <? days_since d)%Z
       end
    then
      recommendations ++
        [ {| item_type := "Routine Maintenance";
             item_priority := "High";
             item_description := "Overdue for routine maintenance" |} ]
    else recommendations in
  let recommendations :=
    if Py.Qlt_bool 60 score then
      recommendations ++
        [ {| item_type := "Comprehensive Inspection";
             item_priority := "High";
             item_description := "Full system inspection recommended" |} ]
    else recommendations in
  recommendations.

End LocomotiveMethods.

(** ** app/loco_ml_service.py *)

(** A one-row [pandas.DataFrame]: the named columns in order. *)
Definition DataFrame : Type := list (string * Q).

Fixpoint column (name : string) (df : DataFrame) : option Q :=
  match df with
  | [] => None
  | (k, v) :: rest => if String.eqb k name then Some v else column name rest
  end.

(** The service object.  [models_loaded] is set by [_load_models]; the
    other fields are the unpickled artifacts, used through the one method
    the service calls on each of them. *)
Record LocomotiveMLService : Type := {
  models_loaded : bool;
  risk_model : list Q -> raises Q;                    (* .predict(x)[0] *)
  reliability_model : list Q -> raises Q;             (* .predict(x)[0] *)
  scaler : DataFrame -> raises (list Q);              (* .transform(df) *)
  fleet_encoder : string -> raises Q;                 (* .transform([s])[0] *)
  reliability_encoder : string -> raises Q;           (* .transform([s])[0] *)
  reliability_encoder_inverse : Q -> raises string;   (* .inverse_transform([c])[0] *)
  age_encoder : string -> raises Q                    (* .transform([s])[0] *)
}.

(** Values stored in the result dictionary. *)
Inductive value : Type :=
| VStr (s : string)
| VInt (n : Z)
| VNum (x : Q)
| VDict (d : gmap string Q)
| VList (l : list string).

(** [current_month in [12, 1, 2]] and [current_month in [6, 7, 8]] *)
Definition winter_month (m : Z) : bool := ((m =? 12) || (m =? 1) || (m =? 2))%Z.
Definition summer_month (m : Z) : bool := ((m =? 6) || (m =? 7) || (m =? 8))%Z.

(** [prediction_type == 'all' or prediction_type == metric] *)
Definition requested (prediction_type metric : string) : bool :=
  String.eqb prediction_type "all" || String.eqb prediction_type metric.

Section Service.

Variable svc : LocomotiveMLService.
Variable clk : Clock.

(** The body of the [try] block of [_prepare_locomotive_features]. *)
Definition prepare_locomotive_features_body (locomotive : Locomotive) : raises DataFrame :=
  let loco_type := if String.eqb (model locomotive) "DE10" then 1 else 2 in
  let age := age clk locomotive in
  let operating_hours := operating_hours locomotive in
  let availability_days := Z.max 300 (365 - age * 5) in
  let distance_travelled := (operating_hours * 50)%Z in
  distance_per_day ←
    (if (0 <? availability_days)%Z
     then truediv (inject_Z distance_travelled) 365
     else mret 0);
  hours_10000 ← truediv (inject_Z operating_hours) 10000;
  let total_failures := Py.max 0 (inject_Z (age * 2) + hours_10000) in
  let reliability := Py.max 60 (95 - inject_Z (age * 2) - total_failures * 5) in
  hours_1000 ← truediv (inject_Z operating_hours) 1000;
  failure_rate ← truediv total_failures (Py.max 1 hours_1000);
  usage_intensity ←
    truediv (inject_Z operating_hours) (Py.max 1 (inject_Z (age * 365 * 24)));
  let maintenance_frequency := Py.max 2 (inject_Z age * (5 # 10)) in
  let fuel_efficiency := Py.max 70 (90 - inject_Z age * (15 # 10)) in
  efficiency_score ← truediv (reliability + fuel_efficiency) 2;
  let maintenance_score := Py.max 60 (100 - maintenance_frequency * 10) in
  let risk_score := total_failures * 10 + inject_Z (age * 2) + failure_rate * 100 in
  let reliability_category :=
    if Qle_bool 90 reliability then "High"
    else if Qle_bool 75 reliability then "Medium"
    else if Qle_bool 60 reliability then "Low"
    else "Critical" in
  let age_category :=
    if (age <=? 5)%Z then "New"
    else if (age <=? 10)%Z then "Young"
    else if (age <=? 20)%Z then "Mature"
    else "Old" in
  let fleet_type := default "NRZ" (fleet locomotive) in
  fleet_encoded ← fleet_encoder svc fleet_type;
  reliability_encoded ← reliability_encoder svc reliability_category;
  age_encoded ← age_encoder svc age_category;
  failure_rate_per_hour ← truediv total_failures (Py.max 1 (inject_Z operating_hours));
  distance_per_hour ←
    truediv (inject_Z distance_travelled) (Py.max 1 (inject_Z operating_hours));
  availability_rate ← truediv (inject_Z availability_days) 365;
  mret
    [ ("LOCO_TYPE", loco_type);
      ("YEAR", inject_Z (now_year clk));
      ("Availability_Days", inject_Z availability_days);
      ("Distance_Travelled", inject_Z distance_travelled);
      ("Distance_per_day", distance_per_day);
      ("Total_Failures", total_failures);
      ("Reliability", reliability);
      ("Failure_Rate", failure_rate);
      ("Age_of_Locomotive", inject_Z age);
      ("Usage_Intensity", usage_intensity);
      ("Maintenance_Frequency", maintenance_frequency);
      ("Fuel_Efficiency", fuel_efficiency);
      ("Operating_Hours", inject_Z operating_hours);
      ("Fleet_Type_Encoded", fleet_encoded);
      ("Efficiency_Score", efficiency_score);
      ("Maintenance_Score", maintenance_score);
      ("Reliability_Category_Encoded", reliability_encoded);
      ("Age_Category_Encoded", age_encoded);
      ("Failure_Rate_per_Hour", failure_rate_per_hour);
      ("Distance_per_Hour", distance_per_hour);
      ("Availability_Rate", availability_rate) ].

(** [LocomotiveMLService._prepare_locomotive_features] *)
Definition _prepare_locomotive_features (locomotive : Locomotive) : option DataFrame :=
  try_or_None (prepare_locomotive_features_body locomotive).

(** [LocomotiveMLService._generate_specific_predictions] *)
Definition _generate_specific_predictions (locomotive : Locomotive)
    (prediction_type : string) (period_days : Z) (risk_score : Q)
    (reliability_category : string) : gmap string Q :=
  let predictions : gmap string Q := ∅ in
  let age := age clk locomotive in
  let operating_hours := operating_hours locomotive in
  let predictions :=
    if requested prediction_type "availability_days" then
      let base_availability := Z.max 250 (365 - age * 8) in
      let risk_factor := 1 - risk_score / 200 in
      let predicted_availability := Py.int (inject_Z base_availability * risk_factor) in
      <["availability_days" := inject_Z (Z.max 0 predicted_availability)]> predictions
    else predictions in
  let predictions :=
    if requested prediction_type "distance_travelled" then
      let base_distance := (operating_hours * 45)%Z in
      let risk_factor := 1 - risk_score / 300 in
      let predicted_distance := Py.int (inject_Z base_distance * risk_factor) in
      <["distance_travelled" := inject_Z (Z.max 0 predicted_distance)]> predictions
    else predictions in
  let predictions :=
    if requested prediction_type "distance_per_day" then
      let base_daily_distance := 120 in
      let risk_factor := 1 - risk_score / 200 in
      let predicted_daily_distance := Py.round (base_daily_distance * risk_factor) 2 in
      <["distance_per_day" := Py.max 0 predicted_daily_distance]> predictions
    else predictions in
  let predictions :=
    if requested prediction_type "total_failures" then
      let base_failure_rate := inject_Z age * (5 # 10) + inject_Z operating_hours / 15000 in
      let risk_factor := 1 + risk_score / 100 in
      let predicted_failures := Py.int (base_failure_rate * risk_factor) in
      <["total_failures" := inject_Z (Z.max 0 predicted_failures)]> predictions
    else predictions in
  let predictions :=
    if requested prediction_type "reliability" then
      let base_reliability := Py.max 50 (95 - inject_Z age * (25 # 10)) in
      let risk_factor := 1 - risk_score / 150 in
      let predicted_reliability := Py.round (base_reliability * risk_factor) 2 in
      <["reliability" := Py.max 0 (Py.min 100 predicted_reliability)]> predictions
    else predictions in
  let predictions :=
    if requested prediction_type "fuel_efficiency" then
      let base_efficiency := Py.max 60 (90 - inject_Z age * (18 # 10)) in
      let risk_factor := 1 - risk_score / 200 in
      let predicted_efficiency := Py.round (base_efficiency * risk_factor) 2 in
      <["fuel_efficiency" := Py.max 0 (Py.min 100 predicted_efficiency)]> predictions
    else predictions in
  predictions.

End Service.

(** *** Recommendation tables *)

(** The basic risk-level statement that opens [_generate_recommendations]. *)
Definition basic_risk_assessment (risk_level : string) : string :=
  if String.eqb risk_level "High" then
    "🚨 URGENT: High risk detected. Schedule immediate inspection before operations."
  else if String.eqb risk_level "Medium" then
    "📅 Medium risk level. Monitor performance closely during operations."
  else
    "✅ Low risk level. Locomotive is in good operational condition.".

(** [_get_availability_recommendations] *)
Definition _get_availability_recommendations (risk_level : string) (age hours : Z)
    : list string :=
  let recommendations :=
    if String.eqb risk_level "High" then
      [ "📉 LOW AVAILABILITY EXPECTED: Schedule extended maintenance downtime to improve reliability.";
        "🛠️ Multiple system checks required. Consider component replacement." ]
    else if String.eqb risk_level "Medium" then
      [ "📊 MODERATE AVAILABILITY: Plan maintenance during low-demand periods.";
        "🔍 Increase inspection frequency to prevent unexpected downtime." ]
    else
      [ "📈 HIGH AVAILABILITY EXPECTED: Continue current maintenance schedule.";
        "✅ Suitable for continuous operations and high-demand periods." ] in
  let recommendations :=
    if (20 <? age)%Z then
      recommendations ++
        [ "⏰ AGED LOCOMOTIVE: Plan for increased maintenance windows due to age." ]
    else recommendations in
  recommendations.

(** [_get_distance_recommendations] *)
Definition _get_distance_recommendations (risk_level : string) (age hours : Z)
    : list string :=
  let recommendations :=
    if String.eqb risk_level "High" then
      [ "🛤️ LIMITED DISTANCE CAPABILITY: Avoid long-distance routes (>500km).";
        "📉 Reduced operational range expected. Plan for shorter routes." ]
    else if String.eqb risk_level "Medium" then
      [ "🛤️ MODERATE DISTANCE CAPABILITY: Suitable for medium-distance routes (200-500km).";
        "📊 Monitor fuel consumption and system performance on longer routes." ]
    else
      [ "🛤️ HIGH DISTANCE CAPABILITY: Suitable for long-distance operations.";
        "✅ Can handle extended routes and heavy freight operations." ] in
  let recommendations :=
    if (50000 <? hours)%Z then
      recommendations ++
        [ "⏱️ HIGH USAGE: Consider route planning to minimize wear on high-mileage components." ]
    else recommendations in
  recommendations.

(** [_get_daily_distance_recommendations] *)
Definition _get_daily_distance_recommendations (risk_level : string) (age hours : Z)
    : list string :=
  let recommendations :=
    if String.eqb risk_level "High" then
      [ "📉 LOW DAILY DISTANCE: Limit to short-haul operations (<200km/day).";
        "🛠️ System performance issues affecting daily range. Schedule diagnostics." ]
    else if String.eqb risk_level "Medium" then
      [ "📊 MODERATE DAILY DISTANCE: Suitable for medium-haul operations (200-400km/day).";
        "🔍 Monitor daily performance metrics and fuel consumption." ]
    else
      [ "📈 HIGH DAILY DISTANCE: Capable of long-haul operations (>400km/day).";
        "✅ Optimal for high-intensity daily operations." ] in
  let recommendations :=
    if (20 <? age)%Z then
      recommendations ++
        [ "⏰ AGED LOCOMOTIVE: Daily distance may be limited by component wear." ]
    else recommendations in
  recommendations.

(** [_get_failure_recommendations] *)
Definition _get_failure_recommendations (risk_level : string) (age hours : Z)
    : list string :=
  let recommendations :=
    if String.eqb risk_level "High" then
      [ "⚠️ HIGH FAILURE RISK: Schedule comprehensive maintenance before operations.";
        "🚫 Avoid critical routes. Have backup locomotive ready." ]
    else if String.eqb risk_level "Medium" then
      [ "📊 MODERATE FAILURE RISK: Increase monitoring frequency during operations.";
        "🛠️ Schedule preventive maintenance to reduce failure probability." ]
    else
      [ "✅ LOW FAILURE RISK: Continue current maintenance practices.";
        "📈 Suitable for critical and time-sensitive operations." ] in
  let recommendations :=
    if (20 <? age)%Z then
      recommendations ++
        [ "🔧 AGED LOCOMOTIVE: Higher failure risk due to component aging." ]
    else recommendations in
  let recommendations :=
    if (50000 <? hours)%Z then
      recommendations ++
        [ "⏱️ HIGH USAGE: Component fatigue may increase failure probability." ]
    else recommendations in
  recommendations.

(** [_get_reliability_recommendations] *)
Definition _get_reliability_recommendations (risk_level reliability_category : string)
    (age hours : Z) : list string :=
  let recommendations :=
    if String.eqb reliability_category "Critical" then
      [ "🔴 CRITICAL RELIABILITY: Do not assign to critical routes or time-sensitive operations.";
        "🛠️ Schedule comprehensive diagnostic check. Multiple systems need attention." ]
    else if String.eqb reliability_category "Low" then
      [ "🟡 LOW RELIABILITY: Suitable for non-critical operations with backup plans.";
        "📋 Increase monitoring frequency. Prepare contingency plans." ]
    else
      [ "✅ HIGH RELIABILITY: Suitable for all types of operations.";
        "🚂 Optimal for critical routes and time-sensitive deliveries." ] in
  let recommendations :=
    if (20 <? age)%Z then
      recommendations ++
        [ "⏰ AGED LOCOMOTIVE: Reliability may decrease due to component aging." ]
    else recommendations in
  recommendations.

Definition poor_fuel_efficiency : string :=
  "⛽ POOR FUEL EFFICIENCY: Check engine tuning, air filters, and fuel injection systems.".
Definition avoid_fuel_sensitive : string :=
  "🚫 Avoid this locomotive for fuel-sensitive operations. Consider engine overhaul.".
Definition moderate_fuel_efficiency : string :=
  "⛽ MODERATE FUEL EFFICIENCY: Schedule engine tune-up and filter replacement.".
Definition monitor_fuel_consumption : string :=
  "📈 Monitor fuel consumption closely. Consider driver training for fuel-efficient operation.".
Definition good_fuel_efficiency : string :=
  "⛽ GOOD FUEL EFFICIENCY: Continue current maintenance practices to maintain efficiency.".

(** [_get_fuel_efficiency_recommendations]; the month is
    [datetime.now().month]. *)
Definition _get_fuel_efficiency_recommendations (current_month : Z)
    (risk_level : string) (age hours : Z) : list string :=
  let recommendations :=
    if ((20 <? age) && (50000 <? hours))%Z then
      [ poor_fuel_efficiency; avoid_fuel_sensitive ]
    else if ((15 <? age) || (40000 <? hours))%Z then
      [ moderate_fuel_efficiency; monitor_fuel_consumption ]
    else
      [ good_fuel_efficiency;
        "✅ Suitable for fuel-sensitive operations and long-distance routes." ] in
  let recommendations :=
    if winter_month current_month then
      recommendations ++
        [ "❄️ WINTER: Cold weather reduces fuel efficiency. Plan for increased consumption." ]
    else if summer_month current_month then
      recommendations ++
        [ "☀️ SUMMER: High temperatures may reduce fuel efficiency. Monitor cooling systems." ]
    else recommendations in
  recommendations.

Definition continue_regular_maintenance : string :=
  "✅ Continue regular maintenance and monitoring".

(** [LocomotiveMLService._generate_recommendations] *)
Definition _generate_recommendations (clk : Clock) (locomotive : Locomotive)
    (risk_score : Q) (risk_level reliability_category prediction_type : string)
    : list string :=
  let age := age clk locomotive in
  let hours := operating_hours locomotive in
  let recommendations := [ basic_risk_assessment risk_level ] in
  let recommendations :=
    if String.eqb prediction_type "availability_days" then
      recommendations ++ _get_availability_recommendations risk_level age hours
    else if String.eqb prediction_type "distance_travelled" then
      recommendations ++ _get_distance_recommendations risk_level age hours
    else if String.eqb prediction_type "distance_per_day" then
      recommendations ++ _get_daily_distance_recommendations risk_level age hours
    else if String.eqb prediction_type "total_failures" then
      recommendations ++ _get_failure_recommendations risk_level age hours
    else if String.eqb prediction_type "reliability" then
      recommendations ++
        _get_reliability_recommendations risk_level reliability_category age hours
    else if String.eqb prediction_type "fuel_efficiency" then
      recommendations ++
        _get_fuel_efficiency_recommendations (now_month clk) risk_level age hours
    else if String.eqb prediction_type "all" then
      let recommendations :=
        recommendations ++ take 1 (_get_availability_recommendations risk_level age hours) in
      let recommendations :=
        recommendations ++ take 1 (_get_daily_distance_recommendations risk_level age hours) in
      let recommendations :=
        recommendations ++
          take 1 (_get_fuel_efficiency_recommendations (now_month clk) risk_level age hours) in
      recommendations ++ take 1 (_get_failure_recommendations risk_level age hours)
    else recommendations in
  let recommendations :=
    if (length recommendations =? 1)%nat then
      recommendations ++ [ continue_regular_maintenance ]
    else recommendations in
  take 6 recommendations.

(** *** The fallback predictor *)

(** The recommendation part of [_fallback_prediction] is a sequence of
    commented blocks, each of which extends the list built so far.  Each
    block is one definition here, named after its comment. *)

Definition major_overhaul_required : string :=
  "🔧 CRITICAL: Major overhaul required due to age. Consider retiring from primary operations.".

(** [# Risk-based recommendations] *)
Definition risk_based_recommendations (risk_level : string)
    (recommendations : list string) : list string :=
  if String.eqb risk_level "High" then
    recommendations ++
      [ "🚨 URGENT: Do not use this locomotive for heavy operations. Schedule immediate comprehensive inspection and maintenance before next deployment.";
        "⚠️ Avoid long-distance routes (>500km) until risk assessment improves. Consider short-haul operations only." ]
  else if String.eqb risk_level "Medium" then
    recommendations ++
      [ "📅 Schedule preventive maintenance within 2 weeks. Monitor performance closely during operations.";
        "🛤️ Suitable for medium-distance routes (200-500km). Avoid extreme weather conditions." ]
  else
    recommendations ++
      [ "✅ Locomotive is in good condition. Continue current maintenance schedule and regular operations.";
        "🚂 Suitable for all types of operations including long-distance and heavy freight." ].

(** [# Age-based recommendations] *)
Definition age_based_recommendations (age : Z) (recommendations : list string)
    : list string :=
  if (25 <? age)%Z then
    recommendations ++
      [ major_overhaul_required;
        "⏰ Plan for component replacement - engine, transmission, and braking systems need attention." ]
  else if (20 <? age)%Z then
    recommendations ++
      [ "📋 Schedule major maintenance cycle. Age indicates increased component wear.";
        "🛡️ Use for lighter operations during peak maintenance periods." ]
  else if (15 <? age)%Z then
    recommendations ++
      [ "🔍 Increase inspection frequency. Monitor for early signs of component degradation." ]
  else recommendations.

(** [# Operating hours recommendations] *)
Definition operating_hours_recommendations (operating_hours : Z)
    (recommendations : list string) : list string :=
  if (60000 <? operating_hours)%Z then
    recommendations ++
      [ "⏱️ HIGH USAGE: Operating hours exceed recommended limits. Schedule extended maintenance downtime.";
        "🔄 Consider rotating this locomotive to lighter duty cycles to extend service life." ]
  else if (50000 <? operating_hours)%Z then
    recommendations ++
      [ "📊 High operating hours detected. Plan for major component inspection and replacement." ]
  else recommendations.

(** [# Seasonal usage recommendations] *)
Definition seasonal_usage_recommendations (current_month : Z)
    (recommendations : list string) : list string :=
  if winter_month current_month then
    recommendations ++
      [ "❄️ WINTER OPERATIONS: Ensure heating systems are functional. Check antifreeze levels and battery condition.";
        "🌨️ Avoid operations in severe weather conditions. Plan for reduced availability due to weather." ]
  else if summer_month current_month then
    recommendations ++
      [ "☀️ SUMMER OPERATIONS: Monitor cooling systems closely. Ensure adequate ventilation for crew comfort.";
        "🌡️ High temperature operations may reduce efficiency. Plan for increased maintenance intervals." ]
  else recommendations.

(** [# Fuel efficiency recommendations] *)
Definition fuel_efficiency_recommendations (predictions : gmap string Q)
    (recommendations : list string) : list string :=
  let predicted_fuel_efficiency := default 0 (predictions !! "fuel_efficiency") in
  if Py.Qlt_bool predicted_fuel_efficiency 60 then
    recommendations ++ [ poor_fuel_efficiency; avoid_fuel_sensitive ]
  else if Py.Qlt_bool predicted_fuel_efficiency 75 then
    recommendations ++ [ moderate_fuel_efficiency; monitor_fuel_consumption ]
  else
    recommendations ++ [ good_fuel_efficiency ].

(** [# Fleet-specific recommendations] *)
Definition fleet_specific_recommendations (model : string)
    (recommendations : list string) : list string :=
  if String.eqb model "DE10" then
    recommendations ++
      [ "🏢 NRZ FLEET: Follow NRZ maintenance protocols. Ensure compliance with internal standards." ]
  else if String.eqb model "DE11" then
    recommendations ++
      [ "📋 HIRED FLEET: Review contractual maintenance obligations. Coordinate with vendor for major repairs." ]
  else recommendations.

(** [# Ensure we always have at least one recommendation] *)
Definition ensure_one_recommendation (recommendations : list string) : list string :=
  match recommendations with
  | [] =>
      [ "✅ Continue regular maintenance schedule and monitor performance indicators." ]
  | _ => recommendations
  end.

Section Fallback.

Variable clk : Clock.
Variable locomotive : Locomotive.
Variable prediction_type : string.
Variable period_days : Z.

(** [_fallback_prediction], the block that fills [predictions]. *)
Definition fallback_predictions : gmap string Q :=
  let predictions : gmap string Q := ∅ in
  let age := age clk locomotive in
  let operating_hours := operating_hours locomotive in
  let predictions :=
    if requested prediction_type "availability_days" then
      <["availability_days" := inject_Z (Z.max 200 (365 - age * 10))]> predictions
    else predictions in
  let predictions :=
    if requested prediction_type "distance_travelled" then
      <["distance_travelled" :=
          inject_Z (Py.int (inject_Z (operating_hours * 40) * (inject_Z period_days / 365)))]>
        predictions
    else predictions in
  let predictions :=
    if requested prediction_type "distance_per_day" then
      <["distance_per_day" := inject_Z (Py.round_int (100 - age * 2) 2)]> predictions
    else predictions in
  let predictions :=
    if requested prediction_type "total_failures" then
      <["total_failures" := inject_Z (Z.max 0 (Py.int (inject_Z age * (15 # 10))))]>
        predictions
    else predictions in
  let predictions :=
    if requested prediction_type "reliability" then
      <["reliability" := inject_Z (Z.max 50 (95 - age * 3))]> predictions
    else predictions in
  let predictions :=
    if requested prediction_type "fuel_efficiency" then
      <["fuel_efficiency" := inject_Z (Z.max 60 (90 - age * 2))]> predictions
    else predictions in
  predictions.

(** [_fallback_prediction], the block that fills [recommendations]. *)
Definition fallback_recommendations (risk_level : string) (predictions : gmap string Q)
    : list string :=
  let age := age clk locomotive in
  let operating_hours := operating_hours locomotive in
  let recommendations := [] in
  let recommendations := risk_based_recommendations risk_level recommendations in
  let recommendations := age_based_recommendations age recommendations in
  let recommendations :=
    operating_hours_recommendations operating_hours recommendations in
  let current_month := now_month clk in
  let recommendations := seasonal_usage_recommendations current_month recommendations in
  let recommendations := fuel_efficiency_recommendations predictions recommendations in
  let recommendations :=
    fleet_specific_recommendations (model locomotive) recommendations in
  let recommendations := ensure_one_recommendation recommendations in
  recommendations.

(** [LocomotiveMLService._fallback_prediction] *)
Definition _fallback_prediction : gmap string value :=
  let risk_score := calculate_risk_score clk locomotive in
  let risk_level := get_risk_level clk locomotive in
  let predictions := fallback_predictions in
  let recommendations := fallback_recommendations risk_level predictions in
  list_to_map
    [ ("prediction_type", VStr prediction_type);
      ("period_days", VInt period_days);
      ("risk_score", VNum risk_score);
      ("risk_level", VStr risk_level);
      ("reliability_category", VStr "Medium");
      ("predictions", VDict predictions);
      ("recommendations", VList recommendations);
      ("prediction_method", VStr "Fallback Method");
      ("timestamp", VStr (now_iso clk)) ].

End Fallback.

(** *** The model-backed predictor *)

Section Predict.

Variable svc : LocomotiveMLService.
Variable clk : Clock.
Variable locomotive : Locomotive.
Variable prediction_type : string.
Variable period_days : Z.

(** The rescaling of the raw model output in [predict_performance],
    followed by the clamp [max(5, min(100, risk_score))]. *)
Definition rescaled_risk_score (ml_risk_score : Q) : Q :=
  let risk_score :=
    if Py.Qlt_bool ml_risk_score 10 then
      ml_risk_score * 8 + inject_Z (age clk locomotive) * (15 # 10)
        + (inject_Z (operating_hours locomotive) / 1000) * (3 # 10)
    else
      ml_risk_score * 2 + inject_Z (age clk locomotive) * (5 # 10) in
  Py.max 5 (Py.min 100 risk_score).

(** The dictionary returned at the end of the [try] block. *)
Definition ml_result (risk_score : Q) (reliability_category : string)
    : gmap string value :=
  let risk_level := risk_level_of risk_score in
  let predictions :=
    _generate_specific_predictions clk locomotive prediction_type period_days
      risk_score reliability_category in
  let recommendations :=
    _generate_recommendations clk locomotive risk_score risk_level
      reliability_category prediction_type in
  list_to_map
    [ ("prediction_type", VStr prediction_type);
      ("period_days", VInt period_days);
      ("risk_score", VNum risk_score);
      ("risk_level", VStr risk_level);
      ("reliability_category", VStr reliability_category);
      ("predictions", VDict predictions);
      ("recommendations", VList recommendations);
      ("prediction_method", VStr "ML Performance Model");
      ("timestamp", VStr (now_iso clk)) ].

(** The body of the [try] block of [predict_performance]. *)
Definition predict_performance_body : raises (gmap string value) :=
  match _prepare_locomotive_features svc clk locomotive with
  | None => mret (_fallback_prediction clk locomotive prediction_type period_days)
  | Some features =>
      features_scaled ← scaler svc features;
      ml_risk_score ← risk_model svc features_scaled;
      reliability_encoded ← reliability_model svc features_scaled;
      reliability_category ← reliability_encoder_inverse svc reliability_encoded;
      let risk_score := rescaled_risk_score ml_risk_score in
      mret (ml_result risk_score reliability_category)
  end.

(** [LocomotiveMLService.predict_performance] *)
Definition predict_performance : gmap string value :=
  if negb (models_loaded svc) then
    _fallback_prediction clk locomotive prediction_type period_days
  else
    match predict_performance_body with
    | inr result => result
    | inl _ => _fallback_prediction clk locomotive prediction_type period_days
    end.

End Predict.

(** ** app/routes/loco_predictions.py *)

(** [bulk_predict], the block that fills [predictions] for one
    locomotive; [prediction_period] is fixed to 365 by the route. *)
Definition bulk_predictions (clk : Clock) (locomotive : Locomotive)
    (prediction_type : string) : gmap string Q :=
  let prediction_period := 365%Z in
  let predictions : gmap string Q := ∅ in
  let age := age clk locomotive in
  let hours := operating_hours locomotive in
  let predictions :=
    if requested prediction_type "availability_days" then
      <["availability_days" := inject_Z (Z.max 200 (365 - age * 8))]> predictions
    else predictions in
  let predictions :=
    if requested prediction_type "distance_travelled" then
      <["distance_travelled" :=
          inject_Z (Py.int (inject_Z (hours * 45) * (inject_Z prediction_period / 365)))]>
        predictions
    else predictions in
  let predictions :=
    if requested prediction_type "distance_per_day" then
      <["distance_per_day" := inject_Z (Py.round_int (120 - age * 2) 2)]> predictions
    else predictions in
  let predictions :=
    if requested prediction_type "total_failures" then
      <["total_failures" := inject_Z (Z.max 0 (Py.int (inject_Z age * (15 # 10))))]>
        predictions
    else predictions in
  let predictions :=
    if requested prediction_type "reliability" then
      <["reliability" := inject_Z (Z.max 50 (95 - age * 3))]> predictions
    else predictions in
  let predictions :=
    if requested prediction_type "fuel_efficiency" then
      <["fuel_efficiency" := inject_Z (Z.max 60 (90 - age * 2))]> predictions
    else predictions in
  predictions.

(** ** The formulas as the specification words them *)

(** [risk_score = min(100, age_risk + usage_risk + maintenance_risk)] with
    the three terms of section 4.4, over the mathematical minimum. *)
Definition spec_risk_score (clk : Clock) (l : Locomotive) : Q :=
  let age_risk := Qmin 50 (inject_Z (age clk l) * 2) in
  let usage_risk := Qmin 30 (inject_Z (operating_hours l) / 1000 * (6 # 10)) in
  let maintenance_risk :=
    match last_maintenance l with
    | Some d => Qmin 20 (inject_Z (today clk - d) * (2 # 10))
    | None => 20
    end in
  Qmin 100 (age_risk + usage_risk + maintenance_risk).

(** [risk_level]: High when the score is at least 70, Medium when it is
    at least 40, Low otherwise. *)
Definition spec_risk_level (score : Q) : string :=
  if Qlt_le_dec score 70 then
    if Qlt_le_dec score 40 then "Low" else "Medium"
  else "High".

(** The six named metrics and the result schema. *)
Definition metrics : list string :=
  [ "availability_days"; "distance_travelled"; "distance_per_day";
    "total_failures"; "reliability"; "fuel_efficiency" ].

Definition documented_prediction_types : list string := "all" :: metrics.

Definition result_schema : gset string :=
  list_to_set
    [ "prediction_type"; "period_days"; "risk_score"; "risk_level";
      "reliability_category"; "predictions"; "recommendations";
      "prediction_method"; "timestamp" ].

(** The keys a prediction type asks for. *)
Definition requested_keys (prediction_type : string) : gset string :=
  list_to_set (List.filter (requested prediction_type) metrics).

(** ** Sample inputs *)

(** 3 November 2026 and 15 January 2026. *)
Definition clock_november : Clock :=
  {| now_year := 2026; now_month := 11; today := 739923;
     now_iso := "2026-11-03T09:00:00" |}.

Definition clock_january : Clock :=
  {| now_year := 2026; now_month := 1; today := 739631;
     now_iso := "2026-01-15T09:00:00" |}.

Definition make_locomotive (model : string) (year hours : Z) (maint : option Z)
    : Locomotive :=
  {| locomotive_id := "DE10-001"; model := model; manufacturing_year := year;
     operating_hours := hours; last_maintenance := maint;
     current_status := "active"; fleet := None |}.

(** Thirty years old in 2026, 60000 hours, never serviced; the same
    locomotive serviced on 3 November 2026. *)
Definition old_locomotive : Locomotive := make_locomotive "DE10" 1996 60000 None.
Definition old_locomotive_serviced : Locomotive :=
  make_locomotive "DE10" 1996 60000 (Some 739923%Z).

(** Two years old, 500 hours, serviced on 3 November 2026. *)
Definition new_locomotive : Locomotive :=
  make_locomotive "DE11" 2024 500 (Some 739923%Z).

(** Built in 2026, no hours yet, with a maintenance date entered as
    13 November 2026, ten days after [clock_november]. *)
Definition prebooked_locomotive : Locomotive :=
  make_locomotive "DE10" 2026 0 (Some 739933%Z).

(** Ten years old in 2026 and never run. *)
Definition idle_locomotive : Locomotive := make_locomotive "DE10" 2016 0 None.

(** A service whose artifacts always answer: raw risk 3, class 1 decoded
    as "Medium". *)
Definition constant_service : LocomotiveMLService :=
  {| models_loaded := true;
     risk_model := fun _ => mret 3;
     reliability_model := fun _ => mret 1;
     scaler := fun df => mret (map snd df);
     fleet_encoder := fun _ => mret 0;
     reliability_encoder := fun _ => mret 1;
     reliability_encoder_inverse := fun _ => mret "Medium";
     age_encoder := fun _ => mret 2 |}.

(** A service whose bundle failed to load. *)
Definition unloaded_service : LocomotiveMLService :=
  {| models_loaded := false;
     risk_model := fun _ => raise (OtherError "not loaded");
     reliability_model := fun _ => raise (OtherError "not loaded");
     scaler := fun _ => raise (OtherError "not loaded");
     fleet_encoder := fun _ => raise (OtherError "not loaded");
     reliability_encoder := fun _ => raise (OtherError "not loaded");
     reliability_encoder_inverse := fun _ => raise (OtherError "not loaded");
     age_encoder := fun _ => raise (OtherError "not loaded") |}.

(** A loaded service whose fleet encoder rejects every label. *)
Definition unseen_fleet_service : LocomotiveMLService :=
  {| models_loaded := true;
     risk_model := fun _ => mret 3;
     reliability_model := fun _ => mret 1;
     scaler := fun df => mret (map snd df);
     fleet_encoder := fun _ => raise (ValueError "y contains previously unseen labels");
     reliability_encoder := fun _ => mret 1;
     reliability_encoder_inverse := fun _ => mret "Medium";
     age_encoder := fun _ => mret 2 |}.

(** ** More of app/models/locomotive.py *)

(** [Locomotive.status_display]: [status_map.get(status, status)] *)
Definition status_map : gmap string string :=
  list_to_map
    [ ("active", "Active"); ("maintenance", "Under Maintenance");
      ("repair", "Repair Required"); ("retired", "Retired") ].

Definition status_display (self : Locomotive) : string :=
  default (current_status self) (status_map !! current_status self).

(** [Locomotive.status_color]: [color_map.get(status, 'secondary')] *)
Definition color_map : gmap string string :=
  list_to_map
    [ ("active", "success"); ("maintenance", "warning");
      ("repair", "danger"); ("retired", "secondary") ].

Definition status_color (self : Locomotive) : string :=
  default "secondary" (color_map !! current_status self).

(** Attribute assignments, as the edit route performs them. *)
Definition set_manufacturing_year (year : Z) (l : Locomotive) : Locomotive :=
  {| locomotive_id := locomotive_id l; model := model l; manufacturing_year := year;
     operating_hours := operating_hours l; last_maintenance := last_maintenance l;
     current_status := current_status l; fleet := fleet l |}.

Definition set_operating_hours (hours : Z) (l : Locomotive) : Locomotive :=
  {| locomotive_id := locomotive_id l; model := model l;
     manufacturing_year := manufacturing_year l;
     operating_hours := hours; last_maintenance := last_maintenance l;
     current_status := current_status l; fleet := fleet l |}.

Definition set_last_maintenance (maint : option Z) (l : Locomotive) : Locomotive :=
  {| locomotive_id := locomotive_id l; model := model l;
     manufacturing_year := manufacturing_year l;
     operating_hours := operating_hours l; last_maintenance := maint;
     current_status := current_status l; fleet := fleet l |}.

Definition set_current_status (status : string) (l : Locomotive) : Locomotive :=
  {| locomotive_id := locomotive_id l; model := model l;
     manufacturing_year := manufacturing_year l;
     operating_hours := operating_hours l; last_maintenance := last_maintenance l;
     current_status := status; fleet := fleet l |}.

(** [Locomotive.query.filter_by(current_status=status).count()], the
    table [locomotives] being the list of its rows. *)
Definition count_by_status (table : list Locomotive) (status : string) : Z :=
  Z.of_nat
    (length (List.filter (fun l => String.eqb (current_status l) status) table)).

(** [Locomotive.get_fleet_statistics] *)
Definition get_fleet_statistics (table : list Locomotive) : gmap string Q :=
  let total := Z.of_nat (length table) in
  let active := count_by_status table "active" in
  let maintenance := count_by_status table "maintenance" in
  let repair := count_by_status table "repair" in
  let retired := count_by_status table "retired" in
  list_to_map
    [ ("total", inject_Z total);
      ("active", inject_Z active);
      ("maintenance", inject_Z maintenance);
      ("repair", inject_Z repair);
      ("retired", inject_Z retired);
      ("utilization",
        if (0 <? total)%Z
        then Py.round (inject_Z active / inject_Z total * 100) 1
        else inject_Z (Py.round_int 0 1)) ].

(** A never-serviced locomotive of 1995 with 52000 hours, and a small
    fleet. *)
Definition aged_locomotive : Locomotive := make_locomotive "DE10" 1995 52000 None.

Definition sample_fleet : list Locomotive :=
  [ new_locomotive; old_locomotive;
    set_current_status "repair" aged_locomotive;
    set_current_status "leased" idle_locomotive ].

(** Two of the items of [get_maintenance_recommendations]. *)
Definition comprehensive_inspection_item : MaintenanceItem :=
  {| item_type := "Comprehensive Inspection"; item_priority := "High";
     item_description := "Full system inspection recommended" |}.

Definition routine_maintenance_item : MaintenanceItem :=
  {| item_type := "Routine Maintenance"; item_priority := "High";
     item_description := "Overdue for routine maintenance" |}.

(** ** Loading the artifacts *)

(** The directory [ml_models]: what [joblib.load] gives for each file. *)
Record ModelsDir : Type := {
  risk_score_model_pkl : raises (list Q -> raises Q);
  reliability_model_pkl : raises (list Q -> raises Q);
  scaler_pkl : raises (DataFrame -> raises (list Q));
  fleet_encoder_pkl : raises (string -> raises Q);
  reliability_encoder_pkl : raises ((string -> raises Q) * (Q -> raises string));
  age_encoder_pkl : raises (string -> raises Q);
  feature_columns_pkl : raises (list string)
}.

(** A method called on an attribute that is still [None]. *)
Definition none_attribute {A B} : A -> raises B :=
  fun _ => raise (OtherError "'NoneType' object has no attribute").

(** The attributes as [__init__] sets them before it calls
    [_load_models]. *)
Definition initial_service : LocomotiveMLService :=
  {| models_loaded := false;
     risk_model := none_attribute;
     reliability_model := none_attribute;
     scaler := none_attribute;
     fleet_encoder := none_attribute;
     reliability_encoder := none_attribute;
     reliability_encoder_inverse := none_attribute;
     age_encoder := none_attribute |}.

Definition set_models_loaded (b : bool) (self : LocomotiveMLService) :=
  {| models_loaded := b; risk_model := risk_model self;
     reliability_model := reliability_model self; scaler := scaler self;
     fleet_encoder := fleet_encoder self;
     reliability_encoder := reliability_encoder self;
     reliability_encoder_inverse := reliability_encoder_inverse self;
     age_encoder := age_encoder self |}.

Definition set_risk_model (m : list Q -> raises Q) (self : LocomotiveMLService) :=
  {| models_loaded := models_loaded self; risk_model := m;
     reliability_model := reliability_model self; scaler := scaler self;
     fleet_encoder := fleet_encoder self;
     reliability_encoder := reliability_encoder self;
     reliability_encoder_inverse := reliability_encoder_inverse self;
     age_encoder := age_encoder self |}.

Definition set_reliability_model (m : list Q -> raises Q) (self : LocomotiveMLService) :=
  {| models_loaded := models_loaded self; risk_model := risk_model self;
     reliability_model := m; scaler := scaler self;
     fleet_encoder := fleet_encoder self;
     reliability_encoder := reliability_encoder self;
     reliability_encoder_inverse := reliability_encoder_inverse self;
     age_encoder := age_encoder self |}.

Definition set_scaler (s : DataFrame -> raises (list Q)) (self : LocomotiveMLService) :=
  {| models_loaded := models_loaded self; risk_model := risk_model self;
     reliability_model := reliability_model self; scaler := s;
     fleet_encoder := fleet_encoder self;
     reliability_encoder := reliability_encoder self;
     reliability_encoder_inverse := reliability_encoder_inverse self;
     age_encoder := age_encoder self |}.

Definition set_fleet_encoder (e : string -> raises Q) (self : LocomotiveMLService) :=
  {| models_loaded := models_loaded self; risk_model := risk_model self;
     reliability_model := reliability_model self; scaler := scaler self;
     fleet_encoder := e;
     reliability_encoder := reliability_encoder self;
     reliability_encoder_inverse := reliability_encoder_inverse self;
     age_encoder := age_encoder self |}.

Definition set_reliability_encoder
    (e : (string -> raises Q) * (Q -> raises string)) (self : LocomotiveMLService) :=
  {| models_loaded := models_loaded self; risk_model := risk_model self;
     reliability_model := reliability_model self; scaler := scaler self;
     fleet_encoder := fleet_encoder self;
     reliability_encoder := fst e;
     reliability_encoder_inverse := snd e;
     age_encoder := age_encoder self |}.

Definition set_age_encoder (e : string -> raises Q) (self : LocomotiveMLService) :=
  {| models_loaded := models_loaded self; risk_model := risk_model self;
     reliability_model := reliability_model self; scaler := scaler self;
     fleet_encoder := fleet_encoder self;
     reliability_encoder := reliability_encoder self;
     reliability_encoder_inverse := reliability_encoder_inverse self;
     age_encoder := e |}.

(** [LocomotiveMLService._load_models]: the assignments of the [try]
    block one after the other; the first load that raises ends the block
    in the handler, which only resets [models_loaded]. *)
Definition _load_models (dir : ModelsDir) (self : LocomotiveMLService)
    : LocomotiveMLService :=
  match risk_score_model_pkl dir with
  | inl _ => set_models_loaded false self
  | inr m =>
  let self := set_risk_model m self in
  match reliability_model_pkl dir with
  | inl _ => set_models_loaded false self
  | inr m =>
  let self := set_reliability_model m self in
  match scaler_pkl dir with
  | inl _ => set_models_loaded false self
  | inr s =>
  let self := set_scaler s self in
  match fleet_encoder_pkl dir with
  | inl _ => set_models_loaded false self
  | inr e =>
  let self := set_fleet_encoder e self in
  match reliability_encoder_pkl dir with
  | inl _ => set_models_loaded false self
  | inr e =>
  let self := set_reliability_encoder e self in
  match age_encoder_pkl dir with
  | inl _ => set_models_loaded false self
  | inr e =>
  let self := set_age_encoder e self in
  match feature_columns_pkl dir with
  | inl _ => set_models_loaded false self
  | inr _ => set_models_loaded true self
  end end end end end end end.

(** [LocomotiveMLService.__init__] *)
Definition new_service (dir : ModelsDir) : LocomotiveMLService :=
  _load_models dir initial_service.

(** A directory in which only [scaler.pkl] is missing. *)
Definition dir_without_scaler : ModelsDir :=
  {| risk_score_model_pkl := inr (fun _ => mret 3);
     reliability_model_pkl := inr (fun _ => mret 1);
     scaler_pkl := inl (OtherError "No such file or directory");
     fleet_encoder_pkl := inr (fun _ => mret 0);
     reliability_encoder_pkl := inr (fun _ => mret 1, fun _ => mret "Medium");
     age_encoder_pkl := inr (fun _ => mret 2);
     feature_columns_pkl := inr [] |}.

(** The 21 feature names, in the order of the frame. *)
Definition feature_names : list string :=
  [ "LOCO_TYPE"; "YEAR"; "Availability_Days"; "Distance_Travelled";
    "Distance_per_day"; "Total_Failures"; "Reliability"; "Failure_Rate";
    "Age_of_Locomotive"; "Usage_Intensity"; "Maintenance_Frequency";
    "Fuel_Efficiency"; "Operating_Hours"; "Fleet_Type_Encoded";
    "Efficiency_Score"; "Maintenance_Score"; "Reliability_Category_Encoded";
    "Age_Category_Encoded"; "Failure_Rate_per_Hour"; "Distance_per_Hour";
    "Availability_Rate" ].

(** The five statements of the fuel-efficiency block. *)
Definition fuel_statements : list string :=
  [ poor_fuel_efficiency; avoid_fuel_sensitive; moderate_fuel_efficiency;
    monitor_fuel_consumption; good_fuel_efficiency ].

(** Eight years old in 2026 with 20000 hours, serviced on 3 November 2026. *)
Definition mid_life_locomotive : Locomotive :=
  make_locomotive "DE11" 2018 20000 (Some 739923%Z).

(** *** The recommendation helpers of the bulk route

    The module-level functions of [loco_predictions.py] that [bulk_predict]
    calls.  They repeat the helpers of the service with their own string
    literals, which the module keeps in a garbled encoding; the literals
    are copied byte for byte. *)

Module BulkRoute.

(** [_get_availability_recommendations] *)
Definition _get_availability_recommendations (risk_level : string) (age hours : Z)
    : list string :=
  let recommendations :=
    if String.eqb risk_level "High" then
      [ "üìâ LOW AVAILABILITY EXPECTED: Schedule extended maintenance downtime to improve reliability.";
        "üõ†Ô∏è Multiple system checks required. Consider component replacement." ]
    else if String.eqb risk_level "Medium" then
      [ "üìä MODERATE AVAILABILITY: Plan maintenance during low-demand periods.";
        "üîç Increase inspection frequency to prevent unexpected downtime." ]
    else
      [ "üìà HIGH AVAILABILITY EXPECTED: Continue current maintenance schedule.";
        "‚úÖ Suitable for continuous operations and high-demand periods." ] in
  let recommendations :=
    if (20 <? age)%Z then
      recommendations ++
        [ "‚è∞ AGED LOCOMOTIVE: Plan for increased maintenance windows due to age." ]
    else recommendations in
  recommendations.

(** [_get_distance_recommendations] *)
Definition _get_distance_recommendations (risk_level : string) (age hours : Z)
    : list string :=
  let recommendations :=
    if String.eqb risk_level "High" then
      [ "üõ§Ô∏è LIMITED DISTANCE CAPABILITY: Avoid long-distance routes (>500km).";
        "üìâ Reduced operational range expected. Plan for shorter routes." ]
    else if String.eqb risk_level "Medium" then
      [ "üõ§Ô∏è MODERATE DISTANCE CAPABILITY: Suitable for medium-distance routes (200-500km).";
        "üìä Monitor fuel consumption and system performance on longer routes." ]
    else
      [ "üõ§Ô∏è HIGH DISTANCE CAPABILITY: Suitable for long-distance operations.";
        "‚úÖ Can handle extended routes and heavy freight operations." ] in
  let recommendations :=
    if (50000 <? hours)%Z then
      recommendations ++
        [ "‚è±Ô∏è HIGH USAGE: Consider route planning to minimize wear on high-mileage components." ]
    else recommendations in
  recommendations.

(** [_get_daily_distance_recommendations] *)
Definition _get_daily_distance_recommendations (risk_level : string) (age hours : Z)
    : list string :=
  let recommendations :=
    if String.eqb risk_level "High" then
      [ "üìâ LOW DAILY DISTANCE: Limit to short-haul operations (<200km/day).";
        "üõ†Ô∏è System performance issues affecting daily range. Schedule diagnostics." ]
    else if String.eqb risk_level "Medium" then
      [ "üìä MODERATE DAILY DISTANCE: Suitable for medium-haul operations (200-400km/day).";
        "üîç Monitor daily performance metrics and fuel consumption." ]
    else
      [ "üìà HIGH DAILY DISTANCE: Capable of long-haul operations (>400km/day).";
        "‚úÖ Optimal for high-intensity daily operations." ] in
  let recommendations :=
    if (20 <? age)%Z then
      recommendations ++
        [ "‚è∞ AGED LOCOMOTIVE: Daily distance may be limited by component wear." ]
    else recommendations in
  recommendations.

(** [_get_failure_recommendations] *)
Definition _get_failure_recommendations (risk_level : string) (age hours : Z)
    : list string :=
  let recommendations :=
    if String.eqb risk_level "High" then
      [ "‚ö†Ô∏è HIGH FAILURE RISK: Schedule comprehensive maintenance before operations.";
        "üö´ Avoid critical routes. Have backup locomotive ready." ]
    else if String.eqb risk_level "Medium" then
      [ "üìä MODERATE FAILURE RISK: Increase monitoring frequency during operations.";
        "üõ†Ô∏è Schedule preventive maintenance to reduce failure probability." ]
    else
      [ "‚úÖ LOW FAILURE RISK: Continue current maintenance practices.";
        "üìà Suitable for critical and time-sensitive operations." ] in
  let recommendations :=
    if (20 <? age)%Z then
      recommendations ++
        [ "üîß AGED LOCOMOTIVE: Higher failure risk due to component aging." ]
    else recommendations in
  let recommendations :=
    if (50000 <? hours)%Z then
      recommendations ++
        [ "‚è±Ô∏è HIGH USAGE: Component fatigue may increase failure probability." ]
    else recommendations in
  recommendations.

(** [_get_reliability_recommendations]: here the tier follows the risk
    level, not the reliability category. *)
Definition _get_reliability_recommendations (risk_level : string) (age hours : Z)
    : list string :=
  let recommendations :=
    if String.eqb risk_level "High" then
      [ "üî¥ LOW RELIABILITY: Do not assign to critical routes or time-sensitive operations.";
        "üõ†Ô∏è Schedule comprehensive diagnostic check. Multiple systems need attention." ]
    else if String.eqb risk_level "Medium" then
      [ "üü° MODERATE RELIABILITY: Suitable for non-critical operations with backup plans.";
        "üìã Increase monitoring frequency. Prepare contingency plans." ]
    else
      [ "‚úÖ HIGH RELIABILITY: Suitable for all types of operations.";
        "üöÇ Optimal for critical routes and time-sensitive deliveries." ] in
  let recommendations :=
    if (20 <? age)%Z then
      recommendations ++
        [ "‚è∞ AGED LOCOMOTIVE: Reliability may decrease due to component aging." ]
    else recommendations in
  recommendations.

(** [_get_fuel_efficiency_recommendations]; the month is
    [datetime.now().month]. *)
Definition _get_fuel_efficiency_recommendations (current_month : Z)
    (risk_level : string) (age hours : Z) : list string :=
  let recommendations :=
    if ((20 <? age) && (50000 <? hours))%Z then
      [ "‚õΩ POOR FUEL EFFICIENCY: Check engine tuning, air filters, and fuel injection systems.";
        "üö´ Avoid this locomotive for fuel-sensitive operations. Consider engine overhaul." ]
    else if ((15 <? age) || (40000 <? hours))%Z then
      [ "‚õΩ MODERATE FUEL EFFICIENCY: Schedule engine tune-up and filter replacement.";
        "üìà Monitor fuel consumption closely. Consider driver training for fuel-efficient operation." ]
    else
      [ "‚õΩ GOOD FUEL EFFICIENCY: Continue current maintenance practices to maintain efficiency.";
        "‚úÖ Suitable for fuel-sensitive operations and long-distance routes." ] in
  let recommendations :=
    if winter_month current_month then
      recommendations ++
        [ "‚ùÑÔ∏è WINTER: Cold weather reduces fuel efficiency. Plan for increased consumption." ]
    else if summer_month current_month then
      recommendations ++
        [ "‚òÄÔ∏è SUMMER: High temperatures may reduce fuel efficiency. Monitor cooling systems." ]
    else recommendations in
  recommendations.

(** The basic risk-level statement of [bulk_predict]. *)
Definition basic_risk_assessment (risk_level : string) : string :=
  if String.eqb risk_level "High" then
    "üö® URGENT: High risk detected. Schedule immediate inspection before operations."
  else if String.eqb risk_level "Medium" then
    "üìÖ Medium risk level. Monitor performance closely during operations."
  else
    "‚úÖ Low risk level. Locomotive is in good operational condition.".

(** [bulk_predict], the block that fills [recommendations] for one
    locomotive. *)
Definition recommendations (clk : Clock) (locomotive : Locomotive)
    (risk_level prediction_type : string) : list string :=
  let age := age clk locomotive in
  let hours := operating_hours locomotive in
  let recommendations := [ basic_risk_assessment risk_level ] in
  let recommendations :=
    if String.eqb prediction_type "availability_days" then
      recommendations ++ _get_availability_recommendations risk_level age hours
    else if String.eqb prediction_type "distance_travelled" then
      recommendations ++ _get_distance_recommendations risk_level age hours
    else if String.eqb prediction_type "distance_per_day" then
      recommendations ++ _get_daily_distance_recommendations risk_level age hours
    else if String.eqb prediction_type "total_failures" then
      recommendations ++ _get_failure_recommendations risk_level age hours
    else if String.eqb prediction_type "reliability" then
      recommendations ++ _get_reliability_recommendations risk_level age hours
    else if String.eqb prediction_type "fuel_efficiency" then
      recommendations ++
        _get_fuel_efficiency_recommendations (now_month clk) risk_level age hours
    else if String.eqb prediction_type "all" then
      let recommendations :=
        recommendations ++ take 1 (_get_availability_recommendations risk_level age hours) in
      let recommendations :=
        recommendations ++ take 1 (_get_daily_distance_recommendations risk_level age hours) in
      let recommendations :=
        recommendations ++
          take 1 (_get_fuel_efficiency_recommendations (now_month clk) risk_level age hours) in
      recommendations ++ take 1 (_get_failure_recommendations risk_level age hours)
    else recommendations in
  let recommendations :=
    if (length recommendations =? 1)%nat then
      recommendations ++ [ "‚úÖ Continue regular maintenance and monitoring" ]
    else recommendations in
  recommendations.

(** ['High' if risk_score < 30 else 'Medium' if risk_score < 60 else 'Low'] *)
Definition reliability_category (risk_score : Q) : string :=
  if Py.Qlt_bool risk_score 30 then "High"
  else if Py.Qlt_bool risk_score 60 then "Medium"
  else "Low".

(** [bulk_predict], the dictionary [prediction_result] built for one
    locomotive. *)
Definition prediction_result (clk : Clock) (locomotive : Locomotive)
    (prediction_type : string) : gmap string value :=
  let prediction_period := 365%Z in
  let risk_score := calculate_risk_score clk locomotive in
  let risk_level := get_risk_level clk locomotive in
  let predictions := bulk_predictions clk locomotive prediction_type in
  let recommendations := recommendations clk locomotive risk_level prediction_type in
  list_to_map
    [ ("risk_score", VNum risk_score);
      ("risk_level", VStr risk_level);
      ("reliability_category", VStr (reliability_category risk_score));
      ("predictions", VDict predictions);
      ("recommendations", VList recommendations);
      ("prediction_method", VStr "Simplified Bulk Model");
      ("period_days", VInt prediction_period) ].

(** [Locomotive.query.filter_by(locomotive_id=loco_number).first()] *)
Definition first_by_locomotive_id (table : list Locomotive) (loco_number : string)
    : option Locomotive :=
  List.find (fun l => String.eqb (locomotive_id l) loco_number) table.

(** [str(e)] for a caught exception. *)
Definition str_exception (e : exn) : string :=
  match e with
  | ZeroDivisionError => "division by zero"
  | ValueError msg => msg
  | OtherError msg => msg
  end.

(** The arguments of [Prediction(...)] in [bulk_predict]; the locomotive
    stands for its primary key. *)
Record NewPrediction : Type := {
  new_locomotive_id : Locomotive;
  new_prediction_type : string;
  new_prediction_period : Z;
  new_risk_score : Q;
  new_risk_level : string;
  new_prediction_data : gmap string value;
  new_recommendations : list string
}.

(** An entry of [results]. *)
Record BulkResult : Type := {
  result_locomotive : Locomotive;
  result_prediction : gmap string value;
  result_prediction_id : Z
}.

(** How [bulk_predict] ends: one of the three refusals (a flash message
    and a redirect to the index page, nothing predicted), the redirect
    to the results page with [results] and [errors] stored in the
    session, or the handler of a failed commit. *)
Inductive Outcome : Type :=
| Refused
| Shown (results : list BulkResult) (errors : list string)
| NotSaved (message : string).

Section Database.

(** The database session is abstract: a state, and the calls that the
    route makes on it.  Every call may raise and may change the state. *)
Variable Session : Type.
(** [Locomotive.query.filter_by(locomotive_id=loco_number).first()] *)
Variable query_first : string -> Session -> raises (option Locomotive) * Session.
(** [db.session.add(prediction); db.session.flush()], then [prediction.id] *)
Variable add_and_flush : NewPrediction -> Session -> raises Z * Session.
(** [db.session.commit()] *)
Variable commit : Session -> raises unit * Session.
(** [db.session.rollback()] *)
Variable rollback : Session -> Session.

(** The message of the handler [except Exception as e] of the loop. *)
Definition error_processing (loco_number : string) (e : exn) : string :=
  ("Error processing " ++ loco_number ++ ": " ++ str_exception e)%string.

(** [bulk_predict], the loop over the parsed locomotive numbers, with the
    lists [results] and [errors] built so far. *)
Fixpoint predict_each (clk : Clock) (prediction_type : string)
    (locomotive_numbers : list string) (session : Session)
    (results : list BulkResult) (errors : list string)
    : list BulkResult * list string * Session :=
  match locomotive_numbers with
  | [] => (results, errors, session)
  | loco_number :: rest =>
      let '(locomotive, session) := query_first loco_number session in
      match locomotive with
      | inl e =>
          predict_each clk prediction_type rest session results
            (errors ++ [ error_processing loco_number e ])
      | inr None =>
          predict_each clk prediction_type rest session results
            (errors ++
               [ ("Locomotive " ++ loco_number ++ " not found in database")%string ])
      | inr (Some locomotive) =>
          let prediction_period := 365%Z in
          let risk_score := calculate_risk_score clk locomotive in
          let risk_level := get_risk_level clk locomotive in
          let recommendations :=
            recommendations clk locomotive risk_level prediction_type in
          let prediction_result := prediction_result clk locomotive prediction_type in
          let prediction :=
            {| new_locomotive_id := locomotive;
               new_prediction_type := prediction_type;
               new_prediction_period := prediction_period;
               new_risk_score := risk_score;
               new_risk_level := risk_level;
               new_prediction_data := prediction_result;
               new_recommendations := recommendations |} in
          let '(prediction_id, session) := add_and_flush prediction session in
          match prediction_id with
          | inl e =>
              predict_each clk prediction_type rest session results
                (errors ++ [ error_processing loco_number e ])
          | inr prediction_id =>
              predict_each clk prediction_type rest session
                (results ++
                   [ {| result_locomotive := locomotive;
                        result_prediction := prediction_result;
                        result_prediction_id := prediction_id |} ])
                errors
          end
      end
  end.

(** [bulk_predict] once the textarea has been split into non-empty
    stripped lines: the guards, the loop, the commit. *)
Definition bulk_predict (clk : Clock) (locomotive_numbers : list string)
    (prediction_type : string) (session : Session) : Outcome * Session :=
  if String.eqb prediction_type "" then (Refused, session)
  else
    match locomotive_numbers with
    | [] => (Refused, session)
    | _ =>
        if (20 <? length locomotive_numbers)%nat then (Refused, session)
        else
          let '(results, errors, session) :=
            predict_each clk prediction_type locomotive_numbers session [] [] in
          let '(committed, session) := commit session in
          match committed with
          | inr _ => (Shown results errors, session)
          | inl e =>
              (NotSaved ("Error saving predictions: " ++ str_exception e)%string,
               rollback session)
          end
    end.

End Database.

(** A session that works: the table of locomotives is fixed, the
    predictions added so far are kept in order, and the key of a new
    prediction is its position. *)
Definition working_query (table : list Locomotive) (loco_number : string)
    (session : list NewPrediction)
    : raises (option Locomotive) * list NewPrediction :=
  (mret (first_by_locomotive_id table loco_number), session).

Definition working_flush (prediction : NewPrediction) (session : list NewPrediction)
    : raises Z * list NewPrediction :=
  (mret (Z.of_nat (length session) + 1)%Z, session ++ [ prediction ]).

Definition working_commit (session : list NewPrediction)
    : raises unit * list NewPrediction :=
  (mret tt, session).

(** A session whose flush fails for the locomotives of one model. *)
Definition failing_flush (bad_model : string) (prediction : NewPrediction)
    (session : list NewPrediction) : raises Z * list NewPrediction :=
  if String.eqb (model (new_locomotive_id prediction)) bad_model
  then (raise (OtherError "database is locked"), session)
  else working_flush prediction session.

End BulkRoute.

(** ** app/routes/main.py *)

(** [sum(1 for x in xs if p(x))] *)
Definition count_where {A} (p : A -> bool) (xs : list A) : Z :=
  Z.of_nat (length (List.filter p xs)).

(** [sum(xs)] on numbers: from 0, adding from the left. *)
Definition py_sum (xs : list Q) : Q := fold_left Qplus xs 0.


(** The column of the table of predictions that the dashboard reads. *)
Record PredictionRow : Type := { is_active : bool }.

(** [dashboard_metrics] *)
Definition dashboard_metrics (clk : Clock) (locomotives : list Locomotive)
    (predictions : list PredictionRow) : gmap string Q :=
  let total_fleet := Z.of_nat (length locomotives) in
  let avg_reliability :=
    match locomotives with
    | [] => inject_Z 0
    | _ =>
        Py.round
          (py_sum (map (calculate_reliability clk) locomotives)
           / inject_Z (Z.of_nat (length locomotives))) 1
    end in
  let high_risk_count :=
    count_where (fun loco => String.eqb (get_risk_level clk loco) "High") locomotives in
  let total_predictions := count_where is_active predictions in
  list_to_map
    [ ("total_fleet", inject_Z total_fleet);
      ("avg_reliability", avg_reliability);
      ("high_risk_count", inject_Z high_risk_count);
      ("total_predictions", inject_Z total_predictions) ].

(** ** app/routes/reports.py *)

(** [generate_maintenance_schedule_report], the priority of one
    locomotive.  [days_since_maintenance and days_since_maintenance > n]
    is false for [None] and for 0. *)
Definition schedule_priority (clk : Clock) (locomotive : Locomotive) : string :=
  let days_since_maintenance :=
    match last_maintenance locomotive with
    | Some d => Some (days_since clk d)
    | None => None
    end in
  let priority := "Low" in
  let priority :=
    if ((25 <? age clk locomotive) || (50000 <? operating_hours locomotive))%Z
    then "High"
    else if ((20 <? age clk locomotive) || (40000 <? operating_hours locomotive))%Z
    then "Medium"
    else priority in
  let priority :=
    match days_since_maintenance with
    | Some days =>
        if (60 <? days)%Z then "High"
        else if (30 <? days)%Z then "Medium"
        else priority
    | None => priority
    end in
  priority.

(** [generate_utilization_analysis_report], the entry of one locomotive:
    the displayed rate and the status. *)
Definition utilization_entry (clk : Clock) (locomotive : Locomotive) : Q * string :=
  let utilization_rate :=
    Py.min 100
      (Py.max 0
         (100 - inject_Z (age clk locomotive * 2)
          - inject_Z (operating_hours locomotive) / 1000)) in
  (Py.round utilization_rate 1,
   if Qle_bool 80 utilization_rate then "High"
   else if Qle_bool 60 utilization_rate then "Medium"
   else "Low").

(** [generate_failure_predictions_report], the unrounded risk score of
    one locomotive. *)
Definition report_risk_score (clk : Clock) (locomotive : Locomotive) : Q :=
  let age_factor := Py.min 50 (inject_Z (age clk locomotive * 2)) in
  let hours_factor := Py.min 30 (inject_Z (operating_hours locomotive) / 1000) in
  let maintenance_factor :=
    match last_maintenance locomotive with
    | Some d =>
        let days_since := days_since clk d in
        Py.min 20 (inject_Z days_since / 3)
    | None => 0
    end in
  Py.min 100 (age_factor + hours_factor + maintenance_factor).

(** [generate_failure_predictions_report], the entry of one locomotive:
    displayed score, level and recommendations. *)
Definition report_risk_entry (clk : Clock) (locomotive : Locomotive)
    : Q * string * list string :=
  let risk_score := report_risk_score clk locomotive in
  let risk_level := risk_level_of risk_score in
  let recommendations := [] in
  let recommendations :=
    if (20 <? age clk locomotive)%Z
    then recommendations ++ [ "Engine overhaul recommended" ]
    else recommendations in
  let recommendations :=
    if (50000 <? operating_hours locomotive)%Z
    then recommendations ++ [ "Transmission service required" ]
    else recommendations in
  let recommendations :=
    if match last_maintenance locomotive with
       | None => true
       | Some d => (90 <? days_since clk d)%Z
       end
    then recommendations ++ [ "Routine maintenance overdue" ]
    else recommendations in
  (Py.round risk_score 1, risk_level, recommendations).

(** [d[key] += 1] on a dictionary of counters: [KeyError] when the key
    is missing. *)
Definition increment (d : gmap string Z) (key : value) : raises (gmap string Z) :=
  match key with
  | VStr k =>
      match d !! k with
      | Some n => mret (<[k := (n + 1)%Z]> d)
      | None => raise (OtherError "KeyError")
      end
  | _ => raise (OtherError "KeyError")
  end.

(** [generate_risk_assessment_report], the loop that fills
    [risk_distribution]; [predict_performance] is the call in its [try]
    block. *)
Fixpoint count_risk_levels (svc : LocomotiveMLService) (clk : Clock)
    (locomotives : list Locomotive) (risk_distribution : gmap string Z)
    : raises (gmap string Z) :=
  match locomotives with
  | [] => mret risk_distribution
  | loco :: rest =>
      let prediction_result := predict_performance svc clk loco "all" 365 in
      let risk_level := default (VStr "Medium") (prediction_result !! "risk_level") in
      risk_distribution ← increment risk_distribution risk_level;
      count_risk_levels svc clk rest risk_distribution
  end.

Definition risk_distribution (svc : LocomotiveMLService) (clk : Clock)
    (locomotives : list Locomotive) : raises (gmap string Z) :=
  count_risk_levels svc clk locomotives
    (list_to_map [ ("High", 0%Z); ("Medium", 0%Z); ("Low", 0%Z) ]).

(** [generate_maintenance_planning_report], the priority of one
    locomotive; a locomotive without a maintenance date counts as
    serviced 0 days ago. *)
Definition planning_priority (svc : LocomotiveMLService) (clk : Clock)
    (loco : Locomotive) : string :=
  let prediction_result := predict_performance svc clk loco "all" 365 in
  let risk_level := default (VStr "Medium") (prediction_result !! "risk_level") in
  let days_since_maintenance :=
    match last_maintenance loco with
    | Some d => days_since clk d
    | None => 0%Z
    end in
  if match risk_level with VStr s => String.eqb s "High" | _ => false end
     || (90 <? days_since_maintenance)%Z
  then "urgent"
  else if match risk_level with VStr s => String.eqb s "Medium" | _ => false end
          || (60 <? days_since_maintenance)%Z
  then "scheduled"
  else "routine".

(** [maintenance_plan[priority].append(item)] *)
Definition append_to (d : gmap string (list Locomotive)) (key : string)
    (item : Locomotive) : raises (gmap string (list Locomotive)) :=
  match d !! key with
  | Some items => mret (<[key := items ++ [item]]> d)
  | None => raise (OtherError "KeyError")
  end.

(** [generate_maintenance_planning_report], the loop that fills
    [maintenance_plan], before the lists are sorted. *)
Fixpoint fill_maintenance_plan (svc : LocomotiveMLService) (clk : Clock)
    (locomotives : list Locomotive) (maintenance_plan : gmap string (list Locomotive))
    : raises (gmap string (list Locomotive)) :=
  match locomotives with
  | [] => mret maintenance_plan
  | loco :: rest =>
      maintenance_plan ←
        append_to maintenance_plan (planning_priority svc clk loco) loco;
      fill_maintenance_plan svc clk rest maintenance_plan
  end.

Definition maintenance_plan (svc : LocomotiveMLService) (clk : Clock)
    (locomotives : list Locomotive) : raises (gmap string (list Locomotive)) :=
  fill_maintenance_plan svc clk locomotives
    (list_to_map [ ("urgent", []); ("scheduled", []); ("routine", []) ]).

(** ** app/models/prediction.py *)

Record Recommendation : Type := {
  rec_type : string;
  rec_priority : string;
  rec_description : string;
  rec_estimated_cost : string;
  rec_timeframe : string
}.

(** [str(n)] for an [int]. *)
Definition str_int (n : Z) : string := pretty n.

Definition no_maintenance_record_item : Recommendation :=
  {| rec_type := "Routine Maintenance"; rec_priority := "High";
     rec_description := "No maintenance record - immediate inspection needed";
     rec_estimated_cost := "Low"; rec_timeframe := "1-3 days" |}.

Definition high_risk_inspection_item : Recommendation :=
  {| rec_type := "Comprehensive Inspection"; rec_priority := "High";
     rec_description := "High risk score - comprehensive inspection required";
     rec_estimated_cost := "Medium"; rec_timeframe := "3-7 days" |}.

(** [Prediction.generate_recommendations] *)
Definition generate_recommendations (clk : Clock) (locomotive : Locomotive)
    : list Recommendation :=
  let recommendations := [] in
  (* Age-based recommendations *)
  let recommendations :=
    if (25 <? age clk locomotive)%Z then
      recommendations ++
        [ {| rec_type := "Major Overhaul"; rec_priority := "High";
             rec_description :=
               "Locomotive age exceeds 25 years - major overhaul recommended";
             rec_estimated_cost := "High"; rec_timeframe := "30-60 days" |} ]
    else if (20 <? age clk locomotive)%Z then
      recommendations ++
        [ {| rec_type := "Engine Inspection"; rec_priority := "Medium";
             rec_description := "Comprehensive engine inspection due to age";
             rec_estimated_cost := "Medium"; rec_timeframe := "7-14 days" |} ]
    else recommendations in
  (* Usage-based recommendations *)
  let recommendations :=
    if (60000 <? operating_hours locomotive)%Z then
      recommendations ++
        [ {| rec_type := "Transmission Overhaul"; rec_priority := "High";
             rec_description := "High operating hours - transmission overhaul needed";
             rec_estimated_cost := "High"; rec_timeframe := "14-30 days" |} ]
    else if (40000 <? operating_hours locomotive)%Z then
      recommendations ++
        [ {| rec_type := "Transmission Service"; rec_priority := "Medium";
             rec_description := "Transmission service recommended";
             rec_estimated_cost := "Medium"; rec_timeframe := "3-7 days" |} ]
    else recommendations in
  (* Maintenance history recommendations *)
  let recommendations :=
    match last_maintenance locomotive with
    | None => recommendations ++ [ no_maintenance_record_item ]
    | Some d =>
        let days_since_maintenance := days_since clk d in
        if (90 <? days_since_maintenance)%Z then
          recommendations ++
            [ {| rec_type := "Overdue Maintenance"; rec_priority := "High";
                 rec_description :=
                   ("Maintenance overdue by " ++ str_int (days_since_maintenance - 90)
                    ++ " days")%string;
                 rec_estimated_cost := "Medium"; rec_timeframe := "1-7 days" |} ]
        else if (60 <? days_since_maintenance)%Z then
          recommendations ++
            [ {| rec_type := "Scheduled Maintenance"; rec_priority := "Medium";
                 rec_description := "Routine maintenance due soon";
                 rec_estimated_cost := "Low"; rec_timeframe := "7-14 days" |} ]
        else recommendations
    end in
  (* Risk-based recommendations *)
  let risk_score := calculate_risk_score clk locomotive in
  let recommendations :=
    if Py.Qlt_bool 70 risk_score then recommendations ++ [ high_risk_inspection_item ]
    else recommendations in
  recommendations.

(** [Prediction.get_risk_color]: [color_map.get(self.risk_level, 'secondary')] *)
Definition get_risk_color (risk_level : string) : string :=
  default "secondary"
    ((list_to_map [ ("Low", "success"); ("Medium", "warning"); ("High", "danger") ]
        : gmap string string) !! risk_level).

(** Thirty years old, 60000 hours, serviced 45 days before
    3 November 2026. *)
Definition old_locomotive_serviced_recently : Locomotive :=
  make_locomotive "DE10" 1996 60000 (Some 739878%Z).

(** ** Binary64 arithmetic

    Where a statement depends on which side of a threshold a computed
    score falls, the rounding of Python's [float] matters, and the
    methods are modelled again with it.  A finite binary64 number is kept
    as the rational it denotes, and every float operation returns the
    binary64 nearest to its exact result, ties going to the even
    significand, as IEEE 754 prescribes.  No operation of this module
    reaches the overflow threshold [2^1024] unless an attribute does, so
    infinities and NaN stay outside. *)

Module Binary64.

(** [floor (log2 |x|)], for [x] other than zero. *)
Definition Qlog2 (x : Q) : Z :=
  let k := (Z.log2 (Z.abs (Qnum x)) - Z.log2 (Z.pos (Qden x)))%Z in
  if Qle_bool (2 ^ k) (Qabs x) then k else (k - 1)%Z.

(** The exponent of the last place of the binary64 numbers around [x]:
    53 significant bits, and [2^-1074] for the subnormal numbers. *)
Definition ulp_exponent (x : Q) : Z := Z.max (Qlog2 x - 52) (-1074).

(** The binary64 nearest to [x]. *)
Definition nearest (x : Q) : Q :=
  if Qeq_bool x 0 then 0
  else
    let e := ulp_exponent x in
    Qred (inject_Z (Py.round_half_even (x / 2 ^ e)) * 2 ^ e).

(** A Python number: an [int] or a [float]. *)
Inductive number : Type :=
| Int (n : Z)
| Float (x : Q).

Definition value (a : number) : Q :=
  match a with
  | Int n => inject_Z n
  | Float x => x
  end.

(** [float(a)] *)
Definition to_float (a : number) : Q :=
  match a with
  | Int n => nearest (inject_Z n)
  | Float x => x
  end.

(** A decimal literal [n/d], read as the nearest binary64. *)
Definition literal (x : Q) : number := Float (nearest x).

(** [a + b]: exact on two [int]s, otherwise the float sum of the two
    conversions. *)
Definition add (a b : number) : number :=
  match a, b with
  | Int m, Int n => Int (m + n)
  | _, _ => Float (nearest (to_float a + to_float b))
  end.

(** [a * b] *)
Definition mul (a b : number) : number :=
  match a, b with
  | Int m, Int n => Int (m * n)
  | _, _ => Float (nearest (to_float a * to_float b))
  end.

(** [a / b] for a divisor other than zero: the quotient of two [int]s is
    rounded once, from the exact quotient. *)
Definition truediv (a b : number) : number :=
  match a, b with
  | Int m, Int n => Float (nearest (inject_Z m / inject_Z n))
  | _, _ => Float (nearest (to_float a / to_float b))
  end.

(** [a < b] and [a >= b]: Python compares an [int] with a [float] by
    value. *)
Definition lt (a b : number) : bool := Py.Qlt_bool (value a) (value b).
Definition ge (a b : number) : bool := Qle_bool (value b) (value a).

(** [min(a, b)]: the first argument wins unless the second is strictly
    smaller. *)
Definition min (a b : number) : number := if lt b a then b else a.

Section LocomotiveMethods.

Variable clk : Clock.
Variable self : Locomotive.

(** [Locomotive.calculate_risk_score] *)
Definition calculate_risk_score : number :=
  let age_risk := min (Int 50) (mul (Int (age clk self)) (Int 2)) in
  let usage_risk :=
    min (Int 30)
      (mul (truediv (Int (operating_hours self)) (Int 1000)) (literal (6 # 10))) in
  let maintenance_risk :=
    match last_maintenance self with
    | Some d =>
        let days_since_maintenance := days_since clk d in
        min (Int 20) (mul (Int days_since_maintenance) (literal (2 # 10)))
    | None => Int 20
    end in
  let total_risk := add (add age_risk usage_risk) maintenance_risk in
  min (Int 100) total_risk.

(** [Locomotive.get_risk_level] *)
Definition get_risk_level : string :=
  let score := calculate_risk_score in
  if ge score (Int 70) then "High"
  else if ge score (Int 40) then "Medium"
  else "Low".

End LocomotiveMethods.

(** The formula of the specification, with the operations of binary64
    and the mathematical minimum. *)
Definition least (a b : number) : number :=
  if Qle_bool (value a) (value b) then a else b.

Definition spec_risk_score (clk : Clock) (l : Locomotive) : number :=
  let age_risk := least (Int 50) (mul (Int (age clk l)) (Int 2)) in
  let usage_risk :=
    least (Int 30)
      (mul (truediv (Int (operating_hours l)) (Int 1000)) (literal (6 # 10))) in
  let maintenance_risk :=
    match last_maintenance l with
    | Some d => least (Int 20) (mul (Int (days_since clk d)) (literal (2 # 10)))
    | None => Int 20
    end in
  least (Int 100) (add (add age_risk usage_risk) maintenance_risk).

(** The bounds used for the rounding error: [2^-53], the relative
    error of [nearest] on normal numbers, and [2^-100], far above its
    absolute error [2^-1075] on subnormal ones. *)
Definition unit_roundoff : Q := 1 # 9007199254740992.
Definition tiny : Q := 1 # 1267650600228229401496703205376.

(** *** Cross-check against the IEEE 754 specification of the library

    [SpecFloat] gives binary64 numbers by sign, significand and
    exponent, with correctly rounded operations.  The two conversions
    let [nearest] be compared with it on sample operands. *)

Definition of_spec_float (x : SpecFloat.spec_float) : Q :=
  match x with
  | SpecFloat.S754_finite s m e =>
      Qred ((if s then -1 else 1) * inject_Z (Z.pos m) * 2 ^ e)
  | _ => 0
  end.

(** The [spec_float] nearest to a rational whose denominator is a power
    of two. *)
Definition to_spec_float (x : Q) : SpecFloat.spec_float :=
  SpecFloat.binary_normalize 53 1024 (Qnum x) (- Z.log2 (Z.pos (Qden x))) false.

(** On the operands nearest to [a] and [b]: the conversions, the sum,
    the product and the quotient are the same in both. *)
Definition agrees_with_spec_float (operands : Q * Q) : bool :=
  let '(a, b) := operands in
  let fa := to_spec_float a in
  let fb := to_spec_float b in
  Qeq_bool (of_spec_float fa) (nearest a) && Qeq_bool (of_spec_float fb) (nearest b)
  && Qeq_bool (of_spec_float (SpecFloat.SFadd 53 1024 fa fb)) (nearest (nearest a + nearest b))
  && Qeq_bool (of_spec_float (SpecFloat.SFmul 53 1024 fa fb)) (nearest (nearest a * nearest b))
  && Qeq_bool (of_spec_float (SpecFloat.SFdiv 53 1024 fa fb)) (nearest (nearest a / nearest b)).

(** Operands met by [calculate_risk_score], ties, and a few large and
    tiny ones. *)
Definition sample_operands : list (Q * Q) :=
  [ (31, nearest (6 # 10)); (7, nearest (2 # 10)); (31000, 1000);
    (20, nearest (nearest (31 * nearest (6 # 10))));
    (nearest (20 + nearest (31 * nearest (6 # 10))), nearest (7 * nearest (2 # 10)));
    (46, nearest (6 # 10)); (72, nearest (2 # 10)); (6, 10); (2, 10); (1, 3);
    (9007199254740993, 1); (9007199254740995, 3); (-9007199254740994, 1);
    (nearest (1 # 3), nearest (1 # 7)); (- nearest (1 # 3), nearest (10 # 7));
    (4611686018427387904, 1000); (-4611686018427387905, nearest (6 # 10));
    (1 # 1267650600228229401496703205376, nearest (2 # 10));
    (Qred (2 ^ (-1073)), nearest (6 # 10)); (Qred (3 * 2 ^ (-1074)), 2);
    (nearest (123456789 # 1000), - nearest (987654321 # 100000)) ].

End Binary64.

(** Ten years old in 2026, 31000 hours, serviced a week before
    3 November 2026: the exact value of the formula is 40. *)
Definition threshold_locomotive : Locomotive :=
  make_locomotive "DE10" 2016 31000 (Some 739916%Z).


(** * Properties *)

(** ** Python numerics *)

Lemma Qlt_bool_true (a b : Q) : Py.Qlt_bool a b = true <-> a < b.
Proof.
  unfold Py.Qlt_bool. rewrite negb_true_iff.
  split; intros H.
  - apply Qnot_le_lt. intros Hle. apply Qle_bool_iff in Hle. congruence.
  - destruct (Qle_bool b a) eqn:E; [|reflexivity].
    apply Qle_bool_iff in E. exfalso. revert E. apply Qlt_not_le, H.
Qed.

Lemma Qlt_bool_false (a b : Q) : Py.Qlt_bool a b = false <-> b <= a.
Proof.
  unfold Py.Qlt_bool. rewrite negb_false_iff. apply Qle_bool_iff.
Qed.

Lemma py_min_case (a b : Q) :
  (b < a /\ Py.min a b = b) \/ (a <= b /\ Py.min a b = a).
Proof.
  unfold Py.min. destruct (Py.Qlt_bool b a) eqn:E.
  - left. split; [apply Qlt_bool_true, E | reflexivity].
  - right. split; [apply Qlt_bool_false, E | reflexivity].
Qed.

Lemma py_max_case (a b : Q) :
  (a < b /\ Py.max a b = b) \/ (b <= a /\ Py.max a b = a).
Proof.
  unfold Py.max. destruct (Py.Qlt_bool a b) eqn:E.
  - left. split; [apply Qlt_bool_true, E | reflexivity].
  - right. split; [apply Qlt_bool_false, E | reflexivity].
Qed.

(** Replace every [Py.min] / [Py.max] of the goal by one of its
    arguments, remembering the comparison that selected it. *)
Ltac py_minmax :=
  repeat match goal with
  | |- context [Py.min ?a ?b] =>
      let H := fresh "Hmin" in let E := fresh "Emin" in
      destruct (py_min_case a b) as [[H E] | [H E]]; rewrite !E in *
  | |- context [Py.max ?a ?b] =>
      let H := fresh "Hmax" in let E := fresh "Emax" in
      destruct (py_max_case a b) as [[H E] | [H E]]; rewrite !E in *
  end.

Lemma py_min_Qmin (a b : Q) : Py.min a b == Qmin a b.
Proof.
  destruct (py_min_case a b) as [[H ->] | [H ->]].
  - symmetry. apply Q.min_r. apply Qlt_le_weak, H.
  - symmetry. apply Q.min_l, H.
Qed.

Lemma py_max_Qmax (a b : Q) : Py.max a b == Qmax a b.
Proof.
  destruct (py_max_case a b) as [[H ->] | [H ->]].
  - symmetry. apply Q.max_r. apply Qlt_le_weak, H.
  - symmetry. apply Q.max_l, H.
Qed.

Lemma py_max_lower (a b : Q) : a <= Py.max a b.
Proof. py_minmax; lra. Qed.

Lemma py_min_upper (a b : Q) : Py.min a b <= a.
Proof. py_minmax; lra. Qed.

Lemma truediv_returns (a b : Q) : 0 < b -> truediv a b = inr (a / b).
Proof.
  intros Hb. unfold truediv.
  destruct (Qeq_bool b 0) eqn:E; [|reflexivity].
  apply Qeq_bool_iff in E. lra.
Qed.

Lemma truediv_floor_returns (a x : Q) :
  truediv a (Py.max 1 x) = inr (a / Py.max 1 x).
Proof.
  apply truediv_returns. pose proof (py_max_lower 1 x). lra.
Qed.

(** ** Risk score and risk level of a locomotive *)

Lemma risk_level_of_spec (score : Q) : risk_level_of score = spec_risk_level score.
Proof.
  unfold risk_level_of, spec_risk_level.
  destruct (Qlt_le_dec score 70) as [H70 | H70].
  - destruct (Qle_bool 70 score) eqn:E70.
    { apply Qle_bool_iff in E70. lra. }
    destruct (Qlt_le_dec score 40) as [H40 | H40].
    + destruct (Qle_bool 40 score) eqn:E40; [|reflexivity].
      apply Qle_bool_iff in E40. lra.
    + apply Qle_bool_iff in H40. rewrite H40. reflexivity.
  - apply Qle_bool_iff in H70. rewrite H70. reflexivity.
Qed.

Lemma spec_risk_level_proper (s t : Q) : s == t -> spec_risk_level s = spec_risk_level t.
Proof.
  intros E. unfold spec_risk_level.
  destruct (Qlt_le_dec s 70), (Qlt_le_dec t 70); try lra;
    destruct (Qlt_le_dec s 40), (Qlt_le_dec t 40); try lra; reflexivity.
Qed.

Lemma calculate_risk_score_spec (clk : Clock) (l : Locomotive) :
  calculate_risk_score clk l == spec_risk_score clk l.
Proof.
  unfold calculate_risk_score, spec_risk_score.
  rewrite !py_min_Qmin, inject_Z_mult.
  destruct (last_maintenance l) as [d|].
  - rewrite py_min_Qmin. reflexivity.
  - reflexivity.
Qed.

Lemma get_risk_level_cases (clk : Clock) (l : Locomotive) :
  let score := calculate_risk_score clk l in
  (70 <= score /\ get_risk_level clk l = "High") \/
  (40 <= score < 70 /\ get_risk_level clk l = "Medium") \/
  (score < 40 /\ get_risk_level clk l = "Low").
Proof.
  cbv zeta. unfold get_risk_level. rewrite risk_level_of_spec.
  unfold spec_risk_level.
  destruct (Qlt_le_dec (calculate_risk_score clk l) 70);
    [destruct (Qlt_le_dec (calculate_risk_score clk l) 40)|]; auto.
Qed.

(** ** Bounds on risk scores and reliabilities *)

Lemma inject_Z_nonneg (n : Z) : (0 <= n)%Z -> 0 <= inject_Z n.
Proof. intros H. change 0 with (inject_Z 0). rewrite <- Zle_Qle. exact H. Qed.

Lemma calculate_risk_score_upper (clk : Clock) (l : Locomotive) :
  calculate_risk_score clk l <= 100.
Proof. unfold calculate_risk_score. apply py_min_upper. Qed.

(** The lower bound needs the maintenance date not to lie in the future. *)
Lemma calculate_risk_score_lower (clk : Clock) (l : Locomotive) :
  (0 <= age clk l)%Z -> (0 <= operating_hours l)%Z ->
  (forall d, last_maintenance l = Some d -> (d <= today clk)%Z) ->
  0 <= calculate_risk_score clk l.
Proof.
  intros Hage Hhours Hmaint. unfold calculate_risk_score.
  assert (0 <= inject_Z (age clk l * 2)) by (apply inject_Z_nonneg; lia).
  assert (0 <= inject_Z (operating_hours l)) by (apply inject_Z_nonneg; lia).
  assert (0 <= inject_Z (operating_hours l) / 1000 * (6 # 10)).
  { apply Qmult_le_0_compat; [|lra]. apply Qle_shift_div_l; lra. }
  destruct (last_maintenance l) as [d|] eqn:E.
  - assert (0 <= inject_Z (days_since clk d)).
    { apply inject_Z_nonneg. unfold days_since. specialize (Hmaint d eq_refl). lia. }
    py_minmax; lra.
  - py_minmax; lra.
Qed.

Lemma rescaled_risk_score_bounds (clk : Clock) (l : Locomotive) (ml_risk_score : Q) :
  5 <= rescaled_risk_score clk l ml_risk_score <= 100.
Proof.
  unfold rescaled_risk_score.
  destruct (Py.Qlt_bool ml_risk_score 10); py_minmax; lra.
Qed.

Lemma calculate_reliability_bounds (clk : Clock) (l : Locomotive) :
  0 <= calculate_reliability clk l <= 100.
Proof.
  unfold calculate_reliability.
  match goal with |- 0 <= Py.max 0 (Py.min 100 ?r) <= 100 => generalize r end.
  intros r. py_minmax; lra.
Qed.

(** ** The predictions dictionary *)

Section ConditionalInsert.

Context {V : Type}.
Implicit Types (m : gmap string V) (b : bool) (k : string) (v : V).

Lemma dom_cond_insert b k v m :
  dom (if b then <[k := v]> m else m) = (if b then {[k]} else ∅) ∪ dom m.
Proof. destruct b; [apply dom_insert_L | symmetry; apply (left_id_L ∅ (∪))]. Qed.

Lemma lookup_cond_insert_ne b k k' v m :
  k ≠ k' -> (if b then <[k := v]> m else m) !! k' = m !! k'.
Proof. intros Hne. destruct b; [apply lookup_insert_ne, Hne | reflexivity]. Qed.

Lemma lookup_cond_insert_eq b k v m :
  b = true -> (if b then <[k := v]> m else m) !! k = Some v.
Proof. intros ->. apply lookup_insert_eq. Qed.

Lemma lookup_cond_insert_skip b k k' v m :
  b = false -> (if b then <[k := v]> m else m) !! k' = m !! k'.
Proof. intros ->. reflexivity. Qed.

Lemma map_Forall_cond_insert (P : string -> V -> Prop) b k v m :
  P k v -> map_Forall P m -> map_Forall P (if b then <[k := v]> m else m).
Proof. intros Hv Hm. destruct b; [apply map_Forall_insert_2|]; assumption. Qed.

End ConditionalInsert.

Lemma list_to_set_filter_cons (f : string -> bool) (k : string) (ks : list string) :
  (list_to_set (List.filter f (k :: ks)) : gset string)
  = (if f k then {[k]} else ∅) ∪ list_to_set (List.filter f ks).
Proof.
  cbn [List.filter]. destruct (f k).
  - reflexivity.
  - symmetry. apply (left_id_L ∅ (∪)).
Qed.

(** Hide each conditional singleton behind a name, so that the set
    solver sees plain unions. *)
Ltac name_conditional_sets :=
  repeat match goal with
         | |- context [if ?b then ?s else ∅] =>
             let X := fresh "X" in
             set (X := if b then s else ∅); clearbody X
         end.

(** Evaluate [requested] on two string literals. *)
Ltac eval_requested :=
  repeat match goal with
         | |- context [requested ?a ?b] =>
             let v := eval vm_compute in (requested a b) in
             change (requested a b) with v
         end;
  cbv beta iota.

Lemma requested_keys_unfold (pt : string) :
  requested_keys pt =
    (if requested pt "fuel_efficiency" then {["fuel_efficiency"]} else ∅) ∪
    ((if requested pt "reliability" then {["reliability"]} else ∅) ∪
    ((if requested pt "total_failures" then {["total_failures"]} else ∅) ∪
    ((if requested pt "distance_per_day" then {["distance_per_day"]} else ∅) ∪
    ((if requested pt "distance_travelled" then {["distance_travelled"]} else ∅) ∪
    ((if requested pt "availability_days" then {["availability_days"]} else ∅) ∪ ∅))))).
Proof.
  unfold requested_keys, metrics. rewrite !list_to_set_filter_cons.
  cbn [List.filter list_to_set].
  name_conditional_sets. set_solver.
Qed.

Lemma generate_specific_predictions_dom clk l pt period risk_score category :
  dom (_generate_specific_predictions clk l pt period risk_score category)
  = requested_keys pt.
Proof.
  rewrite requested_keys_unfold. unfold _generate_specific_predictions. cbv zeta.
  rewrite !dom_cond_insert, dom_empty_L. reflexivity.
Qed.

Lemma fallback_predictions_dom clk l pt period :
  dom (fallback_predictions clk l pt period) = requested_keys pt.
Proof.
  rewrite requested_keys_unfold. unfold fallback_predictions. cbv zeta.
  rewrite !dom_cond_insert, dom_empty_L. reflexivity.
Qed.

Lemma bulk_predictions_dom clk l pt :
  dom (bulk_predictions clk l pt) = requested_keys pt.
Proof.
  rewrite requested_keys_unfold. unfold bulk_predictions. cbv zeta.
  rewrite !dom_cond_insert, dom_empty_L. reflexivity.
Qed.

Lemma requested_keys_metric (pt : string) : In pt metrics -> requested_keys pt = {[pt]}.
Proof.
  unfold metrics. cbn [In].
  intros [<- | [<- | [<- | [<- | [<- | [<- | []]]]]]];
    rewrite requested_keys_unfold; eval_requested; set_solver.
Qed.

Lemma requested_keys_all : requested_keys "all" = list_to_set metrics.
Proof.
  rewrite requested_keys_unfold. eval_requested.
  unfold metrics. cbn [list_to_set]. set_solver.
Qed.

Lemma requested_other (pt k : string) :
  ~ In pt documented_prediction_types -> In k metrics -> requested pt k = false.
Proof.
  intros Hpt Hk. unfold requested. apply orb_false_iff. split.
  - apply String.eqb_neq. intros ->. apply Hpt. left. reflexivity.
  - apply String.eqb_neq. intros ->. apply Hpt. right. exact Hk.
Qed.

Lemma requested_keys_other (pt : string) :
  ~ In pt documented_prediction_types -> requested_keys pt = ∅.
Proof.
  intros Hpt. rewrite requested_keys_unfold.
  rewrite !(requested_other pt) by (assumption || (unfold metrics; cbn [In]; tauto)).
  set_solver.
Qed.

Lemma generate_specific_predictions_clamped clk l pt period risk_score category :
  map_Forall
    (fun k v => 0 <= v /\ (k = "reliability" \/ k = "fuel_efficiency" -> v <= 100))
    (_generate_specific_predictions clk l pt period risk_score category).
Proof.
  unfold _generate_specific_predictions. cbv zeta.
  repeat apply map_Forall_cond_insert; try apply map_Forall_empty.
  all: split;
    [ first [ apply inject_Z_nonneg; lia | apply py_max_lower ]
    | intros [E | E]; try discriminate E ].
  all: match goal with |- Py.max 0 (Py.min 100 ?x) <= 100 => generalize x end.
  all: intros x; py_minmax; lra.
Qed.

(** C6. The synthesizer fills only the requested metric: a named metric
    gives exactly that key on the model path and on the fallback path,
    "all" gives the six keys; on the model path every value is at least 0
    and reliability and fuel_efficiency are at most 100. *)
Theorem C6_only_requested_metrics (clk : Clock) (l : Locomotive) (pt : string)
    (period : Z) (risk_score : Q) (category : string) :
  (In pt metrics ->
     dom (_generate_specific_predictions clk l pt period risk_score category) = {[pt]} /\
     dom (fallback_predictions clk l pt period) = {[pt]}) /\
  (dom (_generate_specific_predictions clk l "all" period risk_score category)
     = list_to_set metrics /\
   dom (fallback_predictions clk l "all" period) = list_to_set metrics) /\
  (forall k v,
     _generate_specific_predictions clk l pt period risk_score category !! k = Some v ->
     0 <= v /\ (k = "reliability" \/ k = "fuel_efficiency" -> v <= 100)).
Proof.
  split; [|split].
  - intros Hpt.
    rewrite generate_specific_predictions_dom, fallback_predictions_dom.
    rewrite requested_keys_metric by assumption. split; reflexivity.
  - rewrite generate_specific_predictions_dom, fallback_predictions_dom.
    rewrite requested_keys_all. split; reflexivity.
  - intros k v Hk.
    exact (generate_specific_predictions_clamped clk l pt period risk_score category k v Hk).
Qed.

Lemma C6_only_requested_metrics_witness :
  In "reliability" metrics /\
  dom (_generate_specific_predictions clock_november
         (make_locomotive "DE10" 2011 42000 None) "reliability" 365 40 "Medium")
    = {["reliability"]} /\
  dom (fallback_predictions clock_november
         (make_locomotive "DE10" 2011 42000 None) "reliability" 365)
    = {["reliability"]}.
Proof.
  assert (H : In "reliability" metrics) by (unfold metrics; cbn [In]; tauto).
  split; [exact H|].
  exact (proj1 (C6_only_requested_metrics clock_november
                  (make_locomotive "DE10" 2011 42000 None) "reliability" 365 40 "Medium") H).
Defined.

(** ** The distance-per-day metric *)

Lemma requested_cases (pt k : string) :
  pt = "all" \/ pt = k -> requested pt k = true.
Proof.
  unfold requested. intros [-> | ->].
  - reflexivity.
  - rewrite String.eqb_refl. apply orb_true_r.
Qed.

Lemma fallback_distance_per_day clk l pt period :
  pt = "all" \/ pt = "distance_per_day" ->
  fallback_predictions clk l pt period !! "distance_per_day"
  = Some (inject_Z (100 - age clk l * 2)).
Proof.
  intros Hpt. unfold fallback_predictions. cbv zeta.
  rewrite !lookup_cond_insert_ne by discriminate.
  apply lookup_cond_insert_eq, requested_cases, Hpt.
Qed.

Lemma bulk_distance_per_day clk l pt :
  pt = "all" \/ pt = "distance_per_day" ->
  bulk_predictions clk l pt !! "distance_per_day"
  = Some (inject_Z (120 - age clk l * 2)).
Proof.
  intros Hpt. unfold bulk_predictions. cbv zeta.
  rewrite !lookup_cond_insert_ne by discriminate.
  apply lookup_cond_insert_eq, requested_cases, Hpt.
Qed.

Lemma inject_Z_negative (n : Z) : inject_Z n < 0 <-> (n < 0)%Z.
Proof. change 0 with (inject_Z 0). rewrite <- Zlt_Qlt. reflexivity. Qed.

(** C10. The fallback stores [round(100 - age*2, 2)] under
    distance_per_day with no lower clamp, so the value is negative
    exactly when age > 50; the bulk route stores [round(120 - age*2, 2)],
    negative exactly when age > 60; the model-path synthesizer clamps the
    same metric at 0. *)
Theorem C10_distance_per_day_unclamped (clk : Clock) (l : Locomotive) (pt : string)
    (period : Z) (risk_score : Q) (category : string) :
  pt = "all" \/ pt = "distance_per_day" ->
  (exists v, fallback_predictions clk l pt period !! "distance_per_day" = Some v /\
             v == inject_Z (100 - age clk l * 2) /\
             (v < 0 <-> (50 < age clk l)%Z)) /\
  (exists v, bulk_predictions clk l pt !! "distance_per_day" = Some v /\
             v == inject_Z (120 - age clk l * 2) /\
             (v < 0 <-> (60 < age clk l)%Z)) /\
  (exists v, _generate_specific_predictions clk l pt period risk_score category
               !! "distance_per_day" = Some v /\ 0 <= v).
Proof.
  intros Hpt. split; [|split].
  - eexists. split; [apply fallback_distance_per_day, Hpt|].
    split; [reflexivity|]. rewrite inject_Z_negative. lia.
  - eexists. split; [apply bulk_distance_per_day, Hpt|].
    split; [reflexivity|]. rewrite inject_Z_negative. lia.
  - pose proof (generate_specific_predictions_dom clk l pt period risk_score category) as Hdom.
    assert (Hin : "distance_per_day" ∈
                  dom (_generate_specific_predictions clk l pt period risk_score category)).
    { rewrite Hdom, requested_keys_unfold.
      destruct Hpt as [-> | ->]; eval_requested; set_solver. }
    apply elem_of_dom in Hin. destruct Hin as [v Hv].
    exists v. split; [exact Hv|].
    exact (proj1 (generate_specific_predictions_clamped clk l pt period risk_score
                    category _ _ Hv)).
Qed.

Lemma C10_distance_per_day_unclamped_witness :
  exists v, fallback_predictions clock_november (make_locomotive "DE10" 1971 30000 None)
              "distance_per_day" 365 !! "distance_per_day" = Some v /\
            v == inject_Z (100 - 55 * 2) /\ v < 0.
Proof.
  destruct (C10_distance_per_day_unclamped clock_november
              (make_locomotive "DE10" 1971 30000 None) "distance_per_day" 365 50 "Medium"
              (or_intror eq_refl)) as [[v [Hv [Heq Hneg]]] _].
  exists v. split; [exact Hv|]. split; [exact Heq|].
  apply Hneg. vm_compute. reflexivity.
Defined.

(** ** Fields of the result dictionary *)

Lemma fallback_prediction_dom clk l pt period :
  dom (_fallback_prediction clk l pt period) = result_schema.
Proof.
  unfold _fallback_prediction. cbv zeta. rewrite dom_list_to_map_L. reflexivity.
Qed.

Lemma ml_result_dom clk l pt period risk_score category :
  dom (ml_result clk l pt period risk_score category) = result_schema.
Proof.
  unfold ml_result. cbv zeta. rewrite dom_list_to_map_L. reflexivity.
Qed.

Lemma fallback_prediction_method clk l pt period :
  _fallback_prediction clk l pt period !! "prediction_method"
  = Some (VStr "Fallback Method").
Proof. reflexivity. Qed.

Lemma fallback_prediction_recommendations clk l pt period :
  _fallback_prediction clk l pt period !! "recommendations"
  = Some (VList (fallback_recommendations clk l (get_risk_level clk l)
                   (fallback_predictions clk l pt period))).
Proof. reflexivity. Qed.

Lemma fallback_prediction_predictions clk l pt period :
  _fallback_prediction clk l pt period !! "predictions"
  = Some (VDict (fallback_predictions clk l pt period)).
Proof. reflexivity. Qed.

Lemma ml_result_method clk l pt period risk_score category :
  ml_result clk l pt period risk_score category !! "prediction_method"
  = Some (VStr "ML Performance Model").
Proof. reflexivity. Qed.

Lemma ml_result_recommendations clk l pt period risk_score category :
  ml_result clk l pt period risk_score category !! "recommendations"
  = Some (VList (_generate_recommendations clk l risk_score (risk_level_of risk_score)
                   category pt)).
Proof. reflexivity. Qed.

Lemma ml_result_predictions clk l pt period risk_score category :
  ml_result clk l pt period risk_score category !! "predictions"
  = Some (VDict (_generate_specific_predictions clk l pt period risk_score category)).
Proof. reflexivity. Qed.

(** ** Length of the recommendation list *)

Lemma availability_recommendations_length lvl a h :
  (2 <= length (_get_availability_recommendations lvl a h) <= 3)%nat.
Proof.
  unfold _get_availability_recommendations.
  destruct (String.eqb lvl "High"), (String.eqb lvl "Medium"), (20 <? a)%Z;
    cbn [length app]; lia.
Qed.

Lemma distance_recommendations_length lvl a h :
  (2 <= length (_get_distance_recommendations lvl a h) <= 3)%nat.
Proof.
  unfold _get_distance_recommendations.
  destruct (String.eqb lvl "High"), (String.eqb lvl "Medium"), (50000 <? h)%Z;
    cbn [length app]; lia.
Qed.

Lemma daily_distance_recommendations_length lvl a h :
  (2 <= length (_get_daily_distance_recommendations lvl a h) <= 3)%nat.
Proof.
  unfold _get_daily_distance_recommendations.
  destruct (String.eqb lvl "High"), (String.eqb lvl "Medium"), (20 <? a)%Z;
    cbn [length app]; lia.
Qed.

Lemma failure_recommendations_length lvl a h :
  (2 <= length (_get_failure_recommendations lvl a h) <= 4)%nat.
Proof.
  unfold _get_failure_recommendations.
  destruct (String.eqb lvl "High"), (String.eqb lvl "Medium"), (20 <? a)%Z,
    (50000 <? h)%Z; cbn [length app]; lia.
Qed.

Lemma reliability_recommendations_length lvl cat a h :
  (2 <= length (_get_reliability_recommendations lvl cat a h) <= 3)%nat.
Proof.
  unfold _get_reliability_recommendations.
  destruct (String.eqb cat "Critical"), (String.eqb cat "Low"), (20 <? a)%Z;
    cbn [length app]; lia.
Qed.

Lemma fuel_efficiency_recommendations_length m lvl a h :
  (2 <= length (_get_fuel_efficiency_recommendations m lvl a h) <= 3)%nat.
Proof.
  unfold _get_fuel_efficiency_recommendations.
  destruct ((20 <? a) && (50000 <? h))%Z, ((15 <? a) || (40000 <? h))%Z,
    (winter_month m), (summer_month m); cbn [length app]; lia.
Qed.

Lemma length_take_one {A} (l : list A) :
  (2 <= length l)%nat -> length (take 1 l) = 1%nat.
Proof. intros H. rewrite length_take. lia. Qed.

(** The model path: the basic statement, then the dispatch, never more
    than six. *)
Lemma generate_recommendations_length clk l risk_score lvl cat pt :
  (2 <= length (_generate_recommendations clk l risk_score lvl cat pt) <= 6)%nat.
Proof.
  unfold _generate_recommendations. cbv zeta. rewrite length_take.
  pose proof (availability_recommendations_length lvl (age clk l) (operating_hours l)).
  pose proof (distance_recommendations_length lvl (age clk l) (operating_hours l)).
  pose proof (daily_distance_recommendations_length lvl (age clk l) (operating_hours l)).
  pose proof (failure_recommendations_length lvl (age clk l) (operating_hours l)).
  pose proof (reliability_recommendations_length lvl cat (age clk l) (operating_hours l)).
  pose proof (fuel_efficiency_recommendations_length (now_month clk) lvl (age clk l)
                (operating_hours l)).
  repeat match goal with
         | |- context [String.eqb pt ?s] => destruct (String.eqb pt s)
         end.
  all: repeat first [rewrite length_app | rewrite length_take_one by lia].
  all: cbn [length].
  all: match goal with
       | |- context [(?n =? 1)%nat] => destruct (Nat.eqb_spec n 1)
       end.
  all: repeat first [rewrite length_app | rewrite length_take_one by lia].
  all: cbn [length]; lia.
Qed.

(** The fallback path: every block only appends, and the list is
    returned as it is, with up to eleven statements. *)
Lemma risk_based_length lvl r :
  length (risk_based_recommendations lvl r) = (length r + 2)%nat.
Proof.
  unfold risk_based_recommendations.
  destruct (String.eqb lvl "High"), (String.eqb lvl "Medium");
    rewrite length_app; reflexivity.
Qed.

Lemma age_based_length a r :
  (length r <= length (age_based_recommendations a r) <= length r + 2)%nat.
Proof.
  unfold age_based_recommendations.
  destruct (25 <? a)%Z, (20 <? a)%Z, (15 <? a)%Z;
    rewrite ?length_app; cbn [length]; lia.
Qed.

Lemma operating_hours_length h r :
  (length r <= length (operating_hours_recommendations h r) <= length r + 2)%nat.
Proof.
  unfold operating_hours_recommendations.
  destruct (60000 <? h)%Z, (50000 <? h)%Z;
    rewrite ?length_app; cbn [length]; lia.
Qed.

Lemma seasonal_usage_length m r :
  (length r <= length (seasonal_usage_recommendations m r) <= length r + 2)%nat.
Proof.
  unfold seasonal_usage_recommendations.
  destruct (winter_month m), (summer_month m);
    rewrite ?length_app; cbn [length]; lia.
Qed.

Lemma fuel_efficiency_length p r :
  (length r + 1 <= length (fuel_efficiency_recommendations p r) <= length r + 2)%nat.
Proof.
  unfold fuel_efficiency_recommendations. cbv zeta.
  generalize (default 0 (p !! "fuel_efficiency")). intros x.
  destruct (Py.Qlt_bool x 60), (Py.Qlt_bool x 75);
    rewrite length_app; cbn [length]; lia.
Qed.

Lemma fleet_specific_length mdl r :
  (length r <= length (fleet_specific_recommendations mdl r) <= length r + 1)%nat.
Proof.
  unfold fleet_specific_recommendations.
  destruct (String.eqb mdl "DE10"), (String.eqb mdl "DE11");
    rewrite ?length_app; cbn [length]; lia.
Qed.

Lemma ensure_one_length r :
  (1 <= length r)%nat -> ensure_one_recommendation r = r.
Proof. destruct r; cbn [length ensure_one_recommendation]; [lia | reflexivity]. Qed.

Lemma fallback_recommendations_length clk l lvl predictions :
  (3 <= length (fallback_recommendations clk l lvl predictions) <= 11)%nat.
Proof.
  unfold fallback_recommendations. cbv zeta.
  set (r1 := risk_based_recommendations lvl []).
  set (r2 := age_based_recommendations _ r1).
  set (r3 := operating_hours_recommendations _ r2).
  set (r4 := seasonal_usage_recommendations _ r3).
  set (r5 := fuel_efficiency_recommendations _ r4).
  set (r6 := fleet_specific_recommendations _ r5).
  pose proof (risk_based_length lvl []) as H1. fold r1 in H1. cbn [length] in H1.
  pose proof (age_based_length (age clk l) r1) as H2. fold r2 in H2.
  pose proof (operating_hours_length (operating_hours l) r2) as H3. fold r3 in H3.
  pose proof (seasonal_usage_length (now_month clk) r3) as H4. fold r4 in H4.
  pose proof (fuel_efficiency_length predictions r4) as H5. fold r5 in H5.
  pose proof (fleet_specific_length (model l) r5) as H6. fold r6 in H6.
  rewrite ensure_one_length by lia. lia.
Qed.

(** C1 (fails on the fallback path). An old, heavily used DE10 asked in
    January for its availability gets eleven statements from the fallback
    predictor, through [predict_performance] with the bundle not loaded;
    the model path caps its list at six. *)
Theorem C1_fallback_recommendations_uncapped :
  exists recs,
    predict_performance unloaded_service clock_january
      (make_locomotive "DE10" 1996 60001 None) "availability_days" 365
      !! "recommendations" = Some (VList recs) /\
    length recs = 11%nat.
Proof.
  eexists. split; vm_compute; reflexivity.
Qed.

(** ** The fuel-efficiency statements of the fallback *)

Lemma fallback_fuel_efficiency_absent clk l pt period :
  pt <> "all" -> pt <> "fuel_efficiency" ->
  fallback_predictions clk l pt period !! "fuel_efficiency" = None.
Proof.
  intros Hall Hfuel. unfold fallback_predictions. cbv zeta.
  rewrite lookup_cond_insert_skip.
  - rewrite !lookup_cond_insert_ne by discriminate. apply lookup_empty.
  - unfold requested. apply orb_false_iff.
    split; apply String.eqb_neq; assumption.
Qed.

Lemma fuel_efficiency_poor_when_absent predictions r :
  predictions !! "fuel_efficiency" = None ->
  fuel_efficiency_recommendations predictions r
  = r ++ [ poor_fuel_efficiency; avoid_fuel_sensitive ].
Proof.
  intros H. unfold fuel_efficiency_recommendations. rewrite H. reflexivity.
Qed.

Lemma fleet_specific_keeps mdl r x :
  In x r -> In x (fleet_specific_recommendations mdl r).
Proof.
  intros H. unfold fleet_specific_recommendations.
  destruct (String.eqb mdl "DE10"), (String.eqb mdl "DE11");
    rewrite ?in_app_iff; auto.
Qed.

Lemma ensure_one_keeps r x : In x r -> In x (ensure_one_recommendation r).
Proof. destruct r; cbn [ensure_one_recommendation]; [intros [] | auto]. Qed.

Lemma fallback_recommendations_poor_fuel clk l lvl predictions :
  predictions !! "fuel_efficiency" = None ->
  In poor_fuel_efficiency (fallback_recommendations clk l lvl predictions) /\
  In avoid_fuel_sensitive (fallback_recommendations clk l lvl predictions).
Proof.
  intros H. unfold fallback_recommendations. cbv zeta.
  rewrite (fuel_efficiency_poor_when_absent _ _ H).
  split; apply ensure_one_keeps, fleet_specific_keeps, in_app_iff; right;
    cbn [In]; auto.
Qed.

(** C9. On the fallback path, a prediction type other than "all" and
    "fuel_efficiency" leaves the predictions without a fuel_efficiency
    key; the lookup then defaults to 0, below 60, and the returned
    recommendations contain the poor-fuel-efficiency statement and the
    avoid-for-fuel-sensitive-operations statement, whatever the
    locomotive. *)
Theorem C9_fallback_poor_fuel_statements (clk : Clock) (l : Locomotive) (pt : string)
    (period : Z) :
  pt <> "all" -> pt <> "fuel_efficiency" ->
  fallback_predictions clk l pt period !! "fuel_efficiency" = None /\
  default 0 (fallback_predictions clk l pt period !! "fuel_efficiency") < 60 /\
  exists recs,
    _fallback_prediction clk l pt period !! "recommendations" = Some (VList recs) /\
    In poor_fuel_efficiency recs /\
    In avoid_fuel_sensitive recs.
Proof.
  intros Hall Hfuel.
  pose proof (fallback_fuel_efficiency_absent clk l pt period Hall Hfuel) as Habs.
  split; [exact Habs|]. split.
  - rewrite Habs. reflexivity.
  - eexists. split; [apply fallback_prediction_recommendations|].
    apply fallback_recommendations_poor_fuel, Habs.
Qed.

Lemma C9_fallback_poor_fuel_statements_witness :
  exists recs,
    _fallback_prediction clock_november new_locomotive "reliability" 365 !! "recommendations" = Some (VList recs) /\
    In poor_fuel_efficiency recs /\
    In avoid_fuel_sensitive recs.
Proof.
  assert (Hall : "reliability" <> "all") by discriminate.
  assert (Hfuel : "reliability" <> "fuel_efficiency") by discriminate.
  exact (proj2 (proj2 (C9_fallback_poor_fuel_statements clock_november new_locomotive
                         "reliability" 365 Hall Hfuel))).
Defined.

(** ** Unknown prediction types *)

Lemma generate_recommendations_other clk l risk_score lvl cat pt :
  ~ In pt documented_prediction_types ->
  _generate_recommendations clk l risk_score lvl cat pt
  = [ basic_risk_assessment lvl; continue_regular_maintenance ].
Proof.
  intros Hpt. unfold _generate_recommendations. cbv zeta.
  assert (Hne : forall k, In k documented_prediction_types -> String.eqb pt k = false).
  { intros k Hk. apply String.eqb_neq. intros ->. exact (Hpt Hk). }
  rewrite !Hne by (unfold documented_prediction_types, metrics; cbn [In]; tauto).
  reflexivity.
Qed.

Lemma generate_specific_predictions_other clk l pt period risk_score cat :
  ~ In pt documented_prediction_types ->
  _generate_specific_predictions clk l pt period risk_score cat = ∅.
Proof.
  intros Hpt. apply dom_empty_inv_L.
  rewrite generate_specific_predictions_dom. apply requested_keys_other, Hpt.
Qed.

Lemma fallback_predictions_other clk l pt period :
  ~ In pt documented_prediction_types ->
  fallback_predictions clk l pt period = ∅.
Proof.
  intros Hpt. apply dom_empty_inv_L.
  rewrite fallback_predictions_dom. apply requested_keys_other, Hpt.
Qed.

(** ** [predict_performance]: the two outcomes *)

Lemma predict_performance_ml svc clk l pt period features scaled ml_risk_score code cat :
  models_loaded svc = true ->
  _prepare_locomotive_features svc clk l = Some features ->
  scaler svc features = inr scaled ->
  risk_model svc scaled = inr ml_risk_score ->
  reliability_model svc scaled = inr code ->
  reliability_encoder_inverse svc code = inr cat ->
  predict_performance svc clk l pt period
  = ml_result clk l pt period (rescaled_risk_score clk l ml_risk_score) cat.
Proof.
  intros Hloaded Hfeat Hscaler Hrisk Hrel Hinv.
  unfold predict_performance, predict_performance_body.
  rewrite Hloaded, Hfeat. cbn [negb].
  unfold mbind, raises_bind. rewrite Hscaler, Hrisk, Hrel, Hinv. reflexivity.
Qed.

Lemma predict_performance_outcomes svc clk l pt period :
  predict_performance svc clk l pt period = _fallback_prediction clk l pt period \/
  exists risk_score cat,
    predict_performance svc clk l pt period = ml_result clk l pt period risk_score cat.
Proof.
  unfold predict_performance, predict_performance_body.
  destruct (models_loaded svc); cbn [negb]; [|left; reflexivity].
  destruct (_prepare_locomotive_features svc clk l) as [features|];
    [|left; reflexivity].
  unfold mbind, raises_bind.
  destruct (scaler svc features) as [e | scaled]; [left; reflexivity|].
  destruct (risk_model svc scaled) as [e | ml_risk_score]; [left; reflexivity|].
  destruct (reliability_model svc scaled) as [e | code]; [left; reflexivity|].
  destruct (reliability_encoder_inverse svc code) as [e | cat]; [left; reflexivity|].
  right. eexists _, _. reflexivity.
Qed.

(** C2. [predict_performance] is total and never surfaces an exception of
    feature derivation or of the model path: with the bundle not loaded,
    with no features, or with any exception raised in the [try] block, it
    returns the fallback result, whose [prediction_method] is
    "Fallback Method".  Every result has the same nine keys, and its
    [prediction_method] is either "ML Performance Model" or, on a fallback
    result, "Fallback Method". *)
Theorem C2_fallback_on_failure (svc : LocomotiveMLService) (clk : Clock)
    (l : Locomotive) (pt : string) (period : Z) :
  let result := predict_performance svc clk l pt period in
  let fallback := _fallback_prediction clk l pt period in
  (models_loaded svc = false -> result = fallback) /\
  (_prepare_locomotive_features svc clk l = None -> result = fallback) /\
  (forall e, prepare_locomotive_features_body svc clk l = inl e -> result = fallback) /\
  (forall e, predict_performance_body svc clk l pt period = inl e -> result = fallback) /\
  fallback !! "prediction_method" = Some (VStr "Fallback Method") /\
  dom fallback = result_schema /\
  dom result = result_schema /\
  (result = fallback \/
   result !! "prediction_method" = Some (VStr "ML Performance Model")).
Proof.
  cbv zeta.
  assert (Hnone : _prepare_locomotive_features svc clk l = None ->
                  predict_performance svc clk l pt period
                  = _fallback_prediction clk l pt period).
  { intros H. unfold predict_performance, predict_performance_body. rewrite H.
    destruct (models_loaded svc); reflexivity. }
  refine (conj _ (conj Hnone (conj _ (conj _ (conj _ (conj _ (conj _ _))))))).
  - intros H. unfold predict_performance. rewrite H. reflexivity.
  - intros e He. apply Hnone. unfold _prepare_locomotive_features. rewrite He.
    reflexivity.
  - intros e He. unfold predict_performance. rewrite He.
    destruct (models_loaded svc); reflexivity.
  - apply fallback_prediction_method.
  - apply fallback_prediction_dom.
  - destruct (predict_performance_outcomes svc clk l pt period) as [-> | [r [c ->]]].
    + apply fallback_prediction_dom.
    + apply ml_result_dom.
  - destruct (predict_performance_outcomes svc clk l pt period) as [-> | [r [c ->]]].
    + left. reflexivity.
    + right. apply ml_result_method.
Qed.

Lemma C2_fallback_on_failure_witness :
  predict_performance unseen_fleet_service clock_november old_locomotive "all" 365
  = _fallback_prediction clock_november old_locomotive "all" 365.
Proof.
  apply (proj1 (proj2 (proj2 (C2_fallback_on_failure unseen_fleet_service
                                clock_november old_locomotive "all" 365)))
           (ValueError "y contains previously unseen labels")).
  vm_compute. reflexivity.
Defined.

(** C8. A prediction type outside the seven documented values is not
    rejected.  When the model path runs to its end, the result carries
    the method "ML Performance Model", an empty predictions dictionary and
    exactly two recommendations: the basic risk-level statement and the
    generic continue-monitoring statement.  The fallback, too, answers
    with an empty predictions dictionary. *)
Theorem C8_unknown_prediction_type (svc : LocomotiveMLService) (clk : Clock)
    (l : Locomotive) (pt : string) (period : Z)
    (features : DataFrame) (scaled : list Q) (ml_risk_score code : Q) (cat : string) :
  ~ In pt documented_prediction_types ->
  models_loaded svc = true ->
  _prepare_locomotive_features svc clk l = Some features ->
  scaler svc features = inr scaled ->
  risk_model svc scaled = inr ml_risk_score ->
  reliability_model svc scaled = inr code ->
  reliability_encoder_inverse svc code = inr cat ->
  let result := predict_performance svc clk l pt period in
  let risk_level := risk_level_of (rescaled_risk_score clk l ml_risk_score) in
  result !! "prediction_method" = Some (VStr "ML Performance Model") /\
  result !! "prediction_type" = Some (VStr pt) /\
  result !! "predictions" = Some (VDict ∅) /\
  result !! "recommendations"
    = Some (VList [ basic_risk_assessment risk_level; continue_regular_maintenance ]) /\
  _fallback_prediction clk l pt period !! "predictions" = Some (VDict ∅).
Proof.
  intros Hpt Hloaded Hfeat Hscaler Hrisk Hrel Hinv. cbv zeta.
  rewrite (predict_performance_ml svc clk l pt period _ _ _ _ _
             Hloaded Hfeat Hscaler Hrisk Hrel Hinv).
  split; [apply ml_result_method|].
  split; [reflexivity|].
  split; [|split].
  - rewrite ml_result_predictions, generate_specific_predictions_other by assumption.
    reflexivity.
  - rewrite ml_result_recommendations, generate_recommendations_other by assumption.
    reflexivity.
  - rewrite fallback_prediction_predictions, fallback_predictions_other by assumption.
    reflexivity.
Qed.

Lemma C8_unknown_prediction_type_witness :
  predict_performance constant_service clock_november new_locomotive "top_speed" 365
    !! "predictions" = Some (VDict ∅) /\
  predict_performance constant_service clock_november new_locomotive "top_speed" 365
    !! "recommendations"
    = Some (VList [ basic_risk_assessment "Low"; continue_regular_maintenance ]).
Proof.
  assert (Hpt : ~ In "top_speed" documented_prediction_types).
  { unfold documented_prediction_types, metrics. cbn [In].
    intros [H | [H | [H | [H | [H | [H | [H | []]]]]]]]; discriminate H. }
  assert (Hfeat : exists f, _prepare_locomotive_features constant_service clock_november
                              new_locomotive = Some f).
  { eexists. vm_compute. reflexivity. }
  destruct Hfeat as [f Hfeat].
  destruct (C8_unknown_prediction_type constant_service clock_november new_locomotive
              "top_speed" 365 f (map snd f) 3 1 "Medium"
              Hpt eq_refl Hfeat eq_refl eq_refl eq_refl eq_refl)
    as [_ [_ [Hpred [Hrecs _]]]].
  split; [exact Hpred | exact Hrecs].
Defined.

(** ** Feature derivation with no operating hours *)

Lemma raises_bind_ret {A B} (a : A) (k : A -> raises B) : (inr a ≫= k) = k a.
Proof. reflexivity. Qed.

Lemma raises_bind_raise {A B} (e : exn) (k : A -> raises B) : (inl e ≫= k) = inl e.
Proof. reflexivity. Qed.

(** The divisions of the feature block: each returns, and the block goes
    on with the quotient. *)
Ltac divisions_return :=
  repeat (first [ rewrite truediv_floor_returns
                | rewrite truediv_returns by reflexivity
                | rewrite raises_bind_ret ];
          cbv beta).

(** C5. With [operating_hours = 0], no division of
    [_prepare_locomotive_features] raises: the [try] block reduces to the
    three encoder calls followed by the construction of the frame, every
    denominator taken from the snapshot being floored at 1.  In the frame
    the per-hour features are finite: [Failure_Rate] and
    [Failure_Rate_per_Hour] equal [Total_Failures], [Usage_Intensity] and
    [Distance_per_Hour] are 0. *)
Theorem C5_zero_hours_no_division_error (svc : LocomotiveMLService) (clk : Clock)
    (l : Locomotive) :
  operating_hours l = 0%Z ->
  exists (reliability_category age_category : string) (frame : Q -> Q -> Q -> DataFrame),
    prepare_locomotive_features_body svc clk l
    = (fleet_encoded ← fleet_encoder svc (default "NRZ" (fleet l));
       reliability_encoded ← reliability_encoder svc reliability_category;
       age_encoded ← age_encoder svc age_category;
       mret (frame fleet_encoded reliability_encoded age_encoded)) /\
    forall fleet_encoded reliability_encoded age_encoded,
    exists total_failures failure_rate usage_intensity failure_rate_per_hour
           distance_per_hour,
      let df := frame fleet_encoded reliability_encoded age_encoded in
      column "Total_Failures" df = Some total_failures /\
      column "Failure_Rate" df = Some failure_rate /\
      column "Usage_Intensity" df = Some usage_intensity /\
      column "Failure_Rate_per_Hour" df = Some failure_rate_per_hour /\
      column "Distance_per_Hour" df = Some distance_per_hour /\
      0 <= total_failures /\
      failure_rate == total_failures /\
      usage_intensity == 0 /\
      failure_rate_per_hour == total_failures /\
      distance_per_hour == 0.
Proof.
  intros Hhours. unfold prepare_locomotive_features_body. rewrite Hhours. cbv zeta.
  assert (Havail : (0 <? Z.max 300 (365 - age clk l * 5))%Z = true)
    by (apply Z.ltb_lt; lia).
  rewrite Havail.
  divisions_return.
  match goal with
  | |- context [reliability_encoder svc ?rc] =>
      match goal with
      | |- context [age_encoder svc ?ac] => exists rc, ac
      end
  end.
  eexists. split.
  - destruct (fleet_encoder svc _) as [e | fleet_encoded];
      [rewrite !raises_bind_raise; reflexivity | rewrite !raises_bind_ret; cbv beta].
    destruct (reliability_encoder svc _) as [e | reliability_encoded];
      [rewrite !raises_bind_raise; reflexivity | rewrite !raises_bind_ret; cbv beta].
    destruct (age_encoder svc _) as [e | age_encoded];
      [rewrite !raises_bind_raise; reflexivity | rewrite !raises_bind_ret; cbv beta].
    divisions_return.
    instantiate (1 := fun fleet_encoded reliability_encoded age_encoded => _).
    cbv beta. reflexivity.
  - intros fleet_encoded reliability_encoded age_encoded. cbv beta zeta.
    eexists _, _, _, _, _.
    repeat (split; [reflexivity|]).
    change (inject_Z 0) with 0.
    change (Py.max 1 (0 / 1000)) with 1.
    change (Py.max 1 0) with 1.
    change (inject_Z (0 * 50)) with 0.
    split; [apply py_max_lower|].
    split; [field|]. split; [|split; field].
    unfold Qdiv. apply Qmult_0_l.
Qed.

Lemma C5_zero_hours_no_division_error_witness :
  exists (reliability_category age_category : string) (frame : Q -> Q -> Q -> DataFrame),
    prepare_locomotive_features_body constant_service clock_november idle_locomotive
    = (fleet_encoded ← fleet_encoder constant_service (default "NRZ" (fleet idle_locomotive));
       reliability_encoded ← reliability_encoder constant_service reliability_category;
       age_encoded ← age_encoder constant_service age_category;
       mret (frame fleet_encoded reliability_encoded age_encoded)).
Proof.
  destruct (C5_zero_hours_no_division_error constant_service clock_november
              idle_locomotive eq_refl) as (rc & ac & frame & Hbody & _).
  exists rc, ac, frame. exact Hbody.
Defined.

(** ** A negative risk score *)

(** C4 (fails on [calculate_risk_score]). A locomotive built this year,
    never run, whose last-maintenance date lies ten days ahead, has
    [days_since_maintenance = -10]: the maintenance term is -2 and so is
    the score, which the fallback returns as it is. *)
Theorem C4_risk_score_below_zero :
  (0 <= age clock_november prebooked_locomotive)%Z /\
  (0 <= operating_hours prebooked_locomotive)%Z /\
  calculate_risk_score clock_november prebooked_locomotive == - (2) /\
  exists score,
    predict_performance unloaded_service clock_november prebooked_locomotive "all" 365
      !! "risk_score" = Some (VNum score) /\
    score < 0.
Proof.
  split; [vm_compute; discriminate|].
  split; [vm_compute; discriminate|].
  split; [vm_compute; reflexivity|].
  eexists. split; vm_compute; reflexivity.
Qed.

(** The percentages of the fallback and of the bulk route stay within
    [50, 95] and [60, 90] for a non-negative age. *)
Lemma fallback_reliability_bounds clk l pt period v :
  (0 <= age clk l)%Z ->
  fallback_predictions clk l pt period !! "reliability" = Some v ->
  50 <= v <= 95.
Proof.
  intros Hage. unfold fallback_predictions. cbv zeta.
  rewrite lookup_cond_insert_ne by discriminate.
  destruct (requested pt "reliability"); cbv iota.
  - rewrite lookup_insert_eq. intros [= <-].
    change 50 with (inject_Z 50). change 95 with (inject_Z 95).
    rewrite <- !Zle_Qle. lia.
  - rewrite !lookup_cond_insert_ne by discriminate. rewrite lookup_empty. discriminate.
Qed.

(** ** Scenario: thirty years old, 60000 hours, never serviced *)

Lemma operating_hours_keeps h r x : In x r -> In x (operating_hours_recommendations h r).
Proof.
  intros H. unfold operating_hours_recommendations.
  destruct (60000 <? h)%Z, (50000 <? h)%Z; rewrite ?in_app_iff; auto.
Qed.

Lemma seasonal_usage_keeps m r x : In x r -> In x (seasonal_usage_recommendations m r).
Proof.
  intros H. unfold seasonal_usage_recommendations.
  destruct (winter_month m), (summer_month m); rewrite ?in_app_iff; auto.
Qed.

Lemma fuel_efficiency_keeps p r x : In x r -> In x (fuel_efficiency_recommendations p r).
Proof.
  intros H. unfold fuel_efficiency_recommendations. cbv zeta.
  generalize (default 0 (p !! "fuel_efficiency")). intros f.
  destruct (Py.Qlt_bool f 60), (Py.Qlt_bool f 75); rewrite in_app_iff; auto.
Qed.

Lemma age_based_major_overhaul a r :
  (25 < a)%Z -> In major_overhaul_required (age_based_recommendations a r).
Proof.
  intros H. unfold age_based_recommendations.
  apply Z.ltb_lt in H. rewrite H. rewrite in_app_iff. right. left. reflexivity.
Qed.

Lemma fallback_recommendations_major_overhaul clk l lvl predictions :
  (25 < age clk l)%Z ->
  In major_overhaul_required (fallback_recommendations clk l lvl predictions).
Proof.
  intros H. unfold fallback_recommendations. cbv zeta.
  apply ensure_one_keeps, fleet_specific_keeps, fuel_efficiency_keeps,
    seasonal_usage_keeps, operating_hours_keeps, age_based_major_overhaul, H.
Qed.

(** The recommendation code never reads the maintenance record: with
    a risk level, a risk score and a reliability category given, the
    statements are the same whatever [last_maintenance] holds. *)
Lemma fallback_recommendations_ignore_record clk l (m : option Z) level predictions :
  fallback_recommendations clk (set_last_maintenance m l) level predictions
  = fallback_recommendations clk l level predictions.
Proof. reflexivity. Qed.

Lemma fallback_predictions_ignore_record clk l (m : option Z) pt period :
  fallback_predictions clk (set_last_maintenance m l) pt period
  = fallback_predictions clk l pt period.
Proof. reflexivity. Qed.

Lemma generate_recommendations_ignore_record clk l (m : option Z) score level cat pt :
  _generate_recommendations clk (set_last_maintenance m l) score level cat pt
  = _generate_recommendations clk l score level cat pt.
Proof. reflexivity. Qed.

(** C7 (as amended). With [manufacturing_year = current_year - 30],
    [operating_hours = 60000] and no last-maintenance date the risk level
    is "High", also in the fallback result, whose recommendations contain
    the major-overhaul statement; [get_maintenance_recommendations] lists
    an Engine Overhaul item of priority High and the Routine Maintenance
    item that it emits when there is no maintenance record.  The
    recommendations of the prediction result contain no statement about
    the maintenance record: for the scenario locomotive the fallback list
    is the same when a maintenance date up to today is recorded, and for
    any locomotive the list changes with the record only if the risk
    level (fallback) or the risk score and category that the artifacts
    return (model path) change. *)
Theorem C7_old_unserviced_locomotive (clk : Clock) (id mdl status : string)
    (flt : option string) (pt : string) (period : Z) :
  let l := {| locomotive_id := id; model := mdl;
              manufacturing_year := now_year clk - 30; operating_hours := 60000;
              last_maintenance := None; current_status := status; fleet := flt |} in
  get_risk_level clk l = "High" /\
  _fallback_prediction clk l pt period !! "risk_level" = Some (VStr "High") /\
  (exists recs,
     _fallback_prediction clk l pt period !! "recommendations" = Some (VList recs) /\
     In major_overhaul_required recs) /\
  In {| item_type := "Engine Overhaul"; item_priority := "High";
        item_description := "Consider major engine overhaul due to age" |}
     (get_maintenance_recommendations clk l) /\
  In {| item_type := "Routine Maintenance"; item_priority := "High";
        item_description := "Overdue for routine maintenance" |}
     (get_maintenance_recommendations clk l) /\
  (forall d : Z,
     (0 <= days_since clk d)%Z ->
     _fallback_prediction clk (set_last_maintenance (Some d) l) pt period
       !! "recommendations"
     = _fallback_prediction clk l pt period !! "recommendations") /\
  (forall (svc : LocomotiveMLService) (d : Z),
     models_loaded svc = false -> (0 <= days_since clk d)%Z ->
     predict_performance svc clk (set_last_maintenance (Some d) l) pt period
       !! "recommendations"
     = predict_performance svc clk l pt period !! "recommendations") /\
  (forall (other : Locomotive) (m : option Z),
     get_risk_level clk (set_last_maintenance m other) = get_risk_level clk other ->
     _fallback_prediction clk (set_last_maintenance m other) pt period
       !! "recommendations"
     = _fallback_prediction clk other pt period !! "recommendations") /\
  (forall (other : Locomotive) (m : option Z) (risk_score : Q) (category : string),
     ml_result clk (set_last_maintenance m other) pt period risk_score category
       !! "recommendations"
     = ml_result clk other pt period risk_score category !! "recommendations").
Proof.
  intros l.
  assert (Hage : age clk l = 30%Z) by (unfold age, l; cbn; lia).
  assert (Hlevel : get_risk_level clk l = "High").
  { unfold get_risk_level, calculate_risk_score. rewrite Hage. reflexivity. }
  assert (Hsame : forall (other : Locomotive) (m : option Z),
             get_risk_level clk (set_last_maintenance m other) = get_risk_level clk other ->
             _fallback_prediction clk (set_last_maintenance m other) pt period
               !! "recommendations"
             = _fallback_prediction clk other pt period !! "recommendations").
  { intros other m Hsame. rewrite !fallback_prediction_recommendations, Hsame.
    rewrite fallback_recommendations_ignore_record, fallback_predictions_ignore_record.
    reflexivity. }
  split; [exact Hlevel|].
  split; [change (Some (VStr (get_risk_level clk l)) = Some (VStr "High"));
          rewrite Hlevel; reflexivity|].
  split.
  { eexists. split; [apply fallback_prediction_recommendations|].
    apply fallback_recommendations_major_overhaul. rewrite Hage. lia. }
  split; [|split].
  { unfold get_maintenance_recommendations, calculate_risk_score. rewrite Hage.
    vm_compute. left. reflexivity. }
  { unfold get_maintenance_recommendations, calculate_risk_score. rewrite Hage.
    vm_compute. right. right. left. reflexivity. }
  assert (Hserviced : forall d : Z,
             (0 <= days_since clk d)%Z ->
             _fallback_prediction clk (set_last_maintenance (Some d) l) pt period
               !! "recommendations"
             = _fallback_prediction clk l pt period !! "recommendations").
  { intros d Hdays. apply Hsame. rewrite Hlevel.
    pose proof (get_risk_level_cases clk (set_last_maintenance (Some d) l)) as Hcases.
    cbv zeta in Hcases.
    assert (Hscore : 70 <= calculate_risk_score clk (set_last_maintenance (Some d) l)).
    { unfold calculate_risk_score.
      change (age clk (set_last_maintenance (Some d) l)) with (age clk l).
      rewrite Hage. cbn [last_maintenance set_last_maintenance operating_hours l].
      pose proof (inject_Z_nonneg _ Hdays) as Hd.
      set (days := inject_Z (days_since clk d)) in *. clearbody days.
      change (Py.min 50 (inject_Z (30 * 2))) with 50.
      change (Py.min 30 (inject_Z 60000 / 1000 * (6 # 10))) with 30.
      py_minmax; lra. }
    destruct Hcases as [[_ H] | [[[_ H] _] | [H _]]]; [exact H | lra | lra]. }
  split; [exact Hserviced|]. split; [|split].
  - intros svc d Hloaded Hdays. unfold predict_performance.
    rewrite Hloaded. cbn [negb]. apply Hserviced, Hdays.
  - exact Hsame.
  - intros other m risk_score category. rewrite !ml_result_recommendations.
    rewrite generate_recommendations_ignore_record. reflexivity.
Qed.

Lemma C7_old_unserviced_locomotive_witness :
  get_risk_level clock_november old_locomotive = "High" /\
  _fallback_prediction clock_november old_locomotive_serviced "all" 365
    !! "recommendations"
  = _fallback_prediction clock_november old_locomotive "all" 365 !! "recommendations".
Proof.
  pose proof (C7_old_unserviced_locomotive clock_november "DE10-001" "DE10" "active"
                None "all" 365) as H.
  cbv zeta in H.
  destruct H as (Hlevel & _ & _ & _ & _ & Hserviced & _).
  split; [exact Hlevel|].
  apply (Hserviced 739923%Z). unfold days_since. cbn. lia.
Defined.

(** C7 (as stated, refuted). For the scenario locomotive in November
    2026 the fallback answers "High" with eight statements, none of which
    speaks of the maintenance record: the list is the same when the
    locomotive was serviced today, so no statement in it is there because
    the record is missing. *)
Lemma C7_no_statement_on_missing_record :
  let recs :=
    [ "🚨 URGENT: Do not use this locomotive for heavy operations. Schedule immediate comprehensive inspection and maintenance before next deployment.";
      "⚠️ Avoid long-distance routes (>500km) until risk assessment improves. Consider short-haul operations only.";
      "🔧 CRITICAL: Major overhaul required due to age. Consider retiring from primary operations.";
      "⏰ Plan for component replacement - engine, transmission, and braking systems need attention.";
      "📊 High operating hours detected. Plan for major component inspection and replacement.";
      "⛽ MODERATE FUEL EFFICIENCY: Schedule engine tune-up and filter replacement.";
      "📈 Monitor fuel consumption closely. Consider driver training for fuel-efficient operation.";
      "🏢 NRZ FLEET: Follow NRZ maintenance protocols. Ensure compliance with internal standards." ] in
  manufacturing_year old_locomotive = (now_year clock_november - 30)%Z /\
  operating_hours old_locomotive = 60000%Z /\
  last_maintenance old_locomotive = None /\
  predict_performance unloaded_service clock_november old_locomotive "all" 365
    !! "risk_level" = Some (VStr "High") /\
  predict_performance unloaded_service clock_november old_locomotive "all" 365
    !! "recommendations" = Some (VList recs) /\
  predict_performance unloaded_service clock_november old_locomotive_serviced "all" 365
    !! "recommendations" = Some (VList recs) /\
  ~ (exists s, In s recs /\
       forall recs_serviced,
         predict_performance unloaded_service clock_november old_locomotive_serviced
           "all" 365 !! "recommendations" = Some (VList recs_serviced) ->
         ~ In s recs_serviced).
Proof.
  intros recs.
  assert (Hserviced :
    predict_performance unloaded_service clock_november old_locomotive_serviced "all" 365
      !! "recommendations" = Some (VList recs)) by (vm_compute; reflexivity).
  split; [reflexivity|]. split; [reflexivity|]. split; [reflexivity|].
  split; [vm_compute; reflexivity|].
  split; [vm_compute; reflexivity|].
  split; [exact Hserviced|].
  intros [s [Hin Hout]]. exact (Hout recs Hserviced Hin).
Qed.

(** * Further properties *)

(** ** Rounding *)

Lemma round_half_even_floor (x : Q) :
  (Qfloor x <= Py.round_half_even x <= Qfloor x + 1)%Z.
Proof.
  unfold Py.round_half_even. cbv zeta.
  destruct (Qcompare (x - inject_Z (Qfloor x)) (1 # 2)); [destruct (Z.even _)| |]; lia.
Qed.

Lemma round_half_even_lower (k : Z) (x : Q) :
  inject_Z k <= x -> (k <= Py.round_half_even x)%Z.
Proof.
  intros H. apply Qfloor_resp_le in H. rewrite Qfloor_Z in H.
  pose proof (round_half_even_floor x). lia.
Qed.

Lemma round_half_even_upper (k : Z) (x : Q) :
  x <= inject_Z k -> (Py.round_half_even x <= k)%Z.
Proof.
  intros H. pose proof (Qfloor_le x) as Hfl.
  assert (Hfk : (Qfloor x <= k)%Z).
  { apply Qfloor_resp_le in H. rewrite Qfloor_Z in H. exact H. }
  unfold Py.round_half_even. cbv zeta.
  destruct (Qcompare (x - inject_Z (Qfloor x)) (1 # 2)) eqn:E.
  - apply Qeq_alt in E.
    assert (Hlt : inject_Z (Qfloor x) < inject_Z k) by lra.
    rewrite <- Zlt_Qlt in Hlt. destruct (Z.even _); lia.
  - exact Hfk.
  - apply Qgt_alt in E.
    assert (Hlt : inject_Z (Qfloor x) < inject_Z k) by lra.
    rewrite <- Zlt_Qlt in Hlt. lia.
Qed.

(** [round(x, 1)] stays between two bounds that are multiples of 0.1. *)
Lemma round1_bounds (lo hi : Z) (x : Q) :
  inject_Z lo / 10 <= x <= inject_Z hi / 10 ->
  inject_Z lo / 10 <= Py.round x 1 <= inject_Z hi / 10.
Proof.
  intros [Hlo Hhi]. unfold Py.round. cbv zeta.
  change (inject_Z (10 ^ Z.of_nat 1)) with 10.
  unfold Qdiv in *. change (/ 10) with (1 # 10) in *.
  assert (Hl : (lo <= Py.round_half_even (x * 10))%Z)
    by (apply round_half_even_lower; lra).
  assert (Hu : (Py.round_half_even (x * 10) <= hi)%Z)
    by (apply round_half_even_upper; lra).
  rewrite Zle_Qle in Hl, Hu. lra.
Qed.

(** ** Reliability and risk of a locomotive *)

Lemma calculate_reliability_bounds_tight (clk : Clock) (l : Locomotive) :
  10 <= calculate_reliability clk l <= 100.
Proof.
  unfold calculate_reliability. cbv zeta.
  destruct (last_maintenance l) as [d|];
    [destruct (90 <? days_since clk d)%Z|];
    destruct (String.eqb (current_status l) "repair");
    try destruct (String.eqb (current_status l) "maintenance");
    py_minmax; lra.
Qed.

(** X1. [calculate_reliability] lies in [10, 100] for every snapshot:
    the four deductions are capped at 30, 20, 15 and 25, so the lower
    clamp at 0 is never reached. *)
Theorem calculate_reliability_range (clk : Clock) (l : Locomotive) :
  10 <= calculate_reliability clk l <= 100.
Proof.
  unfold calculate_reliability. cbv zeta.
  destruct (last_maintenance l) as [d|];
    [destruct (90 <? days_since clk d)%Z|];
    destruct (String.eqb (current_status l) "repair");
    try destruct (String.eqb (current_status l) "maintenance");
    py_minmax; lra.
Qed.

(** X2. [calculate_risk_score] never exceeds 100, whatever the snapshot;
    it is at least 0 when age and operating hours are non-negative and the
    last-maintenance date is not after today. *)
Theorem calculate_risk_score_range (clk : Clock) (l : Locomotive) :
  calculate_risk_score clk l <= 100 /\
  ((0 <= age clk l)%Z -> (0 <= operating_hours l)%Z ->
   (forall d, last_maintenance l = Some d -> (d <= today clk)%Z) ->
   0 <= calculate_risk_score clk l).
Proof.
  split.
  - apply calculate_risk_score_upper.
  - intros Hage Hhours Hmaint. apply calculate_risk_score_lower; assumption.
Qed.

Lemma calculate_risk_score_range_witness :
  0 <= calculate_risk_score clock_november new_locomotive <= 100 /\
  calculate_risk_score clock_november prebooked_locomotive <= 100.
Proof.
  split; [split|].
  - apply (proj2 (calculate_risk_score_range clock_november new_locomotive)).
    + vm_compute. discriminate.
    + vm_compute. discriminate.
    + intros d [= <-]. vm_compute. discriminate.
  - apply (proj1 (calculate_risk_score_range clock_november new_locomotive)).
  - apply (proj1 (calculate_risk_score_range clock_november prebooked_locomotive)).
Defined.

(** As [py_minmax], also through the hypotheses. *)
Ltac py_minmax_all :=
  repeat match goal with
  | |- context [Py.min ?a ?b] =>
      let H := fresh "Hmin" in let E := fresh "Emin" in
      destruct (py_min_case a b) as [[H E] | [H E]]; rewrite ?E in *; clear E
  | |- context [Py.max ?a ?b] =>
      let H := fresh "Hmax" in let E := fresh "Emax" in
      destruct (py_max_case a b) as [[H E] | [H E]]; rewrite ?E in *; clear E
  | _ : context [Py.min ?a ?b] |- _ =>
      let H := fresh "Hmin" in let E := fresh "Emin" in
      destruct (py_min_case a b) as [[H E] | [H E]]; rewrite ?E in *; clear E
  | _ : context [Py.max ?a ?b] |- _ =>
      let H := fresh "Hmax" in let E := fresh "Emax" in
      destruct (py_max_case a b) as [[H E] | [H E]]; rewrite ?E in *; clear E
  end.

(** Read the attributes of a locomotive after assignments. *)
Ltac read_attributes :=
  cbn [set_manufacturing_year set_operating_hours set_last_maintenance
       set_current_status locomotive_id model manufacturing_year operating_hours
       last_maintenance current_status fleet] in *.

Lemma py_min_mono (a b b' : Q) : b <= b' -> Py.min a b <= Py.min a b'.
Proof. intros H. py_minmax; lra. Qed.

Lemma clamp_mono (lo hi x y : Q) :
  x <= y -> Py.max lo (Py.min hi x) <= Py.max lo (Py.min hi y).
Proof. intros H. py_minmax; lra. Qed.

(** X3. A missing maintenance record is the worst case: with every other
    attribute equal, the risk score without a record is at least the score
    with any date, and the reliability at most the reliability with any
    date. *)
Theorem no_record_is_worst_case (clk : Clock) (l : Locomotive) (d : Z) :
  calculate_risk_score clk (set_last_maintenance (Some d) l)
    <= calculate_risk_score clk (set_last_maintenance None l) /\
  calculate_reliability clk (set_last_maintenance None l)
    <= calculate_reliability clk (set_last_maintenance (Some d) l).
Proof.
  split.
  - unfold calculate_risk_score, age. read_attributes.
    pose proof (py_min_upper 20 (inject_Z (days_since clk d) * (2 # 10))).
    py_minmax; lra.
  - unfold calculate_reliability, age. read_attributes. cbv zeta.
    apply clamp_mono.
    pose proof (py_min_upper 15 (inject_Z (days_since clk d - 90) * (1 # 10))).
    destruct (90 <? days_since clk d)%Z;
      destruct (String.eqb (current_status l) "repair");
      try destruct (String.eqb (current_status l) "maintenance");
      lra.
Qed.

Lemma inject_Z_le (a b : Z) : (a <= b)%Z -> inject_Z a <= inject_Z b.
Proof. intros H. rewrite <- Zle_Qle. exact H. Qed.

(** X4. Wear only raises the risk: an earlier manufacturing year or more
    operating hours, all else equal, never lower [calculate_risk_score]
    and never raise [calculate_reliability]. *)
Theorem wear_is_monotone (clk : Clock) (l : Locomotive) (year hours : Z) :
  (year <= manufacturing_year l)%Z -> (operating_hours l <= hours)%Z ->
  let worn := set_operating_hours hours (set_manufacturing_year year l) in
  calculate_risk_score clk l <= calculate_risk_score clk worn /\
  calculate_reliability clk worn <= calculate_reliability clk l.
Proof.
  intros Hyear Hhours worn.
  assert (Ha : inject_Z (age clk l) <= inject_Z (age clk worn))
    by (apply inject_Z_le; unfold age, worn; read_attributes; lia).
  assert (Ha2 : inject_Z (age clk l * 2) <= inject_Z (age clk worn * 2))
    by (apply inject_Z_le; unfold age, worn; read_attributes; lia).
  assert (Hh : inject_Z (operating_hours l) <= inject_Z (operating_hours worn))
    by (apply inject_Z_le; unfold worn; read_attributes; lia).
  assert (Hm : last_maintenance worn = last_maintenance l) by reflexivity.
  assert (Hs : current_status worn = current_status l) by reflexivity.
  set (aw := inject_Z (age clk worn)) in *.
  set (aw2 := inject_Z (age clk worn * 2)) in *.
  set (hw := inject_Z (operating_hours worn)) in *.
  split.
  - unfold calculate_risk_score. rewrite Hm. fold aw2 hw.
    unfold Qdiv. change (/ 1000) with (1 # 1000).
    apply py_min_mono.
    pose proof (py_min_mono 50 _ _ Ha2).
    assert (Hu : inject_Z (operating_hours l) * (1 # 1000) * (6 # 10)
                 <= hw * (1 # 1000) * (6 # 10)) by lra.
    pose proof (py_min_mono 30 _ _ Hu).
    lra.
  - unfold calculate_reliability. rewrite Hm, Hs. cbv zeta. fold aw hw.
    unfold Qdiv. change (/ 10000) with (1 # 10000).
    apply clamp_mono.
    assert (Ha15 : inject_Z (age clk l) * (15 # 10) <= aw * (15 # 10)) by lra.
    pose proof (py_min_mono 30 _ _ Ha15).
    assert (Hu : inject_Z (operating_hours l) * (1 # 10000) * 2
                 <= hw * (1 # 10000) * 2) by lra.
    pose proof (py_min_mono 20 _ _ Hu).
    destruct (last_maintenance l) as [d|];
      [destruct (90 <? days_since clk d)%Z|];
      destruct (String.eqb (current_status l) "repair");
      try destruct (String.eqb (current_status l) "maintenance");
      lra.
Qed.

Lemma wear_is_monotone_witness :
  calculate_risk_score clock_november new_locomotive
    <= calculate_risk_score clock_november
         (set_operating_hours 60000 (set_manufacturing_year 1996 new_locomotive)).
Proof.
  refine (proj1 (wear_is_monotone clock_november new_locomotive 1996 60000 _ _));
    vm_compute; discriminate.
Defined.

(** ** Risk level against age *)

(** X5. No locomotive younger than ten years is rated "High": usage and
    maintenance contribute at most 30 + 20 points, so a score of 70 needs
    at least 20 points of age. *)
Theorem high_risk_needs_ten_years (clk : Clock) (l : Locomotive) :
  get_risk_level clk l = "High" -> (10 <= age clk l)%Z.
Proof.
  intros Hhigh.
  destruct (get_risk_level_cases clk l) as [[H _] | [[_ E] | [_ E]]];
    try (rewrite E in Hhigh; discriminate Hhigh).
  unfold calculate_risk_score in H.
  assert (Hage : 20 <= inject_Z (age clk l * 2)).
  { destruct (last_maintenance l); py_minmax_all; lra. }
  change 20 with (inject_Z 20) in Hage. rewrite <- Zle_Qle in Hage. lia.
Qed.

Lemma high_risk_needs_ten_years_witness : (10 <= age clock_november old_locomotive)%Z.
Proof.
  apply high_risk_needs_ten_years. vm_compute. reflexivity.
Defined.

(** X6. A never-serviced locomotive that is at least 25 years old and has
    at least 50000 operating hours scores exactly 100 and is rated
    "High". *)
Theorem worn_unserviced_is_high (clk : Clock) (l : Locomotive) :
  (25 <= age clk l)%Z -> (50000 <= operating_hours l)%Z ->
  last_maintenance l = None ->
  calculate_risk_score clk l == 100 /\ get_risk_level clk l = "High".
Proof.
  intros Hage Hhours Hnone.
  assert (Hscore : calculate_risk_score clk l == 100).
  { unfold calculate_risk_score. rewrite Hnone.
    assert (50 <= inject_Z (age clk l * 2))
      by (change 50 with (inject_Z 50); rewrite <- Zle_Qle; lia).
    assert (50000 <= inject_Z (operating_hours l))
      by (change 50000 with (inject_Z 50000); rewrite <- Zle_Qle; lia).
    unfold Qdiv. change (/ 1000) with (1 # 1000).
    py_minmax; lra. }
  split; [exact Hscore|].
  destruct (get_risk_level_cases clk l) as [[_ E] | [[H _] | [H _]]];
    [exact E | lra | lra].
Qed.

Lemma worn_unserviced_is_high_witness :
  get_risk_level clock_november aged_locomotive = "High".
Proof.
  refine (proj2 (worn_unserviced_is_high clock_november aged_locomotive _ _ eq_refl));
    vm_compute; discriminate.
Defined.

(** ** The maintenance recommendations of a locomotive *)

(** X7. [get_maintenance_recommendations] returns at most four items,
    and none exactly when the locomotive is at most 20 years old, has at
    most 50000 hours, was serviced within the last 90 days and scores at
    most 60. *)
Theorem maintenance_recommendations_empty (clk : Clock) (l : Locomotive) :
  (length (get_maintenance_recommendations clk l) <= 4)%nat /\
  (get_maintenance_recommendations clk l = [] <->
   (age clk l <= 20)%Z /\ (operating_hours l <= 50000)%Z /\
   (exists d, last_maintenance l = Some d /\ (days_since clk d <= 90)%Z) /\
   calculate_risk_score clk l <= 60).
Proof.
  unfold get_maintenance_recommendations. cbv zeta.
  destruct (Z.ltb_spec 20 (age clk l)) as [Ha | Ha];
    destruct (Z.ltb_spec 50000 (operating_hours l)) as [Hh | Hh];
    (destruct (last_maintenance l) as [d|];
       [destruct (Z.ltb_spec 90 (days_since clk d)) as [Hd | Hd]|]);
    destruct (Py.Qlt_bool 60 (calculate_risk_score clk l)) eqn:Hs;
    (apply Qlt_bool_true in Hs || apply Qlt_bool_false in Hs);
    cbn [app length]; (split; [lia|]).
  all: split;
    [ try discriminate
    | intros (Ha' & Hh' & (d' & Hd' & Hdays) & Hs');
      try lia; try lra; try discriminate Hd';
      try (injection Hd' as <-; lia) ].
  - intros _. repeat split; try lia; try lra. exists d. split; [reflexivity | lia].
  - reflexivity.
Qed.

(** X8. A locomotive rated "High" always gets the Comprehensive
    Inspection item, and a locomotive without a maintenance record always
    gets the Routine Maintenance item. *)
Theorem maintenance_recommendations_triggers (clk : Clock) (l : Locomotive) :
  (get_risk_level clk l = "High" ->
   In comprehensive_inspection_item (get_maintenance_recommendations clk l)) /\
  (last_maintenance l = None ->
   In routine_maintenance_item (get_maintenance_recommendations clk l)).
Proof.
  split.
  - intros Hhigh.
    assert (Hs : Py.Qlt_bool 60 (calculate_risk_score clk l) = true).
    { apply Qlt_bool_true.
      destruct (get_risk_level_cases clk l) as [[H _] | [[_ E] | [_ E]]];
        try (rewrite E in Hhigh; discriminate Hhigh).
      lra. }
    unfold get_maintenance_recommendations. cbv zeta. rewrite Hs.
    apply in_app_iff. right. left. reflexivity.
  - intros Hnone. unfold get_maintenance_recommendations. cbv zeta. rewrite Hnone.
    destruct (Py.Qlt_bool 60 (calculate_risk_score clk l));
      rewrite ?in_app_iff; cbn [In]; auto.
Qed.

Lemma maintenance_recommendations_triggers_witness :
  In comprehensive_inspection_item
    (get_maintenance_recommendations clock_november old_locomotive) /\
  In routine_maintenance_item
    (get_maintenance_recommendations clock_november old_locomotive).
Proof.
  destruct (maintenance_recommendations_triggers clock_november old_locomotive)
    as [Hhigh Hnone].
  split; [apply Hhigh; vm_compute; reflexivity | apply Hnone; reflexivity].
Defined.

(** ** Status display *)

Lemma status_map_lookup (s : string) :
  s <> "active" -> s <> "maintenance" -> s <> "repair" -> s <> "retired" ->
  status_map !! s = None /\ color_map !! s = None.
Proof.
  intros H1 H2 H3 H4. unfold status_map, color_map. cbn [list_to_map foldr curry fst snd].
  split; rewrite !lookup_insert_ne by congruence; apply lookup_empty.
Qed.

(** X9. [status_display] leaves a status it does not know unchanged and
    is idempotent; [status_color] always answers one of the four display
    classes, "secondary" for every status it does not know. *)
Theorem status_display_and_color (l : Locomotive) :
  let known := [ "active"; "maintenance"; "repair"; "retired" ] in
  (~ In (current_status l) known ->
   status_display l = current_status l /\ status_color l = "secondary") /\
  status_display (set_current_status (status_display l) l) = status_display l /\
  In (status_color l) [ "success"; "warning"; "danger"; "secondary" ].
Proof.
  cbv zeta. unfold status_display, status_color. read_attributes.
  destruct (String.eqb_spec (current_status l) "active") as [-> | H1];
    [split; [intros H; exfalso; apply H; cbn [In]; tauto|];
     split; [reflexivity | vm_compute; tauto]|].
  destruct (String.eqb_spec (current_status l) "maintenance") as [-> | H2];
    [split; [intros H; exfalso; apply H; cbn [In]; tauto|];
     split; [reflexivity | vm_compute; tauto]|].
  destruct (String.eqb_spec (current_status l) "repair") as [-> | H3];
    [split; [intros H; exfalso; apply H; cbn [In]; tauto|];
     split; [reflexivity | vm_compute; tauto]|].
  destruct (String.eqb_spec (current_status l) "retired") as [-> | H4];
    [split; [intros H; exfalso; apply H; cbn [In]; tauto|];
     split; [reflexivity | vm_compute; tauto]|].
  destruct (status_map_lookup (current_status l) H1 H2 H3 H4) as [Hs Hc].
  rewrite Hs, Hc. cbn [default]. rewrite Hs. cbn [default].
  split; [intros _; split; reflexivity|].
  split; [reflexivity|]. cbn [In]. tauto.
Qed.

Lemma status_display_and_color_witness :
  status_display (set_current_status "leased" new_locomotive) = "leased" /\
  status_color (set_current_status "leased" new_locomotive) = "secondary".
Proof.
  apply (proj1 (status_display_and_color (set_current_status "leased" new_locomotive))).
  cbn [In set_current_status current_status].
  intros [H | [H | [H | [H | []]]]]; discriminate H.
Defined.

Lemma maintenance_recommendations_empty_witness :
  get_maintenance_recommendations clock_november new_locomotive = [].
Proof.
  apply (proj2 (maintenance_recommendations_empty clock_november new_locomotive)).
  split; [vm_compute; discriminate|].
  split; [vm_compute; discriminate|].
  split; [exists 739923%Z; split; [reflexivity | vm_compute; discriminate]|].
  vm_compute. discriminate.
Defined.

(** ** Fleet statistics *)

Lemma count_by_status_nonneg (table : list Locomotive) (status : string) :
  (0 <= count_by_status table status <= Z.of_nat (length table))%Z.
Proof.
  unfold count_by_status. split; [lia|].
  apply Nat2Z.inj_le. induction table as [|l table IH]; cbn [List.filter length].
  - lia.
  - destruct (String.eqb (current_status l) status); cbn [length]; lia.
Qed.

Lemma count_by_status_disjoint (table : list Locomotive) :
  (count_by_status table "active" + count_by_status table "maintenance"
   + count_by_status table "repair" + count_by_status table "retired"
   <= Z.of_nat (length table))%Z.
Proof.
  unfold count_by_status.
  induction table as [|l table IH]; cbn [List.filter length].
  - lia.
  - destruct (String.eqb_spec (current_status l) "active") as [E1 | E1];
      destruct (String.eqb_spec (current_status l) "maintenance") as [E2 | E2];
      destruct (String.eqb_spec (current_status l) "repair") as [E3 | E3];
      destruct (String.eqb_spec (current_status l) "retired") as [E4 | E4];
      try (rewrite E1 in *; discriminate);
      try (rewrite E2 in *; discriminate);
      try (rewrite E3 in *; discriminate);
      cbn [length]; lia.
Qed.

(** X10. [get_fleet_statistics] never divides by zero: an empty table
    gives utilization 0, and in general the utilization lies in [0, 100];
    the four status counts add up to at most the total, rows with another
    status being counted in the total only. *)
Theorem fleet_statistics_sound (table : list Locomotive) :
  let stats := get_fleet_statistics table in
  exists total active maintenance repair retired utilization,
    stats !! "total" = Some total /\
    stats !! "active" = Some active /\
    stats !! "maintenance" = Some maintenance /\
    stats !! "repair" = Some repair /\
    stats !! "retired" = Some retired /\
    stats !! "utilization" = Some utilization /\
    total == inject_Z (Z.of_nat (length table)) /\
    active + maintenance + repair + retired <= total /\
    0 <= utilization <= 100 /\
    (table = [] -> utilization == 0).
Proof.
  cbv zeta. unfold get_fleet_statistics. cbv zeta.
  exists (inject_Z (Z.of_nat (length table))),
    (inject_Z (count_by_status table "active")),
    (inject_Z (count_by_status table "maintenance")),
    (inject_Z (count_by_status table "repair")),
    (inject_Z (count_by_status table "retired")),
    (if (0 <? Z.of_nat (length table))%Z
     then Py.round (inject_Z (count_by_status table "active")
                    / inject_Z (Z.of_nat (length table)) * 100) 1
     else inject_Z (Py.round_int 0 1)).
  do 6 (split; [reflexivity|]).
  split; [reflexivity|]. split; [|split].
  - rewrite <- !inject_Z_plus, <- Zle_Qle. apply count_by_status_disjoint.
  - destruct (Z.ltb_spec 0 (Z.of_nat (length table))) as [Hpos | Hzero].
    + pose proof (count_by_status_nonneg table "active") as [Hlo Hhi].
      rewrite Zle_Qle in Hlo, Hhi. rewrite Zlt_Qlt in Hpos.
      change (inject_Z 0) with 0 in *.
      set (a := inject_Z (count_by_status table "active")) in *.
      set (t := inject_Z (Z.of_nat (length table))) in *.
      assert (0 <= a / t) by (apply Qle_shift_div_l; lra).
      assert (a / t <= 1) by (apply Qle_shift_div_r; lra).
      assert (Hx : inject_Z 0 / 10 <= a / t * 100 <= inject_Z 1000 / 10).
      { change (inject_Z 0 / 10) with (0 # 10).
        change (inject_Z 1000 / 10) with (1000 # 10). lra. }
      apply round1_bounds in Hx.
      change (inject_Z 0 / 10) with (0 # 10) in Hx.
      change (inject_Z 1000 / 10) with (1000 # 10) in Hx. lra.
    + vm_compute. split; discriminate.
  - intros ->. reflexivity.
Qed.

Lemma fleet_statistics_sound_witness :
  exists utilization,
    get_fleet_statistics [] !! "utilization" = Some utilization /\ utilization == 0.
Proof.
  destruct (fleet_statistics_sound [])
    as (t & a & m & r & rt & u & _ & _ & _ & _ & _ & Hu & _ & _ & _ & Hzero).
  exists u. split; [exact Hu | apply Hzero; reflexivity].
Defined.

(** ** The recommendation list of the model path *)

Lemma cut_after_basic (b : string) (X Y : list string) :
  (2 <= length X <= 4)%nat ->
  take 6 (if (length (b :: X) =? 1)%nat then Y else b :: X) = b :: X.
Proof.
  intros H. destruct X as [|x X]; [cbn [length] in H; lia|].
  cbn [length Nat.eqb]. apply take_ge. cbn [length] in *. lia.
Qed.

(** X11. [_generate_recommendations] always starts with the basic
    risk-level statement and adds between one and four statements, so the
    final cut at six never removes anything. *)
Theorem generate_recommendations_shape (clk : Clock) (l : Locomotive) (risk_score : Q)
    (lvl cat pt : string) :
  exists rest,
    _generate_recommendations clk l risk_score lvl cat pt
    = basic_risk_assessment lvl :: rest /\
    (1 <= length rest <= 4)%nat.
Proof.
  unfold _generate_recommendations. cbv zeta.
  pose proof (availability_recommendations_length lvl (age clk l) (operating_hours l)).
  pose proof (distance_recommendations_length lvl (age clk l) (operating_hours l)).
  pose proof (daily_distance_recommendations_length lvl (age clk l) (operating_hours l)).
  pose proof (failure_recommendations_length lvl (age clk l) (operating_hours l)).
  pose proof (reliability_recommendations_length lvl cat (age clk l) (operating_hours l)).
  pose proof (fuel_efficiency_recommendations_length (now_month clk) lvl (age clk l)
                (operating_hours l)).
  repeat match goal with
         | |- context [String.eqb pt ?s] => destruct (String.eqb pt s)
         end.
  all: rewrite <- ?app_assoc; cbn [app].
  1-7: rewrite cut_after_basic
    by (repeat first [rewrite length_app | rewrite length_take_one by lia]; lia).
  1-7: eexists; split; [reflexivity|];
    repeat first [rewrite length_app | rewrite length_take_one by lia]; lia.
  eexists. split; [reflexivity|]. cbn [length]. lia.
Qed.

(** ** Risk score and level in the result *)

Lemma predict_performance_rescaled svc clk l pt period :
  predict_performance svc clk l pt period = _fallback_prediction clk l pt period \/
  exists ml_risk_score cat,
    predict_performance svc clk l pt period
    = ml_result clk l pt period (rescaled_risk_score clk l ml_risk_score) cat.
Proof.
  unfold predict_performance, predict_performance_body.
  destruct (models_loaded svc); cbn [negb]; [|left; reflexivity].
  destruct (_prepare_locomotive_features svc clk l) as [features|];
    [|left; reflexivity].
  unfold mbind, raises_bind.
  destruct (scaler svc features) as [e | scaled]; [left; reflexivity|].
  destruct (risk_model svc scaled) as [e | ml_risk_score]; [left; reflexivity|].
  destruct (reliability_model svc scaled) as [e | code]; [left; reflexivity|].
  destruct (reliability_encoder_inverse svc code) as [e | cat]; [left; reflexivity|].
  right. exists ml_risk_score, cat. reflexivity.
Qed.



(** ** The recommendation list of the fallback *)

Lemma risk_based_app lvl r :
  risk_based_recommendations lvl r = r ++ risk_based_recommendations lvl [].
Proof.
  unfold risk_based_recommendations.
  destruct (String.eqb lvl "High"), (String.eqb lvl "Medium"); reflexivity.
Qed.

Lemma age_based_app a r :
  age_based_recommendations a r = r ++ age_based_recommendations a [].
Proof.
  unfold age_based_recommendations.
  destruct (25 <? a)%Z, (20 <? a)%Z, (15 <? a)%Z;
    first [reflexivity | symmetry; apply app_nil_r].
Qed.

Lemma operating_hours_app h r :
  operating_hours_recommendations h r = r ++ operating_hours_recommendations h [].
Proof.
  unfold operating_hours_recommendations.
  destruct (60000 <? h)%Z, (50000 <? h)%Z;
    first [reflexivity | symmetry; apply app_nil_r].
Qed.

Lemma seasonal_usage_app m r :
  seasonal_usage_recommendations m r = r ++ seasonal_usage_recommendations m [].
Proof.
  unfold seasonal_usage_recommendations.
  destruct (winter_month m), (summer_month m);
    first [reflexivity | symmetry; apply app_nil_r].
Qed.

Lemma fuel_efficiency_app p r :
  fuel_efficiency_recommendations p r = r ++ fuel_efficiency_recommendations p [].
Proof.
  unfold fuel_efficiency_recommendations. cbv zeta.
  generalize (default 0 (p !! "fuel_efficiency")). intros f.
  destruct (Py.Qlt_bool f 60), (Py.Qlt_bool f 75); reflexivity.
Qed.

Lemma fleet_specific_app mdl r :
  fleet_specific_recommendations mdl r = r ++ fleet_specific_recommendations mdl [].
Proof.
  unfold fleet_specific_recommendations.
  destruct (String.eqb mdl "DE10"), (String.eqb mdl "DE11");
    first [reflexivity | symmetry; apply app_nil_r].
Qed.

(** The list of the fallback, block by block. *)
Lemma fallback_recommendations_parts clk l lvl predictions :
  fallback_recommendations clk l lvl predictions
  = risk_based_recommendations lvl []
    ++ age_based_recommendations (age clk l) []
    ++ operating_hours_recommendations (operating_hours l) []
    ++ seasonal_usage_recommendations (now_month clk) []
    ++ fuel_efficiency_recommendations predictions []
    ++ fleet_specific_recommendations (model l) [].
Proof.
  pose proof (fallback_recommendations_length clk l lvl predictions) as Hlen.
  unfold fallback_recommendations in *. cbv zeta in *.
  rewrite fleet_specific_app, fuel_efficiency_app, seasonal_usage_app,
    operating_hours_app, age_based_app in *.
  rewrite <- !app_assoc in *.
  set (parts := _ ++ _) in *. clearbody parts.
  destruct parts; [cbn in Hlen; lia | reflexivity].
Qed.

(** X13. The fallback always returns between 3 and 11 recommendations,
    so its branch for an empty list is never taken; the first two are the
    statements of the risk level. *)
Theorem fallback_recommendations_shape (clk : Clock) (l : Locomotive) (pt : string)
    (period : Z) :
  exists first second rest,
    _fallback_prediction clk l pt period !! "recommendations"
    = Some (VList (first :: second :: rest)) /\
    risk_based_recommendations (get_risk_level clk l) [] = [ first; second ] /\
    (1 <= length rest <= 9)%nat.
Proof.
  rewrite fallback_prediction_recommendations.
  pose proof (fallback_recommendations_length clk l (get_risk_level clk l)
                (fallback_predictions clk l pt period)) as Hlen.
  rewrite fallback_recommendations_parts in *.
  assert (Hrisk : exists a b, risk_based_recommendations (get_risk_level clk l) []
                              = [a; b]).
  { unfold risk_based_recommendations.
    destruct (String.eqb _ "High"); [|destruct (String.eqb _ "Medium")];
      cbn [app]; eexists _, _; reflexivity. }
  destruct Hrisk as (a & b & Hrisk). rewrite Hrisk in *.
  cbn [app length] in *.
  eexists a, b, _. split; [reflexivity|]. split; [reflexivity|]. lia.
Qed.

(** ** The fuel statement of the fallback when fuel efficiency is requested *)

Ltac refute_membership H :=
  unfold poor_fuel_efficiency, avoid_fuel_sensitive, moderate_fuel_efficiency,
    monitor_fuel_consumption, good_fuel_efficiency in H;
  cbn [In app] in H;
  repeat (destruct H as [H | H]; [discriminate H|]);
  destruct H.

Lemma fuel_statements_only_in_fuel_block (x : string) lvl a h m mdl :
  In x fuel_statements ->
  ~ In x (risk_based_recommendations lvl []) /\
  ~ In x (age_based_recommendations a []) /\
  ~ In x (operating_hours_recommendations h []) /\
  ~ In x (seasonal_usage_recommendations m []) /\
  ~ In x (fleet_specific_recommendations mdl []).
Proof.
  unfold fuel_statements. cbn [In].
  intros [<- | [<- | [<- | [<- | [<- | []]]]]].
  all: repeat split.
  all: intros H.
  all: unfold risk_based_recommendations, age_based_recommendations,
         operating_hours_recommendations, seasonal_usage_recommendations,
         fleet_specific_recommendations, major_overhaul_required in H.
  all: repeat match type of H with
              | context [if ?b then _ else _] => destruct b
              end.
  all: refute_membership H.
Qed.

Lemma fallback_fuel_efficiency_value clk l pt period :
  pt = "all" \/ pt = "fuel_efficiency" ->
  fallback_predictions clk l pt period !! "fuel_efficiency"
  = Some (inject_Z (Z.max 60 (90 - age clk l * 2))).
Proof.
  intros Hpt. unfold fallback_predictions. cbv zeta.
  apply lookup_cond_insert_eq, requested_cases, Hpt.
Qed.

(** X14. When fuel efficiency is among the requested metrics ("all" or
    "fuel_efficiency"), the fallback predicts at least 60, so its
    recommendations never contain the poor-fuel-efficiency statements;
    they contain the moderate statement exactly when the locomotive is
    more than 7 years old and the good statement otherwise. *)
Theorem fallback_fuel_statement_by_age (clk : Clock) (l : Locomotive) (pt : string)
    (period : Z) :
  pt = "all" \/ pt = "fuel_efficiency" ->
  exists recs,
    _fallback_prediction clk l pt period !! "recommendations" = Some (VList recs) /\
    ~ In poor_fuel_efficiency recs /\
    ~ In avoid_fuel_sensitive recs /\
    (In moderate_fuel_efficiency recs <-> (7 < age clk l)%Z) /\
    (In good_fuel_efficiency recs <-> (age clk l <= 7)%Z).
Proof.
  intros Hpt. eexists. split; [apply fallback_prediction_recommendations|].
  rewrite fallback_recommendations_parts.
  assert (Hother : forall x, In x fuel_statements ->
            (In x (risk_based_recommendations (get_risk_level clk l) []
                   ++ age_based_recommendations (age clk l) []
                   ++ operating_hours_recommendations (operating_hours l) []
                   ++ seasonal_usage_recommendations (now_month clk) []
                   ++ fuel_efficiency_recommendations
                        (fallback_predictions clk l pt period) []
                   ++ fleet_specific_recommendations (model l) [])
             <-> In x (fuel_efficiency_recommendations
                         (fallback_predictions clk l pt period) []))).
  { intros x Hx.
    destruct (fuel_statements_only_in_fuel_block x (get_risk_level clk l) (age clk l)
                (operating_hours l) (now_month clk) (model l) Hx)
      as (H1 & H2 & H3 & H4 & H5).
    rewrite !in_app_iff. tauto. }
  rewrite !Hother by (unfold fuel_statements; cbn [In]; tauto).
  unfold fuel_efficiency_recommendations.
  rewrite (fallback_fuel_efficiency_value clk l pt period Hpt). cbn [default].
  cbv zeta. unfold id.
  assert (H60 : Py.Qlt_bool (inject_Z (Z.max 60 (90 - age clk l * 2))) 60 = false).
  { apply Qlt_bool_false. change 60 with (inject_Z 60) at 1. rewrite <- Zle_Qle. lia. }
  rewrite H60.
  destruct (Py.Qlt_bool (inject_Z (Z.max 60 (90 - age clk l * 2))) 75) eqn:H75.
  - apply Qlt_bool_true in H75. change 75 with (inject_Z 75) in H75.
    rewrite <- Zlt_Qlt in H75.
    refine (conj _ (conj _ (conj (conj _ _) (conj _ _)))).
    + intros H. refute_membership H.
    + intros H. refute_membership H.
    + intros _. lia.
    + intros _. left. reflexivity.
    + intros H. refute_membership H.
    + intros H. exfalso. lia.
  - apply Qlt_bool_false in H75. change 75 with (inject_Z 75) in H75.
    rewrite <- Zle_Qle in H75.
    refine (conj _ (conj _ (conj (conj _ _) (conj _ _)))).
    + intros H. refute_membership H.
    + intros H. refute_membership H.
    + intros H. refute_membership H.
    + intros H. exfalso. lia.
    + intros _. lia.
    + intros _. left. reflexivity.
Qed.

Lemma fallback_fuel_statement_by_age_witness :
  exists recs,
    _fallback_prediction clock_november mid_life_locomotive "fuel_efficiency" 365
      !! "recommendations" = Some (VList recs) /\
    ~ In poor_fuel_efficiency recs /\
    In moderate_fuel_efficiency recs.
Proof.
  destruct (fallback_fuel_statement_by_age clock_november mid_life_locomotive
              "fuel_efficiency" 365 (or_intror eq_refl))
    as (recs & Hrecs & Hpoor & _ & Hmoderate & _).
  exists recs. split; [exact Hrecs|]. split; [exact Hpoor|].
  apply Hmoderate. vm_compute. reflexivity.
Defined.

(** ** Ranges of the formula predictions *)

Lemma py_int_nonneg (x : Q) : 0 <= x -> (0 <= Py.int x)%Z.
Proof.
  intros H. unfold Py.int. apply Z.quot_pos; [|lia].
  unfold Qle in H. cbn in H. lia.
Qed.

Lemma inject_Z_between (lo hi n : Z) :
  (lo <= n <= hi)%Z -> inject_Z lo <= inject_Z n <= inject_Z hi.
Proof. intros [H1 H2]. rewrite <- !Zle_Qle. lia. Qed.

Lemma lookup_cond_insert_here {V} (b : bool) (k : string) (v : V) (m : gmap string V) :
  m !! k = None ->
  (if b then <[k := v]> m else m) !! k = (if b then Some v else None).
Proof. intros H. destruct b; [apply lookup_insert_eq | exact H]. Qed.

(** Look a literal key up in a dictionary built by conditional
    insertions of literal keys. *)
Ltac lookup_key :=
  repeat first
    [ rewrite lookup_cond_insert_ne by discriminate
    | rewrite lookup_cond_insert_here
        by (rewrite ?lookup_cond_insert_ne by discriminate; apply lookup_empty) ].

(** A property of every entry of a dictionary built by conditional
    insertions: one goal per insertion. *)
Ltac forall_inserts P :=
  first [ apply (map_Forall_empty P)
        | apply (map_Forall_cond_insert P); [| forall_inserts P] ].

(** An integer between two integer literals read as rationals. *)
Ltac z_between :=
  match goal with
  | |- ?a <= inject_Z ?n <= ?b =>
      let za := eval cbv in (Qnum a) in
      let zb := eval cbv in (Qnum b) in
      split; [change a with (inject_Z za) | change b with (inject_Z zb)];
      rewrite <- Zle_Qle; lia
  end.

(** X15. For a locomotive of non-negative age and operating hours the
    formula predictions of the fallback (with a non-negative horizon) and
    of the bulk route stay in range: availability_days in [200, 365],
    reliability in [50, 95], fuel_efficiency in [60, 90], and
    total_failures and distance_travelled are not negative. *)
Theorem formula_predictions_in_range (clk : Clock) (l : Locomotive) (pt : string)
    (period : Z) :
  (0 <= age clk l)%Z -> (0 <= operating_hours l)%Z -> (0 <= period)%Z ->
  forall k v,
    fallback_predictions clk l pt period !! k = Some v \/
    bulk_predictions clk l pt !! k = Some v ->
    (k = "availability_days" -> 200 <= v <= 365) /\
    (k = "distance_travelled" -> 0 <= v) /\
    (k = "total_failures" -> 0 <= v) /\
    (k = "reliability" -> 50 <= v <= 95) /\
    (k = "fuel_efficiency" -> 60 <= v <= 90).
Proof.
  intros Hage Hhours Hperiod.
  set (P := fun (k : string) (v : Q) =>
    (k = "availability_days" -> 200 <= v <= 365) /\
    (k = "distance_travelled" -> 0 <= v) /\
    (k = "total_failures" -> 0 <= v) /\
    (k = "reliability" -> 50 <= v <= 95) /\
    (k = "fuel_efficiency" -> 60 <= v <= 90)).
  assert (Hdist : forall speed p,
            (0 <= speed)%Z -> (0 <= p)%Z ->
            0 <= inject_Z (Py.int (inject_Z (operating_hours l * speed)
                                   * (inject_Z p / 365)))).
  { intros speed p Hs Hp. apply inject_Z_nonneg, py_int_nonneg.
    apply Qmult_le_0_compat; [apply inject_Z_nonneg; lia|].
    apply Qle_shift_div_l; [reflexivity|].
    pose proof (inject_Z_nonneg p Hp). lra. }
  assert (Hfb : map_Forall P (fallback_predictions clk l pt period)).
  { unfold fallback_predictions. cbv zeta.
    forall_inserts P.
    all: unfold P; refine (conj _ (conj _ (conj _ (conj _ _))));
      intros E; try discriminate E.
    all: try z_between.
    - apply inject_Z_nonneg. lia.
    - apply Hdist; lia. }
  assert (Hbulk : map_Forall P (bulk_predictions clk l pt)).
  { unfold bulk_predictions. cbv zeta.
    forall_inserts P.
    all: unfold P; refine (conj _ (conj _ (conj _ (conj _ _))));
      intros E; try discriminate E.
    all: try z_between.
    - apply inject_Z_nonneg. lia.
    - apply Hdist; lia. }
  intros k v [H | H]; [exact (Hfb k v H) | exact (Hbulk k v H)].
Qed.

Lemma formula_predictions_in_range_witness :
  exists v,
    fallback_predictions clock_november old_locomotive "all" 365 !! "reliability"
      = Some v /\
    50 <= v <= 95.
Proof.
  assert (Hv : exists v, fallback_predictions clock_november old_locomotive "all" 365
                           !! "reliability" = Some v).
  { eexists. unfold fallback_predictions. cbv zeta. lookup_key. reflexivity. }
  destruct Hv as [v Hv]. exists v. split; [exact Hv|].
  refine (proj1 (proj2 (proj2 (proj2
            (formula_predictions_in_range clock_november old_locomotive "all" 365
               _ _ _ "reliability" v (or_introl Hv))))) eq_refl);
    vm_compute; discriminate.
Defined.

(** ** Loading the artifacts *)

(** X16. The bundle is all or nothing: the service built from a
    directory has [models_loaded] set exactly when all seven files load,
    and when any of them fails [predict_performance] answers every call
    with the fallback result. *)
Theorem load_models_all_or_nothing (dir : ModelsDir) :
  let all_load :=
    (exists a, risk_score_model_pkl dir = inr a) /\
    (exists a, reliability_model_pkl dir = inr a) /\
    (exists a, scaler_pkl dir = inr a) /\
    (exists a, fleet_encoder_pkl dir = inr a) /\
    (exists a, reliability_encoder_pkl dir = inr a) /\
    (exists a, age_encoder_pkl dir = inr a) /\
    (exists a, feature_columns_pkl dir = inr a) in
  (models_loaded (new_service dir) = true <-> all_load) /\
  (~ all_load ->
   forall clk l pt period,
     predict_performance (new_service dir) clk l pt period
     = _fallback_prediction clk l pt period).
Proof.
  cbv zeta.
  assert (Hiff : models_loaded (new_service dir) = true <->
    (exists a, risk_score_model_pkl dir = inr a) /\
    (exists a, reliability_model_pkl dir = inr a) /\
    (exists a, scaler_pkl dir = inr a) /\
    (exists a, fleet_encoder_pkl dir = inr a) /\
    (exists a, reliability_encoder_pkl dir = inr a) /\
    (exists a, age_encoder_pkl dir = inr a) /\
    (exists a, feature_columns_pkl dir = inr a)).
  { unfold new_service, _load_models.
    destruct (risk_score_model_pkl dir) as [e1 | a1];
      [cbn; split; [discriminate | intros ([a H] & _); discriminate H]|].
    destruct (reliability_model_pkl dir) as [e2 | a2];
      [cbn; split; [discriminate | intros (_ & [a H] & _); discriminate H]|].
    destruct (scaler_pkl dir) as [e3 | a3];
      [cbn; split; [discriminate | intros (_ & _ & [a H] & _); discriminate H]|].
    destruct (fleet_encoder_pkl dir) as [e4 | a4];
      [cbn; split; [discriminate | intros (_ & _ & _ & [a H] & _); discriminate H]|].
    destruct (reliability_encoder_pkl dir) as [e5 | a5];
      [cbn; split; [discriminate | intros (_ & _ & _ & _ & [a H] & _); discriminate H]|].
    destruct (age_encoder_pkl dir) as [e6 | a6];
      [cbn; split; [discriminate | intros (_ & _ & _ & _ & _ & [a H] & _); discriminate H]|].
    destruct (feature_columns_pkl dir) as [e7 | a7];
      [cbn; split; [discriminate | intros (_ & _ & _ & _ & _ & _ & [a H]); discriminate H]|].
    cbn. split; [intros _|reflexivity].
    repeat split; eexists; reflexivity. }
  split; [exact Hiff|].
  intros Hnot clk l pt period. unfold predict_performance.
  destruct (models_loaded (new_service dir)) eqn:E; [|reflexivity].
  exfalso. apply Hnot, Hiff. reflexivity.
Qed.

Lemma load_models_all_or_nothing_witness :
  predict_performance (new_service dir_without_scaler) clock_november old_locomotive
    "all" 365
  = _fallback_prediction clock_november old_locomotive "all" 365.
Proof.
  apply (proj2 (load_models_all_or_nothing dir_without_scaler)).
  intros (_ & _ & [a H] & _). discriminate H.
Defined.

(** ** Feature derivation for every snapshot *)

(** X17. For every snapshot the arithmetic of
    [_prepare_locomotive_features] returns: the [try] block is the three
    encoder calls followed by the construction of a frame with the 21
    feature names in their fixed order, so features are missing exactly
    when an encoder raises.  The derived reliability is at least 60, hence
    the label handed to the reliability encoder is never "Critical". *)
Theorem prepare_features_only_encoders_raise (svc : LocomotiveMLService) (clk : Clock)
    (l : Locomotive) :
  exists (reliability_category age_category : string) (frame : Q -> Q -> Q -> DataFrame),
    prepare_locomotive_features_body svc clk l
    = (fleet_encoded ← fleet_encoder svc (default "NRZ" (fleet l));
       reliability_encoded ← reliability_encoder svc reliability_category;
       age_encoded ← age_encoder svc age_category;
       mret (frame fleet_encoded reliability_encoded age_encoded)) /\
    In reliability_category [ "High"; "Medium"; "Low" ] /\
    In age_category [ "New"; "Young"; "Mature"; "Old" ] /\
    (forall fleet_encoded reliability_encoded age_encoded,
       map fst (frame fleet_encoded reliability_encoded age_encoded) = feature_names) /\
    (_prepare_locomotive_features svc clk l = None <->
     (exists e, fleet_encoder svc (default "NRZ" (fleet l)) = inl e) \/
     (exists e, reliability_encoder svc reliability_category = inl e) \/
     (exists e, age_encoder svc age_category = inl e)).
Proof.
  unfold _prepare_locomotive_features, prepare_locomotive_features_body. cbv zeta.
  assert (Havail : (0 <? Z.max 300 (365 - age clk l * 5))%Z = true)
    by (apply Z.ltb_lt; lia).
  rewrite Havail.
  divisions_return.
  match goal with
  | |- context [reliability_encoder svc ?rc] =>
      match goal with
      | |- context [age_encoder svc ?ac] => exists rc, ac
      end
  end.
  eexists (fun fleet_encoded reliability_encoded age_encoded => _).
  split; [|split; [|split; [|split]]].
  - destruct (fleet_encoder svc _) as [e | fleet_encoded];
      [rewrite !raises_bind_raise; reflexivity | rewrite !raises_bind_ret; cbv beta].
    destruct (reliability_encoder svc _) as [e | reliability_encoded];
      [rewrite !raises_bind_raise; reflexivity | rewrite !raises_bind_ret; cbv beta].
    destruct (age_encoder svc _) as [e | age_encoded];
      [rewrite !raises_bind_raise; reflexivity | rewrite !raises_bind_ret; cbv beta].
    divisions_return. reflexivity.
  - match goal with
    | |- context [Qle_bool 60 ?r] =>
        assert (H60 : Qle_bool 60 r = true) by (apply Qle_bool_iff, py_max_lower);
        rewrite H60; destruct (Qle_bool 90 r); [|destruct (Qle_bool 75 r)]
    end; cbn [In]; tauto.
  - destruct (age clk l <=? 5)%Z; [|destruct (age clk l <=? 10)%Z;
      [|destruct (age clk l <=? 20)%Z]]; cbn [In]; tauto.
  - intros fleet_encoded reliability_encoded age_encoded. reflexivity.
  - destruct (fleet_encoder svc _) as [e | fleet_encoded];
      [rewrite !raises_bind_raise; cbn [try_or_None]; split; eauto
      | rewrite !raises_bind_ret; cbv beta].
    destruct (reliability_encoder svc _) as [e | reliability_encoded];
      [rewrite !raises_bind_raise; cbn [try_or_None]; split; eauto
      | rewrite !raises_bind_ret; cbv beta].
    destruct (age_encoder svc _) as [e | age_encoded];
      [rewrite !raises_bind_raise; cbn [try_or_None]; split; eauto
      | rewrite !raises_bind_ret; cbv beta].
    divisions_return. cbn [try_or_None mret raises_ret]. split; [discriminate|].
    intros [[e H] | [[e H] | [e H]]]; discriminate H.
Qed.

Lemma prepare_features_only_encoders_raise_witness :
  _prepare_locomotive_features unseen_fleet_service clock_november old_locomotive = None.
Proof.
  destruct (prepare_features_only_encoders_raise unseen_fleet_service clock_november
              old_locomotive) as (rc & ac & frame & _ & _ & _ & _ & Hnone).
  apply Hnone. left. eexists. reflexivity.
Defined.

(** ** The bulk route *)

Lemma bulk_availability_length lvl a h :
  (2 <= length (BulkRoute._get_availability_recommendations lvl a h) <= 3)%nat.
Proof.
  unfold BulkRoute._get_availability_recommendations.
  destruct (String.eqb lvl "High"), (String.eqb lvl "Medium"), (20 <? a)%Z;
    cbn [length app]; lia.
Qed.

Lemma bulk_distance_length lvl a h :
  (2 <= length (BulkRoute._get_distance_recommendations lvl a h) <= 3)%nat.
Proof.
  unfold BulkRoute._get_distance_recommendations.
  destruct (String.eqb lvl "High"), (String.eqb lvl "Medium"), (50000 <? h)%Z;
    cbn [length app]; lia.
Qed.

Lemma bulk_daily_distance_length lvl a h :
  (2 <= length (BulkRoute._get_daily_distance_recommendations lvl a h) <= 3)%nat.
Proof.
  unfold BulkRoute._get_daily_distance_recommendations.
  destruct (String.eqb lvl "High"), (String.eqb lvl "Medium"), (20 <? a)%Z;
    cbn [length app]; lia.
Qed.

Lemma bulk_failure_length lvl a h :
  (2 <= length (BulkRoute._get_failure_recommendations lvl a h) <= 4)%nat.
Proof.
  unfold BulkRoute._get_failure_recommendations.
  destruct (String.eqb lvl "High"), (String.eqb lvl "Medium"), (20 <? a)%Z,
    (50000 <? h)%Z; cbn [length app]; lia.
Qed.

Lemma bulk_reliability_length lvl a h :
  (2 <= length (BulkRoute._get_reliability_recommendations lvl a h) <= 3)%nat.
Proof.
  unfold BulkRoute._get_reliability_recommendations.
  destruct (String.eqb lvl "High"), (String.eqb lvl "Medium"), (20 <? a)%Z;
    cbn [length app]; lia.
Qed.

Lemma bulk_fuel_efficiency_length m lvl a h :
  (2 <= length (BulkRoute._get_fuel_efficiency_recommendations m lvl a h) <= 3)%nat.
Proof.
  unfold BulkRoute._get_fuel_efficiency_recommendations.
  destruct ((20 <? a) && (50000 <? h))%Z, ((15 <? a) || (40000 <? h))%Z,
    (winter_month m), (summer_month m); cbn [length app]; lia.
Qed.

Lemma keep_after_basic (b : string) (X Y : list string) :
  (2 <= length X)%nat ->
  (if (length (b :: X) =? 1)%nat then Y else b :: X) = b :: X.
Proof.
  intros H. destruct X as [|x X]; [cbn [length] in H; lia | reflexivity].
Qed.

(** X18. The recommendation list of the bulk route has no cut and needs
    none: it always starts with the basic risk-level statement and adds
    between one and four statements. *)
Theorem bulk_recommendations_shape (clk : Clock) (l : Locomotive) (lvl pt : string) :
  exists rest,
    BulkRoute.recommendations clk l lvl pt = BulkRoute.basic_risk_assessment lvl :: rest /\
    (1 <= length rest <= 4)%nat.
Proof.
  unfold BulkRoute.recommendations. cbv zeta.
  pose proof (bulk_availability_length lvl (age clk l) (operating_hours l)).
  pose proof (bulk_distance_length lvl (age clk l) (operating_hours l)).
  pose proof (bulk_daily_distance_length lvl (age clk l) (operating_hours l)).
  pose proof (bulk_failure_length lvl (age clk l) (operating_hours l)).
  pose proof (bulk_reliability_length lvl (age clk l) (operating_hours l)).
  pose proof (bulk_fuel_efficiency_length (now_month clk) lvl (age clk l)
                (operating_hours l)).
  repeat match goal with
         | |- context [String.eqb pt ?s] => destruct (String.eqb pt s)
         end.
  all: rewrite <- ?app_assoc; cbn [app].
  1-7: rewrite keep_after_basic
    by (repeat first [rewrite length_app | rewrite length_take_one by lia]; lia).
  1-7: eexists; split; [reflexivity|];
    repeat first [rewrite length_app | rewrite length_take_one by lia]; lia.
  eexists. split; [reflexivity|]. cbn [length]. lia.
Qed.

Lemma qlt_bool_cases (a b : Q) :
  (a < b /\ Py.Qlt_bool a b = true) \/ (b <= a /\ Py.Qlt_bool a b = false).
Proof.
  destruct (Py.Qlt_bool a b) eqn:E.
  - left. split; [apply Qlt_bool_true, E | reflexivity].
  - right. split; [apply Qlt_bool_false, E | reflexivity].
Qed.

(** X19. The result dictionary of the bulk route has the keys of the
    service result except [prediction_type] and [timestamp], names its
    method "Simplified Bulk Model", and fills [predictions] with exactly
    the requested metrics.  Its reliability category is bound to the risk
    level: a "High" risk level always comes with category "Low", and
    category "High" only with risk level "Low". *)
Theorem bulk_prediction_result_shape (clk : Clock) (l : Locomotive) (pt : string) :
  let result := BulkRoute.prediction_result clk l pt in
  dom result = result_schema ∖ {[ "prediction_type"; "timestamp" ]} /\
  result !! "prediction_method" = Some (VStr "Simplified Bulk Model") /\
  (exists predictions,
     result !! "predictions" = Some (VDict predictions) /\
     dom predictions = requested_keys pt) /\
  exists level category,
    result !! "risk_level" = Some (VStr level) /\
    result !! "reliability_category" = Some (VStr category) /\
    (level = "High" -> category = "Low") /\
    (category = "High" -> level = "Low").
Proof.
  cbv zeta. split; [|split; [|split]].
  - unfold BulkRoute.prediction_result. cbv zeta. rewrite dom_list_to_map_L.
    unfold result_schema. cbn [fmap list_fmap fst list_to_set]. set_solver.
  - reflexivity.
  - eexists. split; [reflexivity|]. apply bulk_predictions_dom.
  - exists (get_risk_level clk l),
      (BulkRoute.reliability_category (calculate_risk_score clk l)).
    split; [reflexivity|]. split; [reflexivity|].
    unfold BulkRoute.reliability_category.
    destruct (get_risk_level_cases clk l) as [[Hs E] | [[Hs E] | [Hs E]]];
      rewrite E;
      repeat match goal with
             | |- context [Py.Qlt_bool ?a ?b] =>
                 destruct (qlt_bool_cases a b) as [[? ->] | [? ->]]
             end;
      try lra; split; intros Habs; try discriminate Habs; reflexivity.
Qed.

Lemma bulk_prediction_result_shape_witness :
  BulkRoute.prediction_result clock_november old_locomotive "reliability"
    !! "reliability_category" = Some (VStr "Low").
Proof.
  destruct (bulk_prediction_result_shape clock_november old_locomotive "reliability")
    as (_ & _ & _ & level & category & Hlevel & Hcategory & Hhigh & _).
  rewrite Hcategory. f_equal. f_equal. apply Hhigh.
  assert (E : Some (VStr level) = Some (VStr "High")).
  { rewrite <- Hlevel. vm_compute. reflexivity. }
  injection E as ->. reflexivity.
Defined.

Section BulkDatabase.

Variable Session : Type.
Variable query_first : string -> Session -> raises (option Locomotive) * Session.
Variable add_and_flush : BulkRoute.NewPrediction -> Session -> raises Z * Session.
Variable commit : Session -> raises unit * Session.
Variable rollback : Session -> Session.

(** Whatever the database does, one pass of the loop adds one entry to
    [results] or one to [errors], and an entry of [results] carries the
    prediction result of its own locomotive. *)
Lemma predict_each_shape clk pt numbers :
  forall session results errors,
    let '(results', errors', _) :=
      BulkRoute.predict_each Session query_first add_and_flush clk pt numbers session
        results errors in
    (length results' + length errors'
     = length results + length errors + length numbers)%nat /\
    (Forall (fun r => BulkRoute.result_prediction r
                      = BulkRoute.prediction_result clk (BulkRoute.result_locomotive r) pt)
       results ->
     Forall (fun r => BulkRoute.result_prediction r
                      = BulkRoute.prediction_result clk (BulkRoute.result_locomotive r) pt)
       results').
Proof.
  induction numbers as [|n numbers IH]; intros session results errors;
    cbn [BulkRoute.predict_each].
  - cbn [length]. split; [lia | auto].
  - destruct (query_first n session) as [[e | [l|]] session'].
    + specialize (IH session' results (errors ++ [BulkRoute.error_processing n e])).
      destruct (BulkRoute.predict_each _ _ _ _ _ _ _ _ _) as [[rs es] s].
      destruct IH as [Hlen Hall]. rewrite length_app in Hlen. cbn [length] in *.
      split; [lia | exact Hall].
    + cbv zeta.
      destruct (add_and_flush _ session') as [[e | prediction_id] session''].
      * specialize (IH session'' results (errors ++ [BulkRoute.error_processing n e])).
        destruct (BulkRoute.predict_each _ _ _ _ _ _ _ _ _) as [[rs es] s].
        destruct IH as [Hlen Hall]. rewrite length_app in Hlen. cbn [length] in *.
        split; [lia | exact Hall].
      * match goal with
        | |- context [BulkRoute.predict_each _ _ _ _ _ _ _ (results ++ [?r]) _] =>
            specialize (IH session'' (results ++ [r]) errors)
        end.
        destruct (BulkRoute.predict_each _ _ _ _ _ _ _ _ _) as [[rs es] s].
        destruct IH as [Hlen Hall]. rewrite length_app in Hlen. cbn [length] in *.
        split; [lia|]. intros Hres. apply Hall.
        apply Forall_app. split; [exact Hres|]. constructor; [reflexivity | constructor].
    + match goal with
      | |- context [BulkRoute.predict_each _ _ _ _ _ _ _ _ (errors ++ [?m])] =>
          specialize (IH session' results (errors ++ [m]))
      end.
      destruct (BulkRoute.predict_each _ _ _ _ _ _ _ _ _) as [[rs es] s].
      destruct IH as [Hlen Hall]. rewrite length_app in Hlen. cbn [length] in *.
      split; [lia | exact Hall].
Qed.

(** When the queries answer from one table and the flush never raises,
    the results are the locomotives found, in the order of the request,
    and the only errors are the numbers that are not found. *)
Lemma predict_each_working clk pt table numbers :
  (forall n s, fst (query_first n s) = inr (BulkRoute.first_by_locomotive_id table n)) ->
  (forall p s, exists prediction_id, fst (add_and_flush p s) = inr prediction_id) ->
  forall session results errors,
    let '(results', errors', _) :=
      BulkRoute.predict_each Session query_first add_and_flush clk pt numbers session
        results errors in
    map BulkRoute.result_locomotive results'
    = map BulkRoute.result_locomotive results
      ++ omap (BulkRoute.first_by_locomotive_id table) numbers /\
    (errors' = [] <->
     errors = [] /\
     Forall (fun n => BulkRoute.first_by_locomotive_id table n <> None) numbers).
Proof.
  intros Hquery Hflush.
  induction numbers as [|n numbers IH]; intros session results errors;
    cbn [BulkRoute.predict_each omap list_omap].
  - rewrite app_nil_r. split; [reflexivity|]. split; [auto | tauto].
  - pose proof (Hquery n session) as Hq.
    destruct (query_first n session) as [found session']. cbn [fst] in Hq. subst found.
    destruct (BulkRoute.first_by_locomotive_id table n) as [l|] eqn:Efound.
    + cbv zeta.
      match goal with
      | |- context [add_and_flush ?p session'] =>
          destruct (Hflush p session') as [prediction_id Hf];
          destruct (add_and_flush p session') as [flushed session'']
      end.
      cbn [fst] in Hf. subst flushed.
      match goal with
      | |- context [BulkRoute.predict_each _ _ _ _ _ _ _ (results ++ [?r]) _] =>
          specialize (IH session'' (results ++ [r]) errors)
      end.
      destruct (BulkRoute.predict_each _ _ _ _ _ _ _ _ _) as [[rs es] s].
      destruct IH as [Hmap Herr].
      rewrite map_app in Hmap. cbn [map BulkRoute.result_locomotive] in Hmap.
      rewrite <- app_assoc in Hmap. split; [exact Hmap|].
      rewrite Herr. split.
      * intros [He Hall]. split; [exact He|]. constructor; [congruence | exact Hall].
      * intros [He Hall]. split; [exact He|]. inversion Hall. assumption.
    + match goal with
      | |- context [BulkRoute.predict_each _ _ _ _ _ _ _ _ (errors ++ [?m])] =>
          specialize (IH session' results (errors ++ [m]))
      end.
      destruct (BulkRoute.predict_each _ _ _ _ _ _ _ _ _) as [[rs es] s].
      destruct IH as [Hmap Herr]. split; [exact Hmap|].
      rewrite Herr. split.
      * intros [He _]. apply app_eq_nil in He. destruct He as [_ He]. discriminate.
      * intros [_ Hall]. inversion Hall. congruence.
Qed.

(** X20. The bulk route refuses a request exactly when no prediction type
    is given, no locomotive number is given, or more than 20 are given.
    Otherwise, whatever the database does, the route either reports that
    the commit failed, and then the commit raised, or shows results and
    errors in which every number has exactly one entry, a result carrying
    the prediction result of its own locomotive.  When the queries answer
    from one table and neither flush nor commit raises, the results are
    shown: they are the locomotives found, in the order of the request,
    and the error list is empty exactly when every number is found. *)
Theorem bulk_predict_partial_success (clk : Clock) (numbers : list string)
    (pt : string) (session : Session) :
  let outcome :=
    fst (BulkRoute.bulk_predict Session query_first add_and_flush commit rollback
           clk numbers pt session) in
  (outcome = BulkRoute.Refused <->
   pt = "" \/ numbers = [] \/ (20 < length numbers)%nat) /\
  (forall message, outcome = BulkRoute.NotSaved message ->
     exists s e, fst (commit s) = inl e
                 /\ message = ("Error saving predictions: "
                               ++ BulkRoute.str_exception e)%string) /\
  (forall results errors,
     outcome = BulkRoute.Shown results errors ->
     (length results + length errors = length numbers)%nat /\
     Forall (fun r => BulkRoute.result_prediction r
                      = BulkRoute.prediction_result clk (BulkRoute.result_locomotive r) pt)
       results) /\
  (forall table,
     (forall n s, fst (query_first n s)
                  = inr (BulkRoute.first_by_locomotive_id table n)) ->
     (forall p s, exists prediction_id, fst (add_and_flush p s) = inr prediction_id) ->
     (forall s, fst (commit s) = inr tt) ->
     pt <> "" -> numbers <> [] -> (length numbers <= 20)%nat ->
     exists results errors,
       outcome = BulkRoute.Shown results errors /\
       map BulkRoute.result_locomotive results
       = omap (BulkRoute.first_by_locomotive_id table) numbers /\
       (errors = [] <->
        Forall (fun n => BulkRoute.first_by_locomotive_id table n <> None) numbers)).
Proof.
  cbv zeta. unfold BulkRoute.bulk_predict.
  destruct (String.eqb_spec pt "") as [-> | Hpt].
  { cbn [fst]. refine (conj _ (conj _ (conj _ _))).
    - tauto.
    - discriminate.
    - discriminate.
    - intros table _ _ _ H. contradiction. }
  destruct numbers as [|n rest].
  { cbn [fst]. refine (conj _ (conj _ (conj _ _))).
    - tauto.
    - discriminate.
    - discriminate.
    - intros table _ _ _ _ H. contradiction. }
  remember (n :: rest) as numbers eqn:Hnumbers.
  destruct (Nat.ltb_spec 20 (length numbers)) as [Hlen | Hlen].
  { cbn [fst]. refine (conj _ (conj _ (conj _ _))).
    - tauto.
    - discriminate.
    - discriminate.
    - intros table _ _ _ _ _ H. lia. }
  pose proof (predict_each_shape clk pt numbers session [] []) as Hshape.
  pose proof (fun table Hq Hf =>
                predict_each_working clk pt table numbers Hq Hf session [] []) as Hwork.
  destruct (BulkRoute.predict_each _ _ _ _ _ _ _ _ _) as [[results errors] session'].
  destruct Hshape as [Hcount Hall]. cbn [length] in Hcount.
  destruct (commit session') as [committed session''] eqn:Ecommit.
  destruct committed as [e | done]; cbn [fst].
  - refine (conj _ (conj _ (conj _ _))).
    + split; [discriminate|]. intros [H | [H | H]]; [contradiction | subst; discriminate | lia].
    + intros message [= <-]. exists session', e. rewrite Ecommit. split; reflexivity.
    + discriminate.
    + intros table _ _ Hcommit _ _ _. specialize (Hcommit session').
      rewrite Ecommit in Hcommit. discriminate.
  - refine (conj _ (conj _ (conj _ _))).
    + split; [discriminate|]. intros [H | [H | H]]; [contradiction | subst; discriminate | lia].
    + discriminate.
    + intros results' errors' [= <- <-]. split; [lia|]. apply Hall. constructor.
    + intros table Hq Hf _ _ _ _. exists results, errors.
      destruct (Hwork table Hq Hf) as [Hmap Herr]. cbn [map app] in Hmap.
      split; [reflexivity|]. split; [exact Hmap|]. rewrite Herr. tauto.
Qed.

End BulkDatabase.

Lemma bulk_predict_partial_success_witness :
  exists results errors,
    fst (BulkRoute.bulk_predict (list BulkRoute.NewPrediction)
           (BulkRoute.working_query sample_fleet) BulkRoute.working_flush
           BulkRoute.working_commit (fun _ => [])
           clock_november [ "DE10-001"; "DE99-404" ] "reliability" [])
    = BulkRoute.Shown results errors /\
    map BulkRoute.result_locomotive results
    = omap (BulkRoute.first_by_locomotive_id sample_fleet) [ "DE10-001"; "DE99-404" ] /\
    (errors = [] <->
     Forall (fun n => BulkRoute.first_by_locomotive_id sample_fleet n <> None)
       [ "DE10-001"; "DE99-404" ]).
Proof.
  apply (proj2 (proj2 (proj2
           (bulk_predict_partial_success (list BulkRoute.NewPrediction)
              (BulkRoute.working_query sample_fleet) BulkRoute.working_flush
              BulkRoute.working_commit (fun _ => [])
              clock_november [ "DE10-001"; "DE99-404" ] "reliability" [])))
         sample_fleet).
  - intros n s. reflexivity.
  - intros p s. eexists. reflexivity.
  - intros s. reflexivity.
  - discriminate.
  - discriminate.
  - cbn [length]. lia.
Defined.

(** The handler of the loop at work: a flush that raises turns the
    locomotive into an error entry, and the loop goes on. *)
Lemma bulk_predict_flush_failure :
  fst (BulkRoute.bulk_predict (list BulkRoute.NewPrediction)
         (BulkRoute.working_query sample_fleet) (BulkRoute.failing_flush "DE11")
         BulkRoute.working_commit (fun _ => [])
         clock_november [ "DE10-001"; "DE99-404" ] "reliability" [])
  = BulkRoute.Shown []
      [ "Error processing DE10-001: database is locked";
        "Locomotive DE99-404 not found in database" ].
Proof. lazy. reflexivity. Qed.

(** X21. The bulk route and the fallback share three formulas: for every
    prediction type they store the same value, or both none, under
    total_failures, reliability and fuel_efficiency. *)
Theorem bulk_and_fallback_agree (clk : Clock) (l : Locomotive) (pt : string) (period : Z)
    (k : string) :
  In k [ "total_failures"; "reliability"; "fuel_efficiency" ] ->
  bulk_predictions clk l pt !! k = fallback_predictions clk l pt period !! k.
Proof.
  cbn [In]. intros [<- | [<- | [<- | []]]];
    unfold bulk_predictions, fallback_predictions; cbv zeta;
    lookup_key; reflexivity.
Qed.

Lemma bulk_and_fallback_agree_witness :
  bulk_predictions clock_november old_locomotive "all" !! "reliability"
  = fallback_predictions clock_november old_locomotive "all" 30 !! "reliability".
Proof.
  apply bulk_and_fallback_agree. cbn [In]. tauto.
Defined.

(** ** The dashboard *)


Lemma py_sum_bounds (xs : list Q) (lo hi : Q) :
  Forall (fun x => lo <= x <= hi) xs ->
  lo * inject_Z (Z.of_nat (length xs)) <= py_sum xs
    <= hi * inject_Z (Z.of_nat (length xs)).
Proof.
  unfold py_sum. intros Hall.
  assert (Hgen : forall acc,
            acc + lo * inject_Z (Z.of_nat (length xs)) <= fold_left Qplus xs acc
              <= acc + hi * inject_Z (Z.of_nat (length xs))).
  { induction Hall as [|x xs Hx Hall IH]; intros acc.
    - cbn [fold_left length]. change (inject_Z (Z.of_nat 0)) with 0. lra.
    - cbn [fold_left length]. rewrite Nat2Z.inj_succ. unfold Z.succ.
      rewrite inject_Z_plus. change (inject_Z 1) with 1.
      specialize (IH (acc + x)).
      set (n := inject_Z (Z.of_nat (length xs))) in *. clearbody n.
      destruct IH as [IH1 IH2]. destruct Hx as [Hx1 Hx2]. split.
      + eapply Qle_trans; [|exact IH1]. lra.
      + eapply Qle_trans; [exact IH2|]. lra. }
  specialize (Hgen 0). lra.
Qed.

(** X23. [dashboard_metrics] never divides by zero: the average
    reliability is 0 for an empty fleet and lies in [10, 100] otherwise;
    the number of high-risk locomotives is between 0 and the size of the
    fleet. *)
Theorem dashboard_metrics_sound (clk : Clock) (locomotives : list Locomotive)
    (predictions : list PredictionRow) :
  let metrics := dashboard_metrics clk locomotives predictions in
  exists total_fleet avg_reliability high_risk_count,
    metrics !! "total_fleet" = Some total_fleet /\
    metrics !! "avg_reliability" = Some avg_reliability /\
    metrics !! "high_risk_count" = Some high_risk_count /\
    total_fleet == inject_Z (Z.of_nat (length locomotives)) /\
    0 <= high_risk_count <= total_fleet /\
    (locomotives = [] -> avg_reliability == 0) /\
    (locomotives <> [] -> 10 <= avg_reliability <= 100).
Proof.
  cbv zeta. unfold dashboard_metrics. cbv zeta.
  eexists _, _, _.
  split; [reflexivity|]. split; [reflexivity|]. split; [reflexivity|].
  split; [reflexivity|]. split; [|split].
  - unfold count_where. split; [apply inject_Z_nonneg; lia|].
    apply inject_Z_le, Nat2Z.inj_le.
    induction locomotives as [|loco rest IH]; cbn [List.filter length]; [lia|].
    destruct (String.eqb _ "High"); cbn [length]; lia.
  - intros ->. reflexivity.
  - intros Hne. destruct locomotives as [|loco rest]; [contradiction|].
    remember (loco :: rest) as fleet eqn:Hfleet.
    pose proof (py_sum_bounds (map (calculate_reliability clk) fleet) 10 100) as Hsum.
    rewrite length_map in Hsum.
    assert (Hall : Forall (fun x => 10 <= x <= 100) (map (calculate_reliability clk) fleet)).
    { clear. induction fleet as [|l fleet IH]; cbn [map]; constructor;
        [apply calculate_reliability_bounds_tight | exact IH]. }
    specialize (Hsum Hall).
    assert (Hn : 0 < inject_Z (Z.of_nat (length fleet))).
    { change 0 with (inject_Z 0). rewrite <- Zlt_Qlt. rewrite Hfleet. cbn [length]. lia. }
    set (n := inject_Z (Z.of_nat (length fleet))) in *.
    set (total := py_sum (map (calculate_reliability clk) fleet)) in *.
    clearbody n total. cbn [snd].
    assert (Hlo : 10 <= total / n) by (apply Qle_shift_div_l; lra).
    assert (Hhi : total / n <= 100) by (apply Qle_shift_div_r; lra).
    assert (Hx : inject_Z 100 / 10 <= total / n <= inject_Z 1000 / 10).
    { change (inject_Z 100 / 10) with (100 # 10).
      change (inject_Z 1000 / 10) with (1000 # 10). lra. }
    apply round1_bounds in Hx.
    change (inject_Z 100 / 10) with (100 # 10) in Hx.
    change (inject_Z 1000 / 10) with (1000 # 10) in Hx. lra.
Qed.

Lemma dashboard_metrics_sound_witness :
  exists avg_reliability,
    dashboard_metrics clock_november sample_fleet [] !! "avg_reliability"
      = Some avg_reliability /\
    10 <= avg_reliability <= 100.
Proof.
  destruct (dashboard_metrics_sound clock_november sample_fleet [])
    as (t & a & h & _ & Ha & _ & _ & _ & _ & Hrange).
  exists a. split; [exact Ha|]. apply Hrange. discriminate.
Defined.

(** ** Reports built on [predict_performance] *)

Lemma risk_level_of_cases (score : Q) :
  risk_level_of score = "High" \/ risk_level_of score = "Medium"
  \/ risk_level_of score = "Low".
Proof.
  unfold risk_level_of. destruct (Qle_bool 70 score); [|destruct (Qle_bool 40 score)]; auto.
Qed.

Lemma result_risk_level_cases svc clk l pt period :
  exists level,
    predict_performance svc clk l pt period !! "risk_level" = Some (VStr level) /\
    (level = "High" \/ level = "Medium" \/ level = "Low").
Proof.
  destruct (predict_performance_rescaled svc clk l pt period) as [-> | (ml & cat & ->)].
  - exists (get_risk_level clk l). split; [reflexivity|]. apply risk_level_of_cases.
  - exists (risk_level_of (rescaled_risk_score clk l ml)). split; [reflexivity|].
    apply risk_level_of_cases.
Qed.

Lemma count_risk_levels_spec svc clk locomotives :
  forall (d : gmap string Z) (h m lo : Z),
    d !! "High" = Some h -> d !! "Medium" = Some m -> d !! "Low" = Some lo ->
    exists d' h' m' lo',
      count_risk_levels svc clk locomotives d = inr d' /\
      d' !! "High" = Some h' /\ d' !! "Medium" = Some m' /\ d' !! "Low" = Some lo' /\
      dom d' = dom d /\
      (h <= h')%Z /\ (m <= m')%Z /\ (lo <= lo')%Z /\
      (h' + m' + lo' = h + m + lo + Z.of_nat (length locomotives))%Z.
Proof.
  induction locomotives as [|loco rest IH]; intros d h m lo Hh Hm Hlo.
  - exists d, h, m, lo. cbn [count_risk_levels length].
    repeat split; try assumption; try lia.
  - cbn [count_risk_levels]. cbv zeta.
    destruct (result_risk_level_cases svc clk loco "all" 365) as (level & -> & Hlevel).
    cbn [default from_option]. unfold id, increment.
    destruct Hlevel as [-> | [-> | ->]].
    + rewrite Hh. unfold mret, raises_ret; rewrite raises_bind_ret; cbv beta.
      destruct (IH (<["High" := (h + 1)%Z]> d) (h + 1)%Z m lo) as
        (d' & h' & m' & lo' & Hrun & H1 & H2 & H3 & Hdom & Hle1 & Hle2 & Hle3 & Hsum).
      { apply lookup_insert_eq. }
      { rewrite lookup_insert_ne by discriminate. exact Hm. }
      { rewrite lookup_insert_ne by discriminate. exact Hlo. }
      exists d', h', m', lo'. rewrite Hrun, Hdom.
      repeat split; try assumption; try lia.
      rewrite dom_insert_L. apply elem_of_dom_2 in Hh. set_solver.
      cbn [length]. lia.
    + rewrite Hm. unfold mret, raises_ret; rewrite raises_bind_ret; cbv beta.
      destruct (IH (<["Medium" := (m + 1)%Z]> d) h (m + 1)%Z lo) as
        (d' & h' & m' & lo' & Hrun & H1 & H2 & H3 & Hdom & Hle1 & Hle2 & Hle3 & Hsum).
      { rewrite lookup_insert_ne by discriminate. exact Hh. }
      { apply lookup_insert_eq. }
      { rewrite lookup_insert_ne by discriminate. exact Hlo. }
      exists d', h', m', lo'. rewrite Hrun, Hdom.
      repeat split; try assumption; try lia.
      rewrite dom_insert_L. apply elem_of_dom_2 in Hm. set_solver.
      cbn [length]. lia.
    + rewrite Hlo. unfold mret, raises_ret; rewrite raises_bind_ret; cbv beta.
      destruct (IH (<["Low" := (lo + 1)%Z]> d) h m (lo + 1)%Z) as
        (d' & h' & m' & lo' & Hrun & H1 & H2 & H3 & Hdom & Hle1 & Hle2 & Hle3 & Hsum).
      { rewrite lookup_insert_ne by discriminate. exact Hh. }
      { rewrite lookup_insert_ne by discriminate. exact Hm. }
      { apply lookup_insert_eq. }
      exists d', h', m', lo'. rewrite Hrun, Hdom.
      repeat split; try assumption; try lia.
      rewrite dom_insert_L. apply elem_of_dom_2 in Hlo. set_solver.
      cbn [length]. lia.
Qed.

(** X24. The risk distribution of the risk-assessment report is always
    produced: [risk_distribution[risk_level] += 1] never meets a missing
    key, because [predict_performance] only answers "High", "Medium" or
    "Low".  The three counters are non-negative and add up to the number
    of locomotives, and no other key appears. *)
Theorem risk_distribution_partition (svc : LocomotiveMLService) (clk : Clock)
    (locomotives : list Locomotive) :
  exists distribution high medium low,
    risk_distribution svc clk locomotives = inr distribution /\
    distribution !! "High" = Some high /\
    distribution !! "Medium" = Some medium /\
    distribution !! "Low" = Some low /\
    dom distribution = {[ "High"; "Medium"; "Low" ]} /\
    (0 <= high)%Z /\ (0 <= medium)%Z /\ (0 <= low)%Z /\
    (high + medium + low = Z.of_nat (length locomotives))%Z.
Proof.
  unfold risk_distribution.
  set (zeros := list_to_map [ ("High", 0%Z); ("Medium", 0%Z); ("Low", 0%Z) ]
                : gmap string Z).
  assert (Hhigh : zeros !! "High" = Some 0%Z) by apply lookup_insert_eq.
  assert (Hmedium : zeros !! "Medium" = Some 0%Z).
  { subst zeros. cbn [list_to_map foldr uncurry fst snd].
    rewrite lookup_insert_ne by discriminate. apply lookup_insert_eq. }
  assert (Hlow : zeros !! "Low" = Some 0%Z).
  { subst zeros. cbn [list_to_map foldr uncurry fst snd].
    rewrite !lookup_insert_ne by discriminate. apply lookup_insert_eq. }
  destruct (count_risk_levels_spec svc clk locomotives zeros 0 0 0 Hhigh Hmedium Hlow)
    as (d' & h' & m' & lo' & Hrun & H1 & H2 & H3 & Hdom & Hle1 & Hle2 & Hle3 & Hsum).
  exists d', h', m', lo'.
  refine (conj Hrun (conj H1 (conj H2 (conj H3 (conj _ _))))); [| lia].
  rewrite Hdom. subst zeros. rewrite dom_list_to_map_L.
  cbn [fmap list_fmap fst list_to_set]. set_solver.
Qed.


Lemma planning_priority_cases svc clk loco :
  planning_priority svc clk loco = "urgent"
  \/ planning_priority svc clk loco = "scheduled"
  \/ planning_priority svc clk loco = "routine".
Proof.
  unfold planning_priority. cbv zeta.
  destruct (_ || _); [auto|]. destruct (_ || _); auto.
Qed.

Lemma fill_maintenance_plan_spec svc clk locomotives :
  forall (d : gmap string (list Locomotive)) (u s r : list Locomotive),
    d !! "urgent" = Some u -> d !! "scheduled" = Some s -> d !! "routine" = Some r ->
    exists d',
      fill_maintenance_plan svc clk locomotives d = inr d' /\
      d' !! "urgent" =
        Some (u ++ List.filter
                     (fun loco => String.eqb (planning_priority svc clk loco) "urgent")
                     locomotives) /\
      d' !! "scheduled" =
        Some (s ++ List.filter
                     (fun loco => String.eqb (planning_priority svc clk loco) "scheduled")
                     locomotives) /\
      d' !! "routine" =
        Some (r ++ List.filter
                     (fun loco => String.eqb (planning_priority svc clk loco) "routine")
                     locomotives) /\
      dom d' = dom d.
Proof.
  induction locomotives as [|loco rest IH]; intros d u s r Hu Hs Hr.
  - exists d. cbn [fill_maintenance_plan List.filter]. rewrite !app_nil_r. auto.
  - cbn [fill_maintenance_plan List.filter]. unfold append_to.
    destruct (planning_priority_cases svc clk loco) as [E | [E | E]]; rewrite E.
    + rewrite Hu. unfold mret, raises_ret. rewrite raises_bind_ret. cbv beta.
      destruct (IH (<["urgent" := u ++ [loco]]> d) (u ++ [loco]) s r)
        as (d' & Hrun & H1 & H2 & H3 & Hdom).
      { apply lookup_insert_eq. }
      { rewrite lookup_insert_ne by discriminate. exact Hs. }
      { rewrite lookup_insert_ne by discriminate. exact Hr. }
      exists d'. cbn [String.eqb Ascii.eqb Bool.eqb].
      rewrite Hrun, H1, H2, H3, Hdom, <- app_assoc.
      refine (conj eq_refl (conj eq_refl (conj eq_refl (conj eq_refl _)))).
      rewrite dom_insert_L. apply elem_of_dom_2 in Hu. set_solver.
    + rewrite Hs. unfold mret, raises_ret. rewrite raises_bind_ret. cbv beta.
      destruct (IH (<["scheduled" := s ++ [loco]]> d) u (s ++ [loco]) r)
        as (d' & Hrun & H1 & H2 & H3 & Hdom).
      { rewrite lookup_insert_ne by discriminate. exact Hu. }
      { apply lookup_insert_eq. }
      { rewrite lookup_insert_ne by discriminate. exact Hr. }
      exists d'. cbn [String.eqb Ascii.eqb Bool.eqb].
      rewrite Hrun, H1, H2, H3, Hdom, <- app_assoc.
      refine (conj eq_refl (conj eq_refl (conj eq_refl (conj eq_refl _)))).
      rewrite dom_insert_L. apply elem_of_dom_2 in Hs. set_solver.
    + rewrite Hr. unfold mret, raises_ret. rewrite raises_bind_ret. cbv beta.
      destruct (IH (<["routine" := r ++ [loco]]> d) u s (r ++ [loco]))
        as (d' & Hrun & H1 & H2 & H3 & Hdom).
      { rewrite lookup_insert_ne by discriminate. exact Hu. }
      { rewrite lookup_insert_ne by discriminate. exact Hs. }
      { apply lookup_insert_eq. }
      exists d'. cbn [String.eqb Ascii.eqb Bool.eqb].
      rewrite Hrun, H1, H2, H3, Hdom, <- app_assoc.
      refine (conj eq_refl (conj eq_refl (conj eq_refl (conj eq_refl _)))).
      rewrite dom_insert_L. apply elem_of_dom_2 in Hr. set_solver.
Qed.

Lemma three_way_filter_length {A} (key : A -> string) (xs : list A) :
  (forall x, key x = "urgent" \/ key x = "scheduled" \/ key x = "routine") ->
  (length (List.filter (fun x => String.eqb (key x) "urgent") xs)
   + length (List.filter (fun x => String.eqb (key x) "scheduled") xs)
   + length (List.filter (fun x => String.eqb (key x) "routine") xs)
   = length xs)%nat.
Proof.
  intros Hkey. induction xs as [|x rest IH]; [reflexivity|].
  cbn [List.filter].
  destruct (Hkey x) as [E | [E | E]]; rewrite E;
    cbn [String.eqb Ascii.eqb Bool.eqb length]; lia.
Qed.

(** X25. The maintenance plan of the planning report is always produced:
    [maintenance_plan[priority].append(...)] never meets a missing key.
    Before sorting, each of the three lists holds, in fleet order, exactly
    the locomotives of that priority; the plan has no other key, and the
    three lists together have as many entries as the fleet. *)
Theorem maintenance_plan_partition (svc : LocomotiveMLService) (clk : Clock)
    (locomotives : list Locomotive) :
  exists plan urgent scheduled routine,
    maintenance_plan svc clk locomotives = inr plan /\
    plan !! "urgent" = Some urgent /\
    plan !! "scheduled" = Some scheduled /\
    plan !! "routine" = Some routine /\
    dom plan = {[ "urgent"; "scheduled"; "routine" ]} /\
    urgent = List.filter
               (fun loco => String.eqb (planning_priority svc clk loco) "urgent")
               locomotives /\
    scheduled = List.filter
                  (fun loco => String.eqb (planning_priority svc clk loco) "scheduled")
                  locomotives /\
    routine = List.filter
                (fun loco => String.eqb (planning_priority svc clk loco) "routine")
                locomotives /\
    (length urgent + length scheduled + length routine = length locomotives)%nat.
Proof.
  unfold maintenance_plan.
  set (empty_plan := list_to_map [ ("urgent", []); ("scheduled", []); ("routine", []) ]
                     : gmap string (list Locomotive)).
  assert (Hu : empty_plan !! "urgent" = Some []) by apply lookup_insert_eq.
  assert (Hs : empty_plan !! "scheduled" = Some []).
  { subst empty_plan. cbn [list_to_map foldr uncurry fst snd].
    rewrite lookup_insert_ne by discriminate. apply lookup_insert_eq. }
  assert (Hr : empty_plan !! "routine" = Some []).
  { subst empty_plan. cbn [list_to_map foldr uncurry fst snd].
    rewrite !lookup_insert_ne by discriminate. apply lookup_insert_eq. }
  destruct (fill_maintenance_plan_spec svc clk locomotives empty_plan [] [] [] Hu Hs Hr)
    as (plan & Hrun & H1 & H2 & H3 & Hdom).
  cbn [app] in H1, H2, H3.
  eexists plan, _, _, _.
  refine (conj Hrun (conj H1 (conj H2 (conj H3
            (conj _ (conj eq_refl (conj eq_refl (conj eq_refl _)))))))).
  - rewrite Hdom. subst empty_plan. rewrite dom_list_to_map_L.
    cbn [fmap list_fmap fst list_to_set]. set_solver.
  - apply (three_way_filter_length (planning_priority svc clk)).
    intros loco. apply planning_priority_cases.
Qed.


(** X26. In the maintenance schedule report the time since the last
    maintenance overrides wear, in both directions: a locomotive serviced
    more than 60 days ago is "High", one serviced 31 to 60 days ago is
    "Medium" even when its age or hours alone give "High", and one
    serviced at most 30 days ago has the priority of a locomotive with no
    maintenance date. *)
Theorem schedule_priority_recency (clk : Clock) (locomotive : Locomotive) (d : Z) :
  last_maintenance locomotive = Some d ->
  ((60 < days_since clk d)%Z -> schedule_priority clk locomotive = "High") /\
  ((30 < days_since clk d <= 60)%Z -> schedule_priority clk locomotive = "Medium") /\
  ((days_since clk d <= 30)%Z ->
   schedule_priority clk locomotive
   = schedule_priority clk (set_last_maintenance None locomotive)).
Proof.
  intros Hm. unfold schedule_priority. cbv zeta. rewrite Hm.
  cbn [last_maintenance set_last_maintenance].
  change (age clk (set_last_maintenance None locomotive)) with (age clk locomotive).
  cbn [operating_hours].
  refine (conj _ (conj _ _)).
  - intros H. apply Z.ltb_lt in H. rewrite H. reflexivity.
  - intros [H30 H60]. apply Z.ltb_lt in H30. apply Z.ltb_ge in H60.
    rewrite H30, H60. reflexivity.
  - intros H.
    assert (H60 : (60 <? days_since clk d)%Z = false) by (apply Z.ltb_ge; lia).
    assert (H30 : (30 <? days_since clk d)%Z = false) by (apply Z.ltb_ge; lia).
    rewrite H30, H60. reflexivity.
Qed.

Lemma schedule_priority_recency_witness :
  schedule_priority clock_november old_locomotive_serviced_recently = "Medium" /\
  schedule_priority clock_november old_locomotive = "High".
Proof.
  split; [|reflexivity].
  apply (proj1 (proj2 (schedule_priority_recency clock_november
                         old_locomotive_serviced_recently 739878 eq_refl))).
  unfold days_since. cbn. lia.
Defined.

(** X27. In the utilization report the displayed rate lies in [0, 100]
    and the status is taken from the unrounded rate, so the two agree up
    to the boundary: "High" comes with a displayed rate of at least 80,
    "Medium" with one between 60 and 80, "Low" with one of at most 60. *)
Theorem utilization_entry_sound (clk : Clock) (locomotive : Locomotive) :
  let rate := fst (utilization_entry clk locomotive) in
  let status := snd (utilization_entry clk locomotive) in
  0 <= rate <= 100 /\
  ((status = "High" /\ 80 <= rate)
   \/ (status = "Medium" /\ 60 <= rate <= 80)
   \/ (status = "Low" /\ rate <= 60)).
Proof.
  cbv zeta. unfold utilization_entry. cbv zeta. cbn [fst snd].
  set (raw := 100 - inject_Z (age clk locomotive * 2)
              - inject_Z (operating_hours locomotive) / 1000).
  assert (Hu : 0 <= Py.min 100 (Py.max 0 raw) <= 100).
  { clearbody raw. py_minmax; lra. }
  set (u := Py.min 100 (Py.max 0 raw)) in *. clearbody u. clear raw.
  destruct (Qle_bool 80 u) eqn:E80.
  - apply Qle_bool_iff in E80.
    assert (Hx : inject_Z 800 / 10 <= u <= inject_Z 1000 / 10).
    { change (inject_Z 800 / 10) with (800 # 10).
      change (inject_Z 1000 / 10) with (1000 # 10). lra. }
    apply round1_bounds in Hx.
    change (inject_Z 800 / 10) with (800 # 10) in Hx.
    change (inject_Z 1000 / 10) with (1000 # 10) in Hx.
    split; [lra|]. left. split; [reflexivity | lra].
  - assert (H80 : u < 80).
    { apply Qnot_le_lt. intros H. apply Qle_bool_iff in H. congruence. }
    destruct (Qle_bool 60 u) eqn:E60.
    + apply Qle_bool_iff in E60.
      assert (Hx : inject_Z 600 / 10 <= u <= inject_Z 800 / 10).
      { change (inject_Z 600 / 10) with (600 # 10).
        change (inject_Z 800 / 10) with (800 # 10). lra. }
      apply round1_bounds in Hx.
      change (inject_Z 600 / 10) with (600 # 10) in Hx.
      change (inject_Z 800 / 10) with (800 # 10) in Hx.
      split; [lra|]. right. left. split; [reflexivity | lra].
    + assert (H60 : u < 60).
      { apply Qnot_le_lt. intros H. apply Qle_bool_iff in H. congruence. }
      assert (Hx : inject_Z 0 / 10 <= u <= inject_Z 600 / 10).
      { change (inject_Z 0 / 10) with (0 # 10).
        change (inject_Z 600 / 10) with (600 # 10). lra. }
      apply round1_bounds in Hx.
      change (inject_Z 0 / 10) with (0 # 10) in Hx.
      change (inject_Z 600 / 10) with (600 # 10) in Hx.
      split; [lra|]. right. right. split; [reflexivity | lra].
Qed.


(** X28. In the failure predictions report a missing maintenance record
    lowers the score instead of raising it: with every other attribute
    equal, the score without a last-maintenance date is at most the score
    with any date that is not in the future, and it never exceeds 80; the
    same entry nevertheless recommends "Routine maintenance overdue". *)
Theorem report_score_rewards_missing_record (clk : Clock) (locomotive : Locomotive)
    (d : Z) :
  (0 <= days_since clk d)%Z ->
  report_risk_score clk (set_last_maintenance None locomotive)
    <= report_risk_score clk (set_last_maintenance (Some d) locomotive) /\
  report_risk_score clk (set_last_maintenance None locomotive) <= 80 /\
  In "Routine maintenance overdue"
     (snd (report_risk_entry clk (set_last_maintenance None locomotive))).
Proof.
  intros Hdays.
  refine (conj _ (conj _ _)).
  - unfold report_risk_score. cbv zeta.
    cbn [last_maintenance set_last_maintenance operating_hours].
    change (age clk (set_last_maintenance None locomotive)) with (age clk locomotive).
    change (age clk (set_last_maintenance (Some d) locomotive))
      with (age clk locomotive).
    assert (Hd : 0 <= inject_Z (days_since clk d) / 3).
    { apply Qle_shift_div_l; [reflexivity|].
      pose proof (inject_Z_nonneg _ Hdays). lra. }
    set (m := inject_Z (days_since clk d) / 3) in *. clearbody m.
    set (a := Py.min 50 (inject_Z (age clk locomotive * 2))).
    set (h := Py.min 30 (inject_Z (operating_hours locomotive) / 1000)).
    clearbody a h. py_minmax; lra.
  - unfold report_risk_score. cbv zeta.
    cbn [last_maintenance set_last_maintenance operating_hours].
    pose proof (py_min_upper 50
                  (inject_Z (age clk (set_last_maintenance None locomotive) * 2))).
    pose proof (py_min_upper 30 (inject_Z (operating_hours locomotive) / 1000)).
    py_minmax; lra.
  - unfold report_risk_entry. cbv zeta.
    cbn [last_maintenance set_last_maintenance snd].
    apply in_or_app. right. left. reflexivity.
Qed.

Lemma report_score_rewards_missing_record_witness :
  report_risk_score clock_november old_locomotive
    <= report_risk_score clock_november old_locomotive_serviced_recently /\
  report_risk_score clock_november old_locomotive <= 80 /\
  In "Routine maintenance overdue"
     (snd (report_risk_entry clock_november old_locomotive)).
Proof.
  apply (report_score_rewards_missing_record clock_november old_locomotive 739878).
  unfold days_since. cbn. lia.
Defined.


(** ** Prediction.generate_recommendations *)

(** X29. [Prediction.generate_recommendations] returns at most four
    items, one per block.  The list is empty exactly when the locomotive
    is at most 20 years old, has at most 40000 hours, was serviced at most
    60 days ago and scores at most 70.  A locomotive without a maintenance
    record always gets the immediate-inspection item.  The comprehensive
    inspection item appears exactly when the risk score is above 70, so
    only for a locomotive that [get_risk_level] rates "High". *)
Theorem prediction_recommendations_shape (clk : Clock) (locomotive : Locomotive) :
  let recommendations := generate_recommendations clk locomotive in
  (length recommendations <= 4)%nat /\
  (recommendations = [] <->
     (age clk locomotive <= 20)%Z /\ (operating_hours locomotive <= 40000)%Z /\
     (exists d, last_maintenance locomotive = Some d /\ (days_since clk d <= 60)%Z) /\
     calculate_risk_score clk locomotive <= 70) /\
  (last_maintenance locomotive = None ->
   In no_maintenance_record_item recommendations) /\
  (In high_risk_inspection_item recommendations <->
   70 < calculate_risk_score clk locomotive) /\
  (In high_risk_inspection_item recommendations ->
   get_risk_level clk locomotive = "High").
Proof.
  cbv zeta. unfold generate_recommendations. cbv zeta.
  set (age_block :=
         if (25 <? age clk locomotive)%Z then _
         else if (20 <? age clk locomotive)%Z then _ else []).
  assert (Hage : (length age_block <= 1)%nat /\
                 (age_block = [] <-> (age clk locomotive <= 20)%Z) /\
                 ~ In high_risk_inspection_item age_block).
  { subst age_block.
    destruct (25 <? age clk locomotive)%Z eqn:E25;
      [|destruct (20 <? age clk locomotive)%Z eqn:E20];
      try apply Z.ltb_lt in E25; try apply Z.ltb_ge in E25;
      try apply Z.ltb_lt in E20; try apply Z.ltb_ge in E20;
      cbn [app length In]; unfold high_risk_inspection_item;
      (refine (conj _ (conj _ _));
       [ lia
       | split; [intros; first [discriminate | lia] | intros; first [lia | reflexivity]]
       | intros Hin; repeat destruct Hin as [Hin | Hin]; try discriminate; exact Hin ]). }
  clearbody age_block.
  set (usage_block :=
         if (60000 <? operating_hours locomotive)%Z then _
         else if (40000 <? operating_hours locomotive)%Z then _ else age_block).
  assert (Husage : exists block,
             usage_block = age_block ++ block /\ (length block <= 1)%nat /\
             (block = [] <-> (operating_hours locomotive <= 40000)%Z) /\
             ~ In high_risk_inspection_item block).
  { subst usage_block.
    destruct (60000 <? operating_hours locomotive)%Z eqn:E6;
      [|destruct (40000 <? operating_hours locomotive)%Z eqn:E4];
      try apply Z.ltb_lt in E6; try apply Z.ltb_ge in E6;
      try apply Z.ltb_lt in E4; try apply Z.ltb_ge in E4;
      [eexists [ _ ] | eexists [ _ ] | exists []];
      rewrite ?app_nil_r;
      (refine (conj eq_refl (conj _ (conj _ _)));
       [ cbn [length]; lia
       | split; [intros; first [discriminate | lia] | intros; first [lia | reflexivity]]
       | unfold high_risk_inspection_item; cbn [In];
         intros Hin; repeat destruct Hin as [Hin | Hin]; try discriminate; exact Hin ]). }
  destruct Husage as (ublock & -> & Hulen & Huempty & Hunot).
  set (maintenance_block :=
         match last_maintenance locomotive with
         | None => _
         | Some d => _
         end).
  assert (Hmaint : exists block,
             maintenance_block = (age_block ++ ublock) ++ block /\
             (length block <= 1)%nat /\
             (block = [] <->
              exists d, last_maintenance locomotive = Some d
                        /\ (days_since clk d <= 60)%Z) /\
             (last_maintenance locomotive = None ->
              In no_maintenance_record_item block) /\
             ~ In high_risk_inspection_item block).
  { subst maintenance_block.
    destruct (last_maintenance locomotive) as [d|] eqn:Hm.
    - cbv zeta.
      destruct (90 <? days_since clk d)%Z eqn:E9;
        [|destruct (60 <? days_since clk d)%Z eqn:E6];
        try apply Z.ltb_lt in E9; try apply Z.ltb_ge in E9;
        try apply Z.ltb_lt in E6; try apply Z.ltb_ge in E6;
        [eexists [ _ ] | eexists [ _ ] | exists []];
        rewrite ?app_nil_r;
        (refine (conj eq_refl (conj _ (conj _ (conj _ _))));
         [ cbn [length]; lia
         | split;
           [ intros; first [discriminate | exists d; split; [reflexivity | lia]]
           | intros (d' & Hd' & Hle); first [reflexivity | injection Hd' as <-; lia] ]
         | discriminate
         | unfold high_risk_inspection_item; cbn [In];
           intros Hin; repeat destruct Hin as [Hin | Hin]; try discriminate; exact Hin ]).
    - exists [ no_maintenance_record_item ].
      refine (conj eq_refl (conj _ (conj _ (conj _ _)))).
      + cbn [length]. lia.
      + split; [discriminate | intros (d' & Hd' & _); discriminate].
      + intros _. left. reflexivity.
      + unfold high_risk_inspection_item, no_maintenance_record_item. cbn [In].
        intros [Hin | Hin]; [discriminate | exact Hin]. }
  destruct Hmaint as (mblock & -> & Hmlen & Hmempty & Hmnone & Hmnot).
  destruct Hage as (Halen & Haempty & Hanot).
  pose proof (get_risk_level_cases clk locomotive) as Hlevel. cbv zeta in Hlevel.
  destruct (qlt_bool_cases 70 (calculate_risk_score clk locomotive))
    as [[Hscore ->] | [Hscore ->]].
  - refine (conj _ (conj _ (conj _ (conj _ _)))).
    + rewrite !length_app. cbn [length]. lia.
    + split.
      * intros Hnil. apply app_eq_nil in Hnil. destruct Hnil as [_ Hnil]. discriminate.
      * intros (_ & _ & _ & Hle). lra.
    + intros Hnone. apply in_or_app. left. apply in_or_app. right. apply Hmnone, Hnone.
    + split; [intros _; exact Hscore|].
      intros _. apply in_or_app. right. left. reflexivity.
    + intros _. destruct Hlevel as [[_ ->] | [[[_ Hlt] _] | [Hlt _]]];
        [reflexivity | lra | lra].
  - assert (Hnot : ~ In high_risk_inspection_item ((age_block ++ ublock) ++ mblock)).
    { rewrite !in_app_iff. tauto. }
    refine (conj _ (conj _ (conj _ (conj _ _)))).
    + rewrite !length_app. lia.
    + split.
      * intros Hnil. apply app_eq_nil in Hnil. destruct Hnil as [Hnil Hm].
        apply app_eq_nil in Hnil. destruct Hnil as [Ha Hu].
        refine (conj _ (conj _ (conj _ Hscore))).
        -- apply Haempty, Ha.
        -- apply Huempty, Hu.
        -- apply Hmempty, Hm.
      * intros (Ha & Hu & Hm & _).
        apply Haempty in Ha. apply Huempty in Hu. apply Hmempty in Hm.
        rewrite Ha, Hu, Hm. reflexivity.
    + intros Hnone. apply in_or_app. right. apply Hmnone, Hnone.
    + split; [intros Hin; contradiction | intros Hlt; lra].
    + intros Hin. contradiction.
Qed.


(** ** The horizon of a prediction *)

Lemma py_int_lower (k : Z) (x : Q) : (0 <= k)%Z -> inject_Z k <= x -> (k <= Py.int x)%Z.
Proof.
  intros Hk Hx. unfold Py.int.
  unfold Qle in Hx. cbn in Hx.
  rewrite Z.quot_div_nonneg by nia.
  apply Z.div_le_lower_bound; nia.
Qed.

Lemma predict_performance_same_path svc clk l pt period period' :
  (predict_performance svc clk l pt period = _fallback_prediction clk l pt period /\
   predict_performance svc clk l pt period' = _fallback_prediction clk l pt period') \/
  exists ml_risk_score cat,
    predict_performance svc clk l pt period
    = ml_result clk l pt period (rescaled_risk_score clk l ml_risk_score) cat /\
    predict_performance svc clk l pt period'
    = ml_result clk l pt period' (rescaled_risk_score clk l ml_risk_score) cat.
Proof.
  unfold predict_performance, predict_performance_body.
  destruct (models_loaded svc); cbn [negb]; [|left; split; reflexivity].
  destruct (_prepare_locomotive_features svc clk l) as [features|];
    [|left; split; reflexivity].
  unfold mbind, raises_bind.
  destruct (scaler svc features) as [e | scaled]; [left; split; reflexivity|].
  destruct (risk_model svc scaled) as [e | ml_risk_score]; [left; split; reflexivity|].
  destruct (reliability_model svc scaled) as [e | code]; [left; split; reflexivity|].
  destruct (reliability_encoder_inverse svc code) as [e | cat];
    [left; split; reflexivity|].
  right. exists ml_risk_score, cat. split; reflexivity.
Qed.

Lemma fallback_availability_value clk l pt period :
  pt = "all" \/ pt = "availability_days" ->
  fallback_predictions clk l pt period !! "availability_days"
  = Some (inject_Z (Z.max 200 (365 - age clk l * 10))).
Proof.
  intros Hpt. unfold fallback_predictions. cbv zeta.
  rewrite !lookup_cond_insert_ne by discriminate.
  apply lookup_cond_insert_eq, requested_cases, Hpt.
Qed.

Lemma model_availability_value clk l pt period risk_score category :
  pt = "all" \/ pt = "availability_days" ->
  _generate_specific_predictions clk l pt period risk_score category
    !! "availability_days"
  = Some (inject_Z
            (Z.max 0 (Py.int (inject_Z (Z.max 250 (365 - age clk l * 8))
                              * (1 - risk_score / 200))))).
Proof.
  intros Hpt. unfold _generate_specific_predictions. cbv zeta.
  rewrite !lookup_cond_insert_ne by discriminate.
  apply lookup_cond_insert_eq, requested_cases, Hpt.
Qed.

(** X30. The predicted [availability_days] is a yearly figure that the
    horizon never scales: whenever the metric is requested, the results
    of [predict_performance] for two horizons carry the same number of
    available days, and that number is at least 125 on either path, so it
    exceeds every horizon shorter than 125 days. *)
Theorem availability_ignores_horizon (svc : LocomotiveMLService) (clk : Clock)
    (l : Locomotive) (pt : string) (period period' : Z) :
  pt = "all" \/ pt = "availability_days" ->
  exists predictions predictions' days,
    predict_performance svc clk l pt period !! "predictions"
      = Some (VDict predictions) /\
    predict_performance svc clk l pt period' !! "predictions"
      = Some (VDict predictions') /\
    predictions !! "availability_days" = Some days /\
    predictions' !! "availability_days" = Some days /\
    125 <= days.
Proof.
  intros Hpt.
  destruct (predict_performance_same_path svc clk l pt period period')
    as [[-> ->] | (ml & cat & -> & ->)].
  - eexists _, _, _.
    refine (conj (fallback_prediction_predictions _ _ _ _)
             (conj (fallback_prediction_predictions _ _ _ _)
               (conj (fallback_availability_value _ _ _ _ Hpt)
                 (conj (fallback_availability_value _ _ _ _ Hpt) _)))).
    change 125 with (inject_Z 125). rewrite <- Zle_Qle. lia.
  - eexists _, _, _.
    refine (conj (ml_result_predictions _ _ _ _ _ _)
             (conj (ml_result_predictions _ _ _ _ _ _)
               (conj (model_availability_value _ _ _ _ _ _ Hpt)
                 (conj (model_availability_value _ _ _ _ _ _ Hpt) _)))).
    pose proof (rescaled_risk_score_bounds clk l ml) as [_ Hhi].
    set (r := rescaled_risk_score clk l ml) in *. clearbody r.
    assert (Hbase : 250 <= inject_Z (Z.max 250 (365 - age clk l * 8))).
    { change 250 with (inject_Z 250). rewrite <- Zle_Qle. lia. }
    set (b := inject_Z (Z.max 250 (365 - age clk l * 8))) in *. clearbody b.
    assert (Hf : 1 # 2 <= 1 - r / 200).
    { unfold Qdiv. change (/ 200) with (1 # 200). lra. }
    set (f := 1 - r / 200) in *. clearbody f.
    assert (Hprod : inject_Z 125 <= b * f).
    { assert (H1 : 250 * f <= b * f) by (apply Qmult_le_compat_r; lra).
      change (inject_Z 125) with 125. lra. }
    apply py_int_lower in Hprod; [|lia].
    change 125 with (inject_Z 125). rewrite <- Zle_Qle. lia.
Qed.

Lemma availability_ignores_horizon_witness :
  exists predictions predictions' days,
    predict_performance constant_service clock_november old_locomotive "all" 30
      !! "predictions" = Some (VDict predictions) /\
    predict_performance constant_service clock_november old_locomotive "all" 365
      !! "predictions" = Some (VDict predictions') /\
    predictions !! "availability_days" = Some days /\
    predictions' !! "availability_days" = Some days /\
    125 <= days.
Proof.
  apply (availability_ignores_horizon constant_service clock_november old_locomotive
           "all" 30 365).
  left. reflexivity.
Defined.

(** ** The risk score in binary64 *)

Lemma binary64_min_least (a b : Binary64.number) :
  Binary64.min a b = Binary64.least a b.
Proof.
  unfold Binary64.min, Binary64.least, Binary64.lt, Py.Qlt_bool.
  destruct (Qle_bool (Binary64.value a) (Binary64.value b)); reflexivity.
Qed.

Lemma binary64_risk_level (clk : Clock) (l : Locomotive) :
  Binary64.get_risk_level clk l
  = risk_level_of (Binary64.value (Binary64.calculate_risk_score clk l)).
Proof. reflexivity. Qed.


(** *** How far the exact model is from binary64 *)

Lemma round_half_even_half (y : Q) :
  Qabs (inject_Z (Py.round_half_even y) - y) <= 1 # 2.
Proof.
  pose proof (Qfloor_le y) as Hlo. pose proof (Qlt_floor y) as Hhi.
  rewrite inject_Z_plus in Hhi. change (inject_Z 1) with 1 in Hhi.
  apply Qabs_Qle_condition. unfold Py.round_half_even. cbv zeta.
  destruct (Qcompare (y - inject_Z (Qfloor y)) (1 # 2)) eqn:E.
  - apply Qeq_alt in E.
    destruct (Z.even (Qfloor y)); rewrite ?inject_Z_plus;
      change (inject_Z 1) with 1; split; lra.
  - apply Qlt_alt in E. split; lra.
  - apply Qgt_alt in E. rewrite inject_Z_plus. change (inject_Z 1) with 1. split; lra.
Qed.

Lemma two_power_pos (k : Z) : 0 < 2 ^ k.
Proof. apply Qpower_0_lt. reflexivity. Qed.

Lemma two_power_log2 (n : Z) :
  (0 < n)%Z -> 2 ^ Z.log2 n <= inject_Z n /\ inject_Z n < 2 ^ (Z.log2 n + 1).
Proof.
  intros Hn. destruct (Z.log2_spec n Hn) as [Hlo Hhi].
  pose proof (Z.log2_nonneg n) as Hk.
  change 2 with (inject_Z 2).
  rewrite <- !Zpower_Qpower by lia.
  rewrite <- Zle_Qle, <- Zlt_Qlt. rewrite Z.add_1_r. split; assumption.
Qed.

Lemma Qlog2_lower (x : Q) : 0 < x -> 2 ^ Binary64.Qlog2 x <= x.
Proof.
  intros Hx. unfold Binary64.Qlog2. cbv zeta.
  set (n := Z.abs (Qnum x)). set (d := Z.pos (Qden x)).
  destruct (Qle_bool (2 ^ (Z.log2 n - Z.log2 d)) (Qabs x)) eqn:E.
  - apply Qle_bool_iff in E. rewrite Qabs_pos in E by lra. exact E.
  - assert (Hn : (0 < n)%Z).
    { subst n. unfold Qlt in Hx. cbn in Hx. lia. }
    assert (Hd : (0 < d)%Z) by (subst d; lia).
    destruct (two_power_log2 n Hn) as [Hnlo _].
    destruct (two_power_log2 d Hd) as [_ Hdhi].
    assert (Hxq : x == inject_Z n / inject_Z d).
    { subst n d. rewrite Z.abs_eq by (unfold Qlt in Hx; cbn in Hx; lia).
      destruct x as [xn xd]. apply Qmake_Qdiv. }
    replace (Z.log2 n - Z.log2 d - 1)%Z with (Z.log2 n - (Z.log2 d + 1))%Z by lia.
    rewrite Qpower_minus by (intros H; discriminate H).
    rewrite Hxq.
    pose proof (two_power_pos (Z.log2 d + 1)) as Hp.
    assert (Hdq : 0 < inject_Z d) by (change 0 with (inject_Z 0); rewrite <- Zlt_Qlt; lia).
    apply Qle_shift_div_l; [exact Hdq|].
    unfold Qdiv. rewrite <- Qmult_assoc.
    rewrite (Qmult_comm (/ 2 ^ (Z.log2 d + 1))). rewrite Qmult_assoc.
    apply Qle_shift_div_r; [exact Hp|].
    pose proof (two_power_pos (Z.log2 n)) as Hpn.
    apply Qle_trans with (inject_Z n * inject_Z d).
    + apply Qmult_le_compat_r; [exact Hnlo | lra].
    + rewrite (Qmult_comm (inject_Z n) (2 ^ _)).
      rewrite (Qmult_comm (inject_Z n) (inject_Z d)).
      apply Qmult_le_compat_r; [lra|].
      change 0 with (inject_Z 0). rewrite <- Zle_Qle. lia.
Qed.

Lemma nearest_zero (x : Q) : x == 0 -> Binary64.nearest x = 0.
Proof.
  intros Hx. unfold Binary64.nearest.
  apply Qeq_bool_iff in Hx. rewrite Hx. reflexivity.
Qed.

Lemma nearest_scaled (x : Q) :
  ~ x == 0 ->
  Binary64.nearest x
  == inject_Z (Py.round_half_even (x / 2 ^ Binary64.ulp_exponent x))
     * 2 ^ Binary64.ulp_exponent x.
Proof.
  intros Hx. unfold Binary64.nearest.
  destruct (Qeq_bool x 0) eqn:E.
  - apply Qeq_bool_iff in E. contradiction.
  - cbv zeta. apply Qred_correct.
Qed.

Lemma nearest_nonneg (x : Q) : 0 <= x -> 0 <= Binary64.nearest x.
Proof.
  intros Hx. destruct (Qeq_dec x 0) as [H0 | H0].
  - rewrite (nearest_zero x H0). lra.
  - rewrite (nearest_scaled x H0).
    pose proof (two_power_pos (Binary64.ulp_exponent x)) as Hp.
    apply Qmult_le_0_compat; [|lra].
    apply inject_Z_nonneg, round_half_even_lower.
    change (inject_Z 0) with 0. apply Qle_shift_div_l; [exact Hp | lra].
Qed.

Lemma ulp_bound (x : Q) :
  0 < x -> 2 ^ Binary64.ulp_exponent x <= x * (2 * Binary64.unit_roundoff) + 2 * Binary64.tiny.
Proof.
  intros Hx. unfold Binary64.ulp_exponent.
  pose proof (Qlog2_lower x Hx) as Hlog.
  destruct (Z.max_spec (Binary64.Qlog2 x - 52) (-1074)) as [[_ ->] | [_ ->]].
  - assert (H : 2 ^ (-1074) <= 2 * Binary64.tiny) by (vm_compute; discriminate).
    assert (0 <= x * (2 * Binary64.unit_roundoff)).
    { apply Qmult_le_0_compat; [lra | vm_compute; discriminate]. }
    lra.
  - replace (Binary64.Qlog2 x - 52)%Z with (Binary64.Qlog2 x + (-52))%Z by lia.
    rewrite Qpower_plus by (intros H; discriminate H).
    assert (Hc : 2 ^ (-52) == 2 * Binary64.unit_roundoff) by reflexivity.
    rewrite Hc.
    assert (2 ^ Binary64.Qlog2 x * (2 * Binary64.unit_roundoff) <= x * (2 * Binary64.unit_roundoff)).
    { apply Qmult_le_compat_r; [exact Hlog | vm_compute; discriminate]. }
    assert (0 <= 2 * Binary64.tiny) by (vm_compute; discriminate).
    lra.
Qed.

(** Rounding to the nearest binary64 moves a non-negative number by at
    most its fraction [2^-53], or by a tiny amount in the subnormal
    range. *)
Lemma nearest_close (x : Q) :
  0 <= x ->
  x - (x * Binary64.unit_roundoff + Binary64.tiny) <= Binary64.nearest x
  /\ Binary64.nearest x <= x + (x * Binary64.unit_roundoff + Binary64.tiny).
Proof.
  intros Hx. destruct (Qeq_dec x 0) as [H0 | H0].
  - rewrite (nearest_zero x H0). rewrite H0.
    split; vm_compute; discriminate.
  - assert (Hpos : 0 < x).
    { destruct (Qlt_le_dec 0 x) as [H | H]; [exact H|]. exfalso. apply H0. lra. }
    rewrite (nearest_scaled x H0).
    set (e := Binary64.ulp_exponent x).
    pose proof (two_power_pos e) as Hp.
    pose proof (ulp_bound x Hpos) as Hulp. fold e in Hulp.
    pose proof (round_half_even_half (x / 2 ^ e)) as Hr.
    apply Qabs_Qle_condition in Hr.
    set (r := inject_Z (Py.round_half_even (x / 2 ^ e))) in *.
    assert (Hxe : x == x / 2 ^ e * 2 ^ e).
    { field. intros H. rewrite H in Hp. revert Hp. apply Qlt_irrefl. }
    set (y := x / 2 ^ e) in *. set (p := 2 ^ e) in *. clearbody r y p.
    destruct Hr as [Hr1 Hr2].
    assert (H1 : (y - (1 # 2)) * p <= r * p) by (apply Qmult_le_compat_r; lra).
    assert (H2 : r * p <= (y + (1 # 2)) * p) by (apply Qmult_le_compat_r; lra).
    unfold Binary64.unit_roundoff, Binary64.tiny in *. split; lra.
Qed.

Lemma value_min (a b : Binary64.number) :
  Binary64.value (Binary64.min a b) = Py.min (Binary64.value a) (Binary64.value b).
Proof.
  unfold Binary64.min, Binary64.lt, Py.min.
  destruct (Py.Qlt_bool (Binary64.value b) (Binary64.value a)); reflexivity.
Qed.

Lemma py_min_close (c x y e : Q) :
  y - e <= x /\ x <= y + e ->
  Py.min c y - e <= Py.min c x /\ Py.min c x <= Py.min c y + e.
Proof. intros [H1 H2]. py_minmax; split; lra. Qed.

Lemma to_float_nonneg (a : Binary64.number) :
  0 <= Binary64.value a -> 0 <= Binary64.to_float a.
Proof.
  destruct a as [n | x]; cbn [Binary64.value Binary64.to_float]; intros H.
  - apply nearest_nonneg, H.
  - exact H.
Qed.

Lemma to_float_close (a : Binary64.number) :
  0 <= Binary64.value a ->
  Binary64.value a - (Binary64.value a * Binary64.unit_roundoff + Binary64.tiny) <= Binary64.to_float a
  /\ Binary64.to_float a <= Binary64.value a + (Binary64.value a * Binary64.unit_roundoff + Binary64.tiny).
Proof.
  destruct a as [n | x]; cbn [Binary64.value Binary64.to_float]; intros H.
  - apply nearest_close, H.
  - unfold Binary64.unit_roundoff, Binary64.tiny. split; lra.
Qed.

Lemma add_nonneg (a b : Binary64.number) :
  0 <= Binary64.value a -> 0 <= Binary64.value b ->
  0 <= Binary64.value (Binary64.add a b).
Proof.
  intros Ha Hb.
  pose proof (to_float_nonneg a Ha) as Hfa. pose proof (to_float_nonneg b Hb) as Hfb.
  destruct a as [m | x], b as [n | y]; cbn [Binary64.add Binary64.value] in *;
    try (apply nearest_nonneg; lra).
  rewrite inject_Z_plus. lra.
Qed.

(** A sum of two non-negative numbers that stays below [B]. *)
Lemma add_close (a b : Binary64.number) (B : Q) :
  0 <= Binary64.value a -> 0 <= Binary64.value b ->
  Binary64.value a + Binary64.value b <= B ->
  Binary64.value a + Binary64.value b - (3 * B * Binary64.unit_roundoff + 4 * Binary64.tiny)
  <= Binary64.value (Binary64.add a b)
  /\ Binary64.value (Binary64.add a b)
     <= Binary64.value a + Binary64.value b + (3 * B * Binary64.unit_roundoff + 4 * Binary64.tiny).
Proof.
  intros Ha Hb HB.
  pose proof (to_float_nonneg a Ha) as Hfa. pose proof (to_float_nonneg b Hb) as Hfb.
  pose proof (to_float_close a Ha) as [Ha1 Ha2].
  pose proof (to_float_close b Hb) as [Hb1 Hb2].
  assert (Hsum : 0 <= Binary64.to_float a + Binary64.to_float b) by lra.
  pose proof (nearest_close _ Hsum) as [Hs1 Hs2].
  assert (Hexact : forall m n : Z,
             inject_Z m + inject_Z n <= B -> 0 <= inject_Z m -> 0 <= inject_Z n ->
             inject_Z m + inject_Z n - (3 * B * Binary64.unit_roundoff + 4 * Binary64.tiny)
             <= inject_Z (m + n)
             /\ inject_Z (m + n)
                <= inject_Z m + inject_Z n + (3 * B * Binary64.unit_roundoff + 4 * Binary64.tiny)).
  { intros m n H Hm Hn. rewrite inject_Z_plus. unfold Binary64.unit_roundoff, Binary64.tiny. split; lra. }
  destruct a as [m | x], b as [n | y];
    cbn [Binary64.add Binary64.value Binary64.to_float] in *;
    [ apply Hexact; assumption | | | ];
    unfold Binary64.unit_roundoff, Binary64.tiny in *; split; lra.
Qed.

(** The usage term: the quotient and the product are rounded, and the
    result is cut at 30. *)
Lemma usage_risk_close (hours : Z) :
  (0 <= hours)%Z ->
  let exact := Py.min 30 (inject_Z hours / 1000 * (6 # 10)) in
  let rounded :=
    Binary64.value
      (Binary64.min (Binary64.Int 30)
         (Binary64.mul (Binary64.truediv (Binary64.Int hours) (Binary64.Int 1000))
            (Binary64.literal (6 # 10)))) in
  0 <= rounded /\ rounded <= 30 /\
  exact - (1 # 35184372088832) <= rounded /\ rounded <= exact + (1 # 35184372088832).
Proof.
  intros Hh. cbv zeta. rewrite value_min.
  cbn [Binary64.truediv Binary64.mul Binary64.literal Binary64.to_float Binary64.value].
  replace (Binary64.nearest (6 # 10)) with (5404319552844595 # 9007199254740992)
    by (vm_compute; reflexivity).
  change (inject_Z 1000) with 1000. change (inject_Z 30) with 30.
  assert (Hx : 0 <= inject_Z hours / 1000).
  { apply Qle_shift_div_l; [reflexivity|]. pose proof (inject_Z_nonneg _ Hh). lra. }
  set (x := inject_Z hours / 1000) in *. clearbody x.
  pose proof (nearest_nonneg x Hx) as Hq0.
  pose proof (nearest_close x Hx) as [Hq1 Hq2].
  set (q := Binary64.nearest x) in *. clearbody q.
  assert (Hz : 0 <= q * (5404319552844595 # 9007199254740992)).
  { apply Qmult_le_0_compat; [exact Hq0 | vm_compute; discriminate]. }
  pose proof (nearest_nonneg _ Hz) as Hp0.
  pose proof (nearest_close _ Hz) as [Hp1 Hp2].
  set (p := Binary64.nearest (q * (5404319552844595 # 9007199254740992))) in *.
  clearbody p. unfold Binary64.unit_roundoff, Binary64.tiny in *.
  py_minmax; repeat split; lra.
Qed.

(** The maintenance term, for a date that is not after today. *)
Lemma maintenance_risk_close (days : Z) :
  (0 <= days)%Z ->
  let exact := Py.min 20 (inject_Z days * (2 # 10)) in
  let rounded :=
    Binary64.value
      (Binary64.min (Binary64.Int 20)
         (Binary64.mul (Binary64.Int days) (Binary64.literal (2 # 10)))) in
  0 <= rounded /\ rounded <= 20 /\
  exact - (1 # 35184372088832) <= rounded /\ rounded <= exact + (1 # 35184372088832).
Proof.
  intros Hd. cbv zeta. rewrite value_min.
  cbn [Binary64.mul Binary64.literal Binary64.to_float Binary64.value].
  replace (Binary64.nearest (2 # 10)) with (3602879701896397 # 18014398509481984)
    by (vm_compute; reflexivity).
  change (inject_Z 20) with 20.
  pose proof (inject_Z_nonneg _ Hd) as Hx.
  set (x := inject_Z days) in *. clearbody x.
  pose proof (nearest_nonneg x Hx) as Hq0.
  pose proof (nearest_close x Hx) as [Hq1 Hq2].
  set (q := Binary64.nearest x) in *. clearbody q.
  assert (Hz : 0 <= q * (3602879701896397 # 18014398509481984)).
  { apply Qmult_le_0_compat; [exact Hq0 | vm_compute; discriminate]. }
  pose proof (nearest_nonneg _ Hz) as Hp0.
  pose proof (nearest_close _ Hz) as [Hp1 Hp2].
  set (p := Binary64.nearest (q * (3602879701896397 # 18014398509481984))) in *.
  clearbody p. unfold Binary64.unit_roundoff, Binary64.tiny in *.
  py_minmax; repeat split; lra.
Qed.

(** For a locomotive with non-negative age and hours and no maintenance
    date in the future, the score computed in binary64 and the exact
    value of the formula differ by at most [2^-40]. *)
Lemma binary64_score_close (clk : Clock) (l : Locomotive) :
  (0 <= age clk l)%Z -> (0 <= operating_hours l)%Z ->
  (forall d, last_maintenance l = Some d -> (d <= today clk)%Z) ->
  Qabs (Binary64.value (Binary64.calculate_risk_score clk l) - calculate_risk_score clk l)
  <= 1 # 1099511627776.
Proof.
  intros Hage Hhours Hmaint.
  unfold Binary64.calculate_risk_score, calculate_risk_score. cbv zeta.
  rewrite value_min. change (Binary64.value (Binary64.Int 100)) with 100.
  apply Qabs_Qle_condition.
  assert (Hclose : forall x y e,
             y - e <= x /\ x <= y + e ->
             - e <= Py.min 100 x - Py.min 100 y <= e).
  { intros x y e H. destruct (py_min_close 100 x y e H). split; lra. }
  apply Hclose. clear Hclose.
  (* the age term is an [int] between 0 and 50 *)
  set (age_risk := Binary64.min (Binary64.Int 50)
                     (Binary64.mul (Binary64.Int (age clk l)) (Binary64.Int 2))).
  assert (Hage_risk : Binary64.value age_risk = Py.min 50 (inject_Z (age clk l * 2))).
  { subst age_risk. rewrite value_min. reflexivity. }
  assert (Hage_range : 0 <= Binary64.value age_risk /\ Binary64.value age_risk <= 50).
  { rewrite Hage_risk.
    assert (0 <= inject_Z (age clk l * 2)) by (apply inject_Z_nonneg; lia).
    py_minmax; split; lra. }
  rewrite <- Hage_risk. clearbody age_risk. clear Hage_risk.
  (* the usage term *)
  pose proof (usage_risk_close (operating_hours l) Hhours) as Husage.
  cbv zeta in Husage.
  set (usage_risk := Binary64.min (Binary64.Int 30) _) in *.
  set (usage_exact := Py.min 30 _) in *.
  clearbody usage_risk usage_exact.
  destruct Husage as (Hu0 & Hu30 & Hu1 & Hu2).
  (* the maintenance term *)
  assert (Hmaintenance :
    exists maintenance_risk maintenance_exact,
      match last_maintenance l with
      | Some d =>
          Binary64.min (Binary64.Int 20)
            (Binary64.mul (Binary64.Int (days_since clk d)) (Binary64.literal (2 # 10)))
      | None => Binary64.Int 20
      end = maintenance_risk /\
      match last_maintenance l with
      | Some d => Py.min 20 (inject_Z (days_since clk d) * (2 # 10))
      | None => 20
      end = maintenance_exact /\
      0 <= Binary64.value maintenance_risk /\ Binary64.value maintenance_risk <= 20 /\
      maintenance_exact - (1 # 35184372088832) <= Binary64.value maintenance_risk /\
      Binary64.value maintenance_risk <= maintenance_exact + (1 # 35184372088832)).
  { destruct (last_maintenance l) as [d|] eqn:Hlast.
    - eexists _, _. split; [reflexivity|]. split; [reflexivity|].
      apply maintenance_risk_close. unfold days_since.
      specialize (Hmaint d eq_refl). lia.
    - eexists _, _. split; [reflexivity|]. split; [reflexivity|].
      cbn [Binary64.value]. change (inject_Z 20) with 20. repeat split; lra. }
  destruct Hmaintenance as (maintenance_risk & maintenance_exact & -> & -> & Hm0 & Hm20 & Hm1 & Hm2).
  (* the two sums *)
  assert (Hs80 : Binary64.value age_risk + Binary64.value usage_risk <= 80) by lra.
  pose proof (add_nonneg age_risk usage_risk (proj1 Hage_range) Hu0) as Hs0.
  pose proof (add_close age_risk usage_risk 80 (proj1 Hage_range) Hu0 Hs80) as [Hs1 Hs2].
  set (partial := Binary64.add age_risk usage_risk) in *. clearbody partial.
  assert (Ht101 : Binary64.value partial + Binary64.value maintenance_risk <= 101).
  { unfold Binary64.unit_roundoff, Binary64.tiny in *. lra. }
  pose proof (add_close partial maintenance_risk 101 Hs0 Hm0 Ht101) as [Ht1 Ht2].
  set (total := Binary64.value (Binary64.add partial maintenance_risk)) in *.
  clearbody total.
  set (a := Binary64.value age_risk) in *. set (u := Binary64.value usage_risk) in *.
  set (m := Binary64.value maintenance_risk) in *. set (s := Binary64.value partial) in *.
  clearbody a u m s.
  unfold Binary64.unit_roundoff, Binary64.tiny in *. split; lra.
Qed.

(** Away from the two thresholds the level of the program is the level
    of the exact formula. *)
Lemma binary64_level_off_threshold (clk : Clock) (l : Locomotive) :
  (0 <= age clk l)%Z -> (0 <= operating_hours l)%Z ->
  (forall d, last_maintenance l = Some d -> (d <= today clk)%Z) ->
  (1 # 1099511627776) < Qabs (calculate_risk_score clk l - 40) ->
  (1 # 1099511627776) < Qabs (calculate_risk_score clk l - 70) ->
  Binary64.get_risk_level clk l = get_risk_level clk l.
Proof.
  intros Hage Hhours Hmaint H40 H70.
  pose proof (binary64_score_close clk l Hage Hhours Hmaint) as Hclose.
  apply Qabs_Qle_condition in Hclose. destruct Hclose as [Hc1 Hc2].
  rewrite binary64_risk_level. unfold get_risk_level.
  set (b := Binary64.value (Binary64.calculate_risk_score clk l)) in *.
  set (e := calculate_risk_score clk l) in *. clearbody b e.
  unfold risk_level_of.
  revert H40 H70.
  apply (Qabs_case (e - 40)); intros Ha H40; apply (Qabs_case (e - 70)); intros Hb H70;
    destruct (Qle_bool 70 b) eqn:B70; destruct (Qle_bool 40 b) eqn:B40;
    destruct (Qle_bool 70 e) eqn:E70; destruct (Qle_bool 40 e) eqn:E40;
    try reflexivity; exfalso;
    repeat match goal with
    | H : Qle_bool _ _ = true |- _ => apply Qle_bool_iff in H
    | H : Qle_bool ?x ?y = false |- _ =>
        assert (y < x)
          by (apply Qnot_le_lt; intros Hle; apply Qle_bool_iff in Hle; congruence);
        clear H
    end; lra.
Qed.

(** C3. [calculate_risk_score], with the arithmetic of Python (exact on
    [int]s, rounded to the nearest binary64 on [float]s), is
    [min(100, age_risk + usage_risk + maintenance_risk)] with
    [age_risk = min(50, age*2)], [usage_risk = min(30, (hours/1000)*0.6)]
    and [maintenance_risk = min(20, days*0.2)] when a last-maintenance
    date exists, 20 otherwise; [get_risk_level] answers "High" when that
    score is at least 70, "Medium" when it is at least 40 and "Low"
    below.  For non-negative age and hours and a maintenance date not
    after today, the score is within [2^-40] of the exact value of the
    formula, and the level is the level of that exact value unless it is
    within [2^-40] of 40 or of 70. *)
Theorem C3_risk_score_and_level (clk : Clock) (l : Locomotive) :
  Binary64.calculate_risk_score clk l = Binary64.spec_risk_score clk l /\
  Binary64.get_risk_level clk l
  = spec_risk_level (Binary64.value (Binary64.spec_risk_score clk l)) /\
  ((0 <= age clk l)%Z -> (0 <= operating_hours l)%Z ->
   (forall d, last_maintenance l = Some d -> (d <= today clk)%Z) ->
   Qabs (Binary64.value (Binary64.calculate_risk_score clk l) - spec_risk_score clk l)
   <= 1 # 1099511627776 /\
   ((1 # 1099511627776) < Qabs (spec_risk_score clk l - 40) ->
    (1 # 1099511627776) < Qabs (spec_risk_score clk l - 70) ->
    Binary64.get_risk_level clk l = spec_risk_level (spec_risk_score clk l))).
Proof.
  assert (Hscore : Binary64.calculate_risk_score clk l = Binary64.spec_risk_score clk l).
  { unfold Binary64.calculate_risk_score, Binary64.spec_risk_score. cbv zeta.
    rewrite !binary64_min_least.
    destruct (last_maintenance l) as [d|]; [rewrite binary64_min_least|]; reflexivity. }
  split; [exact Hscore|]. split.
  - rewrite binary64_risk_level, Hscore. apply risk_level_of_spec.
  - intros Hage Hhours Hmaint.
    pose proof (calculate_risk_score_spec clk l) as Hspec.
    split.
    + rewrite <- Hspec. apply binary64_score_close; assumption.
    + intros H40 H70. rewrite <- Hspec in H40, H70.
      rewrite (binary64_level_off_threshold clk l Hage Hhours Hmaint H40 H70).
      unfold get_risk_level. rewrite risk_level_of_spec.
      apply spec_risk_level_proper, Hspec.
Qed.

Lemma C3_risk_score_and_level_witness :
  Binary64.get_risk_level clock_november threshold_locomotive
  = spec_risk_level
      (Binary64.value (Binary64.spec_risk_score clock_november threshold_locomotive)) /\
  Qabs (Binary64.value (Binary64.calculate_risk_score clock_november threshold_locomotive)
        - spec_risk_score clock_november threshold_locomotive)
  <= 1 # 1099511627776.
Proof.
  destruct (C3_risk_score_and_level clock_november threshold_locomotive)
    as (_ & Hlevel & Hclose).
  split; [exact Hlevel|].
  apply Hclose.
  - vm_compute. discriminate.
  - vm_compute. discriminate.
  - intros d [= <-]. vm_compute. discriminate.
Defined.

(** At a threshold the rounding decides: ten years, 31000 hours and
    seven days since the last maintenance give exactly 40 in exact
    arithmetic, and the binary64 just below 40 in the arithmetic of the
    program, hence "Low". *)
Lemma binary64_rounds_below_threshold :
  calculate_risk_score clock_november threshold_locomotive == 40 /\
  Binary64.calculate_risk_score clock_november threshold_locomotive
  = Binary64.Float (5629499534213119 # 140737488355328) /\
  Binary64.get_risk_level clock_november threshold_locomotive = "Low".
Proof. vm_compute. repeat split. Qed.

(** On the sample operands [Binary64.nearest] gives the conversions,
    sums, products and quotients of the IEEE 754 specification. *)
Lemma nearest_agrees_with_spec_float :
  forallb Binary64.agrees_with_spec_float Binary64.sample_operands = true.
Proof. vm_compute. reflexivity. Qed.

